(** * Apple2Dreem: night segmentation and sleep statistics

    A shallow embedding of the core of [Apple2Dreem.py]: the stage mapping,
    the 30-second timeline, the overlay of sleep entries, the per-night
    summary computed by [process_health_data] and the night grouping loop of
    [process_file], followed by the properties stated about them.

    Conventions of the embedding.
    - A [timedelta] is an integer number of microseconds, as in Python.
    - A [datetime] is timezone-aware with a fixed UTC offset: its wall-clock
      reading (microseconds since 0001-01-01T00:00:00 of its own zone) and
      its offset.  Ordering and subtraction go through the UTC instant,
      arithmetic with a [timedelta] moves the wall clock and keeps the zone.
      The plain functions compute on an unbounded time line; those named
      [_checked] are the same computations within the years 1..9999 of
      Python, raising OverflowError where Python does.
    - A [date] is its proleptic Gregorian ordinal (day 1 is 0001-01-01).
    - An exception is a value of type [exn]; a function that may raise
      returns a [result].
    - Reading and validating the JSON file, naming and writing the CSV file
      and renaming the input are outside the embedding: of [process_file]
      the grouping of the parsed entries and the loop over the groups are
      modelled. *)

From Stdlib Require Import ZArith List String Ascii Bool Lia.
From Stdlib Require Import Permutation Sorted Finite.
From Stdlib Require Import DecimalString DecimalZ.
From Equations Require Import Equations.
Import ListNotations.

Open Scope Z_scope.

(** ** Time values *)

Module Time.

Abbreviation timedelta := Z (only parsing).

Definition us_per_second : Z := 1000000.

(** [timedelta(seconds=n)], [timedelta(days=n)] and
    [timedelta(hours=h, minutes=m, seconds=s)]. *)
Definition seconds (n : Z) : timedelta := n * us_per_second.
Definition days (n : Z) : timedelta := seconds (n * 86400).
Definition hms (h m s : Z) : timedelta := seconds (h * 3600 + m * 60 + s).

Record datetime := mkdt { wall : Z; utcoffset : Z }.

(** The instant on the UTC axis, which aware datetimes are compared by. *)
Definition utc (d : datetime) : Z := wall d - utcoffset d.

Definition dt_add (d : datetime) (td : timedelta) : datetime :=
  mkdt (wall d + td) (utcoffset d).

Definition dt_sub (a b : datetime) : timedelta := utc a - utc b.

Definition dt_ltb (a b : datetime) : bool := utc a <? utc b.
Definition dt_leb (a b : datetime) : bool := utc a <=? utc b.

(** [d.date()], [d.time()] and [datetime.combine(date, time, tzinfo)];
    a time of day is its number of microseconds since midnight. *)
Definition us_per_day : Z := 86400 * us_per_second.
Definition date_of (d : datetime) : Z := wall d / us_per_day + 1.
Definition time_of (d : datetime) : Z := wall d mod us_per_day.
Definition time_hms (h m s : Z) : Z := hms h m s.
Definition combine (date time tzinfo : Z) : datetime :=
  mkdt ((date - 1) * us_per_day + time) tzinfo.

End Time.
Import Time.

(** ** Stages, segments and entries *)

Inductive CanonicalStage := Asleep | Light | Deep | REM | WAKE.

Definition Stage_eqb (a b : CanonicalStage) : bool :=
  match a, b with
  | Asleep, Asleep | Light, Light | Deep, Deep | REM, REM | WAKE, WAKE => true
  | _, _ => false
  end.

Definition is_wake (s : CanonicalStage) : bool := Stage_eqb s WAKE.

Definition stage_label (s : CanonicalStage) : string :=
  match s with
  | Asleep => "Asleep"
  | Light => "Light"
  | Deep => "Deep"
  | REM => "REM"
  | WAKE => "WAKE"
  end.

Record SleepSegment := mkSegment { Start : datetime; Stage : CanonicalStage }.

(** [Qty] is a float in the source; none of the functions below reads it. *)
Record SleepEntry := mkEntry {
  Source : string;
  Qty : Z;
  StartDate : datetime;
  Value : string;
  EndDate : datetime
}.

(** ** [create_30s_segments] *)

(** How many more times the loop test [current_time < end_time] can succeed:
    the span left, in 30-second steps, rounded up. *)
Definition slots_left (current_time end_time : datetime) : nat :=
  Z.to_nat ((utc end_time - utc current_time + (seconds 30 - 1)) / seconds 30).

Equations segments_loop (current_time end_time : datetime) : list SleepSegment
  by wf (slots_left current_time end_time) lt :=
  segments_loop current_time end_time
    with Z_lt_dec (utc current_time) (utc end_time) => {
    | left Hlt := mkSegment current_time WAKE
                  :: segments_loop (dt_add current_time (seconds 30)) end_time;
    | right _ := [] }.
Next Obligation.
  unfold slots_left, utc, dt_add, seconds, us_per_second in *.
  cbn [wall utcoffset] in *.
  set (d := wall end_time - utcoffset end_time
            - (wall current_time - utcoffset current_time)) in *.
  replace (wall end_time - utcoffset end_time
           - (wall current_time + 30000000 - utcoffset current_time)
           + (30 * 1000000 - 1))
    with (d + (30 * 1000000 - 1) + (-1) * 30000000) by (unfold d; ring).
  rewrite Z.div_add by lia.
  assert (1 <= (d + (30 * 1000000 - 1)) / (30 * 1000000))
    by (apply Z.div_le_lower_bound; lia).
  change (30 * 1000000) with 30000000 in *. lia.
Qed.

Definition create_30s_segments (start_time end_time : datetime)
  : list SleepSegment :=
  segments_loop start_time end_time.

(** ** [map_sleep_stage] *)

Definition mapping : list (string * CanonicalStage) :=
  [ ("Core", Light); ("Asleep", Asleep); ("Deep", Deep); ("REM", REM);
    ("Awake", WAKE); ("InBed", WAKE) ]%string.

Fixpoint dict_get {A} (d : list (string * A)) (k : string) (default : A) : A :=
  match d with
  | [] => default
  | (k', v) :: d' => if String.eqb k k' then v else dict_get d' k default
  end.

Definition map_sleep_stage (stage : string) : CanonicalStage :=
  dict_get mapping stage WAKE.

(** ** [update_segments_with_sleep_data] *)

(** The body of the inner loop: one entry meets one segment. *)
Definition update_segment (start end_ : datetime) (stage : CanonicalStage)
    (segment : SleepSegment) : SleepSegment :=
  if dt_leb start (Start segment) && dt_leb (Start segment) end_
     && is_wake (Stage segment)
  then mkSegment (Start segment) stage
  else segment.

Definition update_with_entry (segments : list SleepSegment) (entry : SleepEntry)
  : list SleepSegment :=
  map (update_segment (StartDate entry) (EndDate entry)
         (map_sleep_stage (Value entry))) segments.

Definition update_segments_with_sleep_data (segments : list SleepSegment)
    (sleep_data : list SleepEntry) : list SleepSegment :=
  fold_left update_with_entry sleep_data segments.

(** ** Text: integers, durations and timestamps *)

Module Text.

#[local] Open Scope string_scope.

(** [str(n)] and [int(s)] on decimal numerals with an optional minus sign
    (the only numerals the program prints and reads back). *)
Definition str (n : Z) : string := NilZero.string_of_int (Z.to_int n).

Definition int (s : string) : option Z :=
  option_map Z.of_int (NilZero.int_of_string s).

(** [s.zfill(w)] for the non-negative numerals of the format specs
    [02d] and [04d]; a numeral already [w] wide is left alone. *)
Fixpoint zeros (n : nat) : string :=
  match n with
  | O => EmptyString
  | S n' => String "0" (zeros n')
  end.

Definition zfill (w : nat) (s : string) : string :=
  zeros (w - String.length s) ++ s.

Definition fmt_02d (n : Z) : string := zfill 2 (str n).
Definition fmt_04d (n : Z) : string := zfill 4 (str n).

(** [s.split(':')]: [acc] holds the current field, reversed. *)
Fixpoint split_loop (s : string) (acc : string) : list string :=
  match s with
  | EmptyString => [acc]
  | String c s' =>
      if Ascii.eqb c ":" then acc :: split_loop s' EmptyString
      else split_loop s' (acc ++ String c EmptyString)
  end.

Definition split_colon (s : string) : list string := split_loop s EmptyString.

(** A string that [split(':')] leaves in one piece. *)
Fixpoint no_colon (s : string) : bool :=
  match s with
  | EmptyString => true
  | String c s' => negb (Ascii.eqb c ":") && no_colon s'
  end.

(** [sep.join(parts)]. *)
Definition join (sep : string) (parts : list string) : string :=
  String.concat sep parts.

(** The [f"{hours}:{minutes:02d}:{seconds:02d}"] of [calculate_duration]
    and [format_timedelta]. *)
Definition fmt_hms (hours minutes secs : Z) : string :=
  str hours ++ ":" ++ fmt_02d minutes ++ ":" ++ fmt_02d secs.

End Text.
Import Text.

(** [int(td.total_seconds())]: the float quotient truncated toward zero;
    exact on every span of a few centuries. *)
Definition total_seconds_int (td : timedelta) : Z := Z.quot td us_per_second.

Definition calculate_duration (start end_ : datetime) : string :=
  let duration := dt_sub end_ start in
  let total_seconds := total_seconds_int duration in
  let hours := total_seconds / 3600 in
  let minutes := (total_seconds mod 3600) / 60 in
  let secs := total_seconds mod 60 in
  fmt_hms hours minutes secs.

Definition format_timedelta (td : timedelta) : string :=
  let total_seconds := total_seconds_int td in
  let hours := total_seconds / 3600 in
  let minutes := (total_seconds mod 3600) / 60 in
  let secs := total_seconds mod 60 in
  fmt_hms hours minutes secs.

(** ** Exceptions *)

Inductive exn := IndexError | ValueError | OverflowError | AttributeError.

Definition result (A : Type) : Type := (exn + A)%type.
Definition ret {A} (a : A) : result A := inr a.
Definition raise {A} (e : exn) : result A := inl e.
Definition bind {A B} (c : result A) (k : A -> result B) : result B :=
  match c with
  | inl e => inl e
  | inr a => k a
  end.

Notation "x <- c ;; k" := (bind c (fun x => k))
  (at level 61, c at next level, right associativity).

Definition parse_duration_string (duration_str : string) : result timedelta :=
  match map int (split_colon duration_str) with
  | [Some hours; Some minutes; Some secs] => ret (hms hours minutes secs)
  | _ => raise ValueError
  end.

Definition apply_time_shift (date_time : datetime) (shift_seconds : Z)
  : datetime :=
  dt_add date_time (seconds shift_seconds).

(** ** [strftime] *)

Module Calendar.

Definition DI400Y : Z := 146097.
Definition DI100Y : Z := 36524.
Definition DI4Y : Z := 1461.

Definition DAYS_IN_MONTH : list Z :=
  [-1; 31; 28; 31; 30; 31; 30; 31; 31; 30; 31; 30; 31].
Definition DAYS_BEFORE_MONTH : list Z :=
  [-1; 0; 31; 59; 90; 120; 151; 181; 212; 243; 273; 304; 334].

Definition at_ (l : list Z) (i : Z) : Z := nth (Z.to_nat i) l 0.
Definition b2z (b : bool) : Z := if b then 1 else 0.

(** The ordinal-to-date conversion of the [datetime] module. *)
Definition ord2ymd (n : Z) : Z * Z * Z :=
  let n := n - 1 in
  let n400 := n / DI400Y in
  let n := n mod DI400Y in
  let year := n400 * 400 + 1 in
  let n100 := n / DI100Y in
  let n := n mod DI100Y in
  let n4 := n / DI4Y in
  let n := n mod DI4Y in
  let n1 := n / 365 in
  let n := n mod 365 in
  let year := year + n100 * 100 + n4 * 4 + n1 in
  if (n1 =? 4) || (n100 =? 4) then (year - 1, 12, 31)
  else
    let leapyear := (n1 =? 3) && (negb (n4 =? 24) || (n100 =? 3)) in
    let month := Z.shiftr (n + 50) 5 in
    let preceding :=
      at_ DAYS_BEFORE_MONTH month + b2z ((2 <? month) && leapyear) in
    if n <? preceding then
      let month := month - 1 in
      let preceding :=
        preceding - (at_ DAYS_IN_MONTH month + b2z ((month =? 2) && leapyear)) in
      (year, month, n - preceding + 1)
    else (year, month, n - preceding + 1).

(** [d.strftime("%Y-%m-%dT%H:%M:%S")], the year on four digits; the
    microseconds are not printed. *)
Definition strftime_iso (d : datetime) : string :=
  let '(y, m, dd) := ord2ymd (date_of d) in
  let sec := time_of d / us_per_second in
  (fmt_04d y ++ "-" ++ fmt_02d m ++ "-" ++ fmt_02d dd ++ "T"
   ++ fmt_02d (sec / 3600) ++ ":" ++ fmt_02d ((sec mod 3600) / 60)
   ++ ":" ++ fmt_02d (sec mod 60))%string.

End Calendar.
Import Calendar.

(** ** The range of [datetime] and [timedelta]

    The functions above compute on an unbounded time line.  Python's
    [datetime] holds the years 1 to 9999 and its [timedelta] fewer than a
    thousand million days either way; building a [timedelta] or adding one
    to a [datetime] raises OverflowError when the result leaves the range.
    The functions below are the same computations with these checks; the
    only additions of the summarizer are those of [apply_time_shift] and of
    the loop of [create_30s_segments]. *)

Definition MAXORDINAL : Z := 3652059.
Definition MAX_DELTA_DAYS : Z := 999999999.

(** The wall clock reads a date from 0001-01-01 to 9999-12-31. *)
Definition representable (d : datetime) : bool :=
  (0 <=? wall d) && (wall d <? MAXORDINAL * us_per_day).

(** [timedelta(seconds=n)], given its number of microseconds. *)
Definition timedelta_checked (td : timedelta) : result timedelta :=
  if (- MAX_DELTA_DAYS * us_per_day <=? td)
     && (td <? (MAX_DELTA_DAYS + 1) * us_per_day)
  then ret td
  else raise OverflowError.

(** [d + td] on a [datetime]. *)
Definition dt_add_checked (d : datetime) (td : timedelta) : result datetime :=
  if representable (dt_add d td) then ret (dt_add d td)
  else raise OverflowError.

Definition apply_time_shift_checked (date_time : datetime) (shift_seconds : Z)
  : result datetime :=
  td <- timedelta_checked (seconds shift_seconds) ;;
  dt_add_checked date_time td.

(** One round of the loop of lines 105-107, then the whole loop: the first
    addition out of range ends it. *)
Definition shift_entry_checked (shift_seconds : Z) (entry : SleepEntry)
  : result SleepEntry :=
  start_date <- apply_time_shift_checked (StartDate entry) shift_seconds ;;
  end_date <- apply_time_shift_checked (EndDate entry) shift_seconds ;;
  ret (mkEntry (Source entry) (Qty entry) start_date (Value entry) end_date).

Fixpoint shift_all_checked (shift_seconds : Z) (sleep_data : list SleepEntry)
  : result (list SleepEntry) :=
  match sleep_data with
  | [] => ret []
  | entry :: rest =>
      entry' <- shift_entry_checked shift_seconds entry ;;
      rest' <- shift_all_checked shift_seconds rest ;;
      ret (entry' :: rest')
  end.

(** The loop of [create_30s_segments] with [current_time += timedelta(
    seconds=30)] checked. *)
Equations segments_loop_checked (current_time end_time : datetime)
  : result (list SleepSegment)
  by wf (slots_left current_time end_time) lt :=
  segments_loop_checked current_time end_time
    with Z_lt_dec (utc current_time) (utc end_time) => {
    | left Hlt
        with representable (dt_add current_time (seconds 30)) => {
        | true :=
            bind (segments_loop_checked (dt_add current_time (seconds 30))
                    end_time)
              (fun rest => ret (mkSegment current_time WAKE :: rest));
        | false := raise OverflowError };
    | right _ := ret [] }.
Next Obligation.
  unfold slots_left, utc, dt_add, seconds, us_per_second in *.
  cbn [wall utcoffset] in *.
  set (d := wall end_time - utcoffset end_time
            - (wall current_time - utcoffset current_time)) in *.
  replace (wall end_time - utcoffset end_time
           - (wall current_time + 30000000 - utcoffset current_time)
           + (30 * 1000000 - 1))
    with (d + (30 * 1000000 - 1) + (-1) * 30000000) by (unfold d; ring).
  rewrite Z.div_add by lia.
  assert (1 <= (d + (30 * 1000000 - 1)) / (30 * 1000000))
    by (apply Z.div_le_lower_bound; lia).
  change (30 * 1000000) with 30000000 in *. lia.
Qed.

Definition create_30s_segments_checked (start_time end_time : datetime)
  : result (list SleepSegment) :=
  segments_loop_checked start_time end_time.

(** ** [process_health_data] *)

Record OutputData := mkOutput {
  Type_ : string;
  StartTime : string;
  StopTime : string;
  SleepDuration : string;
  SleepOnsetDuration : string;
  LightSleepDuration : string;
  DeepSleepDuration : string;
  REMDuration : string;
  WakeAfterSleepOnsetDuration : string;
  NumberOfAwakenings : Z;
  PositionChanges : Z;
  MeanHeartRate : Z;
  MeanRespirationCPM : Z;
  NumberOfStimulations : Z;
  SleepEfficiency : Z;
  Hypnogram : string
}.

(** [sorted(sleep_data, key=lambda entry: entry.StartDate)]: a stable sort,
    written as the insertion sort that keeps equal keys in input order. *)
Fixpoint insert_by_start (e : SleepEntry) (l : list SleepEntry)
  : list SleepEntry :=
  match l with
  | [] => [e]
  | x :: l' =>
      if dt_leb (StartDate e) (StartDate x) then e :: x :: l'
      else x :: insert_by_start e l'
  end.

Definition sorted_by_start (l : list SleepEntry) : list SleepEntry :=
  fold_right insert_by_start [] l.

(** The loop [entry.StartDate = ...; entry.EndDate = ...] over the entries
    (each a distinct object, as [process_file] builds them). *)
Definition shift_entry (shift_seconds : Z) (entry : SleepEntry) : SleepEntry :=
  mkEntry (Source entry) (Qty entry)
    (apply_time_shift (StartDate entry) shift_seconds)
    (Value entry)
    (apply_time_shift (EndDate entry) shift_seconds).

(** [max(...)] over a non-empty sequence: the first greatest element. *)
Definition max_dt (first : datetime) (rest : list datetime) : datetime :=
  fold_left (fun best d => if dt_ltb best d then d else best) rest first.

(** The dictionary [stage_durations]: its keys are the five stages. *)
Definition durations := CanonicalStage -> timedelta.

Definition durations_init : durations := fun _ => 0.

Definition durations_add (d : durations) (k : CanonicalStage) (td : timedelta)
  : durations :=
  fun k' => if Stage_eqb k' k then d k + td else d k'.

Definition stage_durations_of (segments : list SleepSegment) : durations :=
  fold_left (fun d segment => durations_add d (Stage segment) (seconds 30))
    segments durations_init.

(** [sum(1 for a, b in zip(segments, segments[1:]) if ...)]. *)
Definition awakening_pair (p : SleepSegment * SleepSegment) : bool :=
  negb (is_wake (Stage (fst p))) && is_wake (Stage (snd p)).

Definition count_awakenings (segments : list SleepSegment) : Z :=
  fold_left (fun n p => if awakening_pair p then n + 1 else n)
    (List.combine segments (tl segments)) 0.

(** [next((s for s in segments if s.Stage != "WAKE"), segments[0])]: the
    default [segments[0]] is evaluated before the search. *)
Definition first_segment (segments : list SleepSegment) : result SleepSegment :=
  match segments with
  | [] => raise IndexError
  | s :: _ => ret s
  end.

Definition find_sleep_onset (segments : list SleepSegment)
  : result SleepSegment :=
  default <- first_segment segments ;;
  ret (match find (fun s => negb (is_wake (Stage s))) segments with
       | Some s => s
       | None => default
       end).

(** The local variables of [process_health_data] once all are computed. *)
Record Night := mkNight {
  start_time : datetime;
  end_time : datetime;
  segments : list SleepSegment;
  total_duration : string;
  sleep_onset_segment : SleepSegment;
  sleep_onset_duration : string;
  stage_durations : durations;
  wake_after_sleep_onset : timedelta;
  num_awakenings : Z;
  hypnogram : string
}.

Definition night_of (sleep_data : list SleepEntry) (time_shift_seconds : Z)
  : result Night :=
  let sleep_data := sorted_by_start sleep_data in
  let sleep_data := map (shift_entry time_shift_seconds) sleep_data in
  match sleep_data with
  | [] => raise IndexError
  | first :: rest =>
      let start_time := StartDate first in
      let end_time := max_dt (EndDate first) (map EndDate rest) in
      let segments := create_30s_segments start_time end_time in
      let segments := update_segments_with_sleep_data segments sleep_data in
      let total_duration := calculate_duration start_time end_time in
      sleep_onset_segment <- find_sleep_onset segments ;;
      let sleep_onset_duration :=
        calculate_duration start_time (Start sleep_onset_segment) in
      let stage_durations := stage_durations_of segments in
      onset <- parse_duration_string sleep_onset_duration ;;
      let wake_after_sleep_onset := stage_durations WAKE - onset in
      let num_awakenings := count_awakenings segments in
      let hypnogram := join "," (map (fun s => stage_label (Stage s)) segments) in
      ret (mkNight start_time end_time segments total_duration
             sleep_onset_segment sleep_onset_duration stage_durations
             wake_after_sleep_onset num_awakenings hypnogram)
  end.

Definition output_of (n : Night) : OutputData :=
  {| Type_ := "night";
     StartTime := strftime_iso (start_time n);
     StopTime := strftime_iso (end_time n);
     SleepDuration := total_duration n;
     SleepOnsetDuration := sleep_onset_duration n;
     LightSleepDuration := format_timedelta (stage_durations n Light);
     DeepSleepDuration := format_timedelta (stage_durations n Deep);
     REMDuration := format_timedelta (stage_durations n REM);
     WakeAfterSleepOnsetDuration := format_timedelta (wake_after_sleep_onset n);
     NumberOfAwakenings := num_awakenings n;
     PositionChanges := 0;
     MeanHeartRate := 0;
     MeanRespirationCPM := 0;
     NumberOfStimulations := 0;
     SleepEfficiency := 0;
     Hypnogram := ("[" ++ hypnogram n ++ "]")%string |}.

(** The record that [process_health_data] formats into the output file; the
    file itself is not modelled. *)
Definition process_health_data (sleep_data : list SleepEntry)
    (time_shift_seconds : Z) : result OutputData :=
  n <- night_of sleep_data time_shift_seconds ;;
  ret (output_of n).

(** ** [process_health_data] within the range of [datetime] *)

(** Lines 116-141, which add nothing to a [datetime]: the summary of the
    shifted entries [first :: rest] on the timeline [segments]. *)
Definition night_summary (first : SleepEntry) (rest : list SleepEntry)
    (segments : list SleepSegment) : result Night :=
  let sleep_data := first :: rest in
  let start_time := StartDate first in
  let end_time := max_dt (EndDate first) (map EndDate rest) in
  let segments := update_segments_with_sleep_data segments sleep_data in
  let total_duration := calculate_duration start_time end_time in
  sleep_onset_segment <- find_sleep_onset segments ;;
  let sleep_onset_duration :=
    calculate_duration start_time (Start sleep_onset_segment) in
  let stage_durations := stage_durations_of segments in
  onset <- parse_duration_string sleep_onset_duration ;;
  let wake_after_sleep_onset := stage_durations WAKE - onset in
  let num_awakenings := count_awakenings segments in
  let hypnogram := join "," (map (fun s => stage_label (Stage s)) segments) in
  ret (mkNight start_time end_time segments total_duration
         sleep_onset_segment sleep_onset_duration stage_durations
         wake_after_sleep_onset num_awakenings hypnogram).

Definition night_of_checked (sleep_data : list SleepEntry)
    (time_shift_seconds : Z) : result Night :=
  let sleep_data := sorted_by_start sleep_data in
  sleep_data <- shift_all_checked time_shift_seconds sleep_data ;;
  match sleep_data with
  | [] => raise IndexError
  | first :: rest =>
      let start_time := StartDate first in
      let end_time := max_dt (EndDate first) (map EndDate rest) in
      segments <- create_30s_segments_checked start_time end_time ;;
      night_summary first rest segments
  end.

Definition process_health_data_checked (sleep_data : list SleepEntry)
    (time_shift_seconds : Z) : result OutputData :=
  n <- night_of_checked sleep_data time_shift_seconds ;;
  ret (output_of n).

(** ** The night grouping loop of [process_file] *)

Definition night_start_clock : Z := time_hms 19 0 0.
Definition night_end_clock : Z := time_hms 11 0 0.

(** Lines 277-281: the night an entry starting at [start_dt] is filed under. *)
Definition night_date_of (start_dt : datetime) : Z :=
  if night_start_clock <=? time_of start_dt then date_of start_dt
  else date_of (dt_add start_dt (- days 1)).

Definition night_start_dt (start_dt : datetime) : datetime :=
  combine (night_date_of start_dt) night_start_clock (utcoffset start_dt).

Definition night_end_dt (start_dt : datetime) : datetime :=
  combine (night_date_of start_dt + 1) night_end_clock (utcoffset start_dt).

(** Lines 288-289: the test an entry must pass to be filed at all. *)
Definition in_night_and_range (from_date to_date : datetime)
    (entry : SleepEntry) : bool :=
  let start_dt := StartDate entry in
  let end_dt := EndDate entry in
  dt_leb (night_start_dt start_dt) start_dt
  && dt_leb end_dt (night_end_dt start_dt)
  && dt_leb from_date start_dt
  && dt_leb end_dt to_date.

Definition NightGroup : Type := (option Z * list SleepEntry)%type.

(** The three variables the loop updates; [current_night_start] starts out
    as [None]. *)
Record GroupState := mkGroupState {
  grouped_sleep_data : list NightGroup;
  current_night_start : option Z;
  current_night_entries : list SleepEntry
}.

Definition same_night (current : option Z) (night_date : Z) : bool :=
  match current with
  | Some d => d =? night_date
  | None => false
  end.

Definition flush (st : GroupState) : list NightGroup :=
  match current_night_entries st with
  | [] => grouped_sleep_data st
  | _ :: _ =>
      grouped_sleep_data st
      ++ [(current_night_start st, current_night_entries st)]
  end.

Definition group_step (from_date to_date : datetime) (st : GroupState)
    (entry : SleepEntry) : GroupState :=
  let night_date := night_date_of (StartDate entry) in
  if in_night_and_range from_date to_date entry then
    let st :=
      if same_night (current_night_start st) night_date then st
      else mkGroupState (flush st) (Some night_date) [] in
    mkGroupState (grouped_sleep_data st) (current_night_start st)
      (current_night_entries st ++ [entry])
  else st.

Definition group_init : GroupState := mkGroupState [] None [].

(** [grouped_sleep_data] after the loop and the final flush (line 297),
    for the entries as parsed, [all_sleep_data] being their sorted list. *)
Definition group_sorted (all_sleep_data : list SleepEntry)
    (from_date to_date : datetime) : list NightGroup :=
  flush (fold_left (group_step from_date to_date) all_sleep_data group_init).

Definition group_nights (sleep_entries : list SleepEntry)
    (from_date to_date : datetime) : list NightGroup :=
  group_sorted (sorted_by_start sleep_entries) from_date to_date.

(** Lines 301-302: [min] and [max] over the entries of a group; on an empty
    group [min] raises ValueError. *)
Definition min_dt (first : datetime) (rest : list datetime) : datetime :=
  fold_left (fun best d => if dt_ltb d best then d else best) rest first.

Definition segment_dates (entries : list SleepEntry)
  : result (datetime * datetime) :=
  match entries with
  | [] => raise ValueError
  | first :: rest =>
      ret (min_dt (StartDate first) (map StartDate rest),
           max_dt (EndDate first) (map EndDate rest))
  end.

(** Line 304: [night_date.strftime]; the key [None], with which the
    grouping loop starts, has no such method. *)
Definition night_key (night_date : option Z) : result Z :=
  match night_date with
  | Some d => ret d
  | None => raise AttributeError
  end.

(** Lines 300-306 on given groups: one summary per group, the first
    exception ends the file.  The two dates and the key only name the output
    file. *)
Fixpoint process_groups_checked (groups : list NightGroup)
    (time_shift_seconds : Z) : result (list (option Z * OutputData)) :=
  match groups with
  | [] => ret []
  | (night_date, entries) :: groups' =>
      dates <- segment_dates entries ;;
      key <- night_key night_date ;;
      out <- process_health_data_checked entries time_shift_seconds ;;
      outs <- process_groups_checked groups' time_shift_seconds ;;
      ret ((night_date, out) :: outs)
  end.

(** ** The output file of [process_health_data] *)

Module Csv.

#[local] Open Scope string_scope.

Definition header : string :=
  "Type;Start Time;Stop Time;Sleep Duration;Sleep Onset Duration;Light Sleep Duration;Deep Sleep Duration;REM Duration;Wake After Sleep Onset Duration;Number of awakenings;Position Changes;Mean Heart Rate;Mean Respiration CPM;Number of Stimulations;Sleep efficiency;Hypnogram".

(** The sixteen values of the f-string [data_row], in its order. *)
Definition row_fields (o : OutputData) : list string :=
  [ Type_ o; StartTime o; StopTime o; SleepDuration o; SleepOnsetDuration o;
    LightSleepDuration o; DeepSleepDuration o; REMDuration o;
    WakeAfterSleepOnsetDuration o; str (NumberOfAwakenings o);
    str (PositionChanges o); str (MeanHeartRate o);
    str (MeanRespirationCPM o); str (NumberOfStimulations o);
    str (SleepEfficiency o); Hypnogram o ].

Definition data_row (o : OutputData) : string := join ";" (row_fields o).

Definition newline : string := String (Ascii.ascii_of_nat 10) EmptyString.

(** What lines 165-167 write: the header, a line feed, the row. *)
Definition file_text (o : OutputData) : string :=
  header ++ newline ++ data_row o.

End Csv.
Import Csv.

(** ** [get_unique_file_name] *)

Section UniqueFileName.

(** The file system as [os.path.exists] sees it, and the three pieces
    [os.path] cuts a path into; [os.path.join] is the POSIX one. *)
Variable exists_ : string -> bool.
Variable basename : string -> string.
Variable dirname : string -> string.
Variable splitext : string -> string * string.

Definition starts_with_sep (s : string) : bool :=
  match s with
  | String c _ => Ascii.eqb c "/"
  | EmptyString => false
  end.

Fixpoint ends_with_sep (s : string) : bool :=
  match s with
  | EmptyString => false
  | String c EmptyString => Ascii.eqb c "/"
  | String _ s' => ends_with_sep s'
  end.

Definition path_join (a b : string) : string :=
  if starts_with_sep b then b
  else if (String.length a =? 0)%nat || ends_with_sep a then (a ++ b)%string
  else (a ++ "/" ++ b)%string.

(** The path tried at [count]: [join(path, f"{file_name_only}_{count}" +
    extension)]. *)
Definition numbered_path (file_name : string) (count : Z) : string :=
  let '(file_name_only, extension) := splitext (basename file_name) in
  let path := dirname file_name in
  let temp_file_name := (file_name_only ++ "_" ++ str count)%string in
  path_join path (temp_file_name ++ extension)%string.

(** The [while] loop, [fuel] bounding its iterations: [None] when the bound
    is reached with every path tried so far taken. *)
Fixpoint unique_loop (fuel : nat) (file_name new_full_path : string)
    (count : Z) : option string :=
  match fuel with
  | O => None
  | S fuel' =>
      if exists_ new_full_path then
        unique_loop fuel' file_name (numbered_path file_name count)
          (count + 1)
      else Some new_full_path
  end.

Definition get_unique_file_name (fuel : nat) (file_name : string)
  : option string :=
  if negb (exists_ file_name) then Some file_name
  else unique_loop fuel file_name file_name 1.

End UniqueFileName.

(** * Vocabulary of the properties

    The notions the statements below are phrased in; none of them is part
    of the program. *)

(** Ceiling of [a / b] for a positive [b]. *)
Definition ceil_div (a b : Z) : Z := - ((- a) / b).

(** The slot with index [k] of a timeline that starts at [c]. *)
Definition slot_at (c : datetime) (k : nat) : SleepSegment :=
  mkSegment (dt_add c (seconds 30 * Z.of_nat k)) WAKE.

(** The slot count as the claim words it: the ceiling on an exact multiple
    of 30 seconds, one fewer otherwise. *)
Definition claimed_slot_count (span : Z) : Z :=
  if span mod seconds 30 =? 0 then ceil_div span (seconds 30)
  else ceil_div span (seconds 30) - 1.

(** An entry covers an instant: [start <= t <= end], both ends included. *)
Definition covers (entry : SleepEntry) (t : datetime) : bool :=
  dt_leb (StartDate entry) t && dt_leb t (EndDate entry).

(** The canonical stage an entry writes. *)
Definition entry_stage (entry : SleepEntry) : CanonicalStage :=
  map_sleep_stage (Value entry).

(** The first entry, in processing order, that covers [t] with a stage
    other than WAKE decides it; WAKE if there is none. *)
Definition first_writer (sleep_data : list SleepEntry) (t : datetime)
  : CanonicalStage :=
  match find (fun e => covers e t && negb (is_wake (entry_stage e))) sleep_data
  with
  | Some e => entry_stage e
  | None => WAKE
  end.

(** A slot after the whole overlay, in closed form. *)
Definition overlaid (sleep_data : list SleepEntry) (segment : SleepSegment)
  : SleepSegment :=
  mkSegment (Start segment)
    (if is_wake (Stage segment) then first_writer sleep_data (Start segment)
     else Stage segment).

(** The number of slots in stage [st]. *)
Definition count_stage (st : CanonicalStage) (segments : list SleepSegment)
  : nat :=
  List.length (filter (fun s => Stage_eqb (Stage s) st) segments).

(** The five entries of [stage_durations], added up. *)
Definition sum_durations (d : durations) : timedelta :=
  d Asleep + d Light + d Deep + d REM + d WAKE.

(** A span rounded to a whole number of 30-second slots, either way. *)
Definition round_up_30s (span : timedelta) : timedelta :=
  seconds 30 * ceil_div span (seconds 30).
Definition round_down_30s (span : timedelta) : timedelta :=
  seconds 30 * (span / seconds 30).

(** Position [i] is an awakening: slot [i] is not WAKE and slot [i+1] is. *)
Definition awakening_at (stages : list CanonicalStage) (i : nat) : bool :=
  match nth_error stages i, nth_error stages (S i) with
  | Some a, Some b => negb (is_wake a) && is_wake b
  | _, _ => false
  end.

(** The number of such positions in a sequence of stages. *)
Definition awakening_transitions (stages : list CanonicalStage) : nat :=
  List.length (filter (awakening_at stages) (seq 0 (List.length stages))).

(** The entries as [process_health_data] works on them: sorted, shifted. *)
Definition prepared (sleep_data : list SleepEntry) (time_shift_seconds : Z)
  : list SleepEntry :=
  map (shift_entry time_shift_seconds) (sorted_by_start sleep_data).

(** The order [sorted] sorts by. *)
Definition start_le (a b : SleepEntry) : Prop :=
  utc (StartDate a) <= utc (StartDate b).

(** The earliest start and the latest end of a list of entries, as instants;
    [None] on the empty list. *)
Definition earliest_start (l : list SleepEntry) : option Z :=
  match l with
  | [] => None
  | e :: r =>
      Some (fold_left Z.min (map (fun x => utc (StartDate x)) r)
              (utc (StartDate e)))
  end.

Definition latest_end (l : list SleepEntry) : option Z :=
  match l with
  | [] => None
  | e :: r =>
      Some (fold_left Z.max (map (fun x => utc (EndDate x)) r)
              (utc (EndDate e)))
  end.

(** A slot moved by [td]. *)
Definition shift_segment (td : timedelta) (seg : SleepSegment) : SleepSegment :=
  mkSegment (dt_add (Start seg) td) (Stage seg).

(** A night whose every timestamp is moved by [td], all else unchanged. *)
Definition shift_night (td : timedelta) (n : Night) : Night :=
  mkNight (dt_add (start_time n) td) (dt_add (end_time n) td)
    (map (shift_segment td) (segments n)) (total_duration n)
    (shift_segment td (sleep_onset_segment n)) (sleep_onset_duration n)
    (stage_durations n) (wake_after_sleep_onset n) (num_awakenings n)
    (hypnogram n).

(** Every entry filed so far, in the order of filing. *)
Definition all_entries (st : GroupState) : list SleepEntry :=
  List.concat (map snd (grouped_sleep_data st)) ++ current_night_entries st.

(** The invariant of the grouping loop: a group is never empty and is keyed
    by the night date of each of its entries; so is the group under
    construction. *)
Definition group_ok (g : NightGroup) : Prop :=
  snd g <> []
  /\ Forall (fun e => fst g = Some (night_date_of (StartDate e))) (snd g).

Definition state_ok (st : GroupState) : Prop :=
  Forall group_ok (grouped_sleep_data st)
  /\ Forall (fun e => current_night_start st
                      = Some (night_date_of (StartDate e)))
       (current_night_entries st).

(** The entry appears in some group. *)
Definition grouped_somewhere (groups : list NightGroup) (e : SleepEntry)
  : Prop :=
  exists g, In g groups /\ In e (snd g).

(** The entry lies in the window from 19:00 of its night to 11:00 of the
    next day, the 11:00 included. *)
Definition within_closed_window (e : SleepEntry) : Prop :=
  utc (night_start_dt (StartDate e)) <= utc (StartDate e)
  /\ utc (EndDate e) <= utc (night_end_dt (StartDate e)).

(** The same with the window read as half-open: the 11:00 is excluded. *)
Definition within_half_open_window (e : SleepEntry) : Prop :=
  utc (night_start_dt (StartDate e)) <= utc (StartDate e)
  /\ utc (EndDate e) < utc (night_end_dt (StartDate e)).

(** The entry lies within the filter range, both ends included. *)
Definition within_filter (from_date to_date : datetime) (e : SleepEntry)
  : Prop :=
  utc from_date <= utc (StartDate e) /\ utc (EndDate e) <= utc to_date.

(** Order on the keys of the groups: both are dates, the first the earlier. *)
Definition key_lt (a b : option Z) : Prop :=
  match a, b with
  | Some x, Some y => x < y
  | _, _ => False
  end.

(** The night date of an entry. *)
Definition entry_night (e : SleepEntry) : Z := night_date_of (StartDate e).

(** The groups so far, the one under construction included, are in
    increasing order of night date, none later than [m], and no group is
    closed before an entry is filed. *)
Definition sorted_state (m : Z) (st : GroupState) : Prop :=
  StronglySorted key_lt (map fst (flush st))
  /\ Forall (fun k => exists c, k = Some c /\ c <= m) (map fst (flush st))
  /\ (current_night_entries st = [] -> grouped_sleep_data st = []).

(** The span of a list of entries is positive: its latest end lies after
    its earliest start. *)
Definition positive_span (l : list SleepEntry) : Prop :=
  exists a b, earliest_start l = Some a /\ latest_end l = Some b /\ a < b.

(** [s.split(sep)] for a separator of one character, as a reader of the
    output file would apply it; [acc] holds the current field. *)
Fixpoint split_on_loop (sep : ascii) (s acc : string) : list string :=
  match s with
  | EmptyString => [acc]
  | String c s' =>
      if Ascii.eqb c sep then acc :: split_on_loop sep s' EmptyString
      else split_on_loop sep s' (acc ++ String c EmptyString)
  end.

Definition split_on (sep : ascii) (s : string) : list string :=
  split_on_loop sep s EmptyString.

(** The character [c] does not occur in [s]. *)
Fixpoint lacks (c : ascii) (s : string) : bool :=
  match s with
  | EmptyString => true
  | String x s' => negb (Ascii.eqb x c) && lacks c s'
  end.

(** The groups so far, the one under construction included, change key
    from each to the next, and no group is closed before an entry is
    filed. *)
Definition changing_state (st : GroupState) : Prop :=
  Sorted (fun a b : option Z => a <> b) (map fst (flush st))
  /\ (current_night_entries st = [] -> grouped_sleep_data st = []).

(** A number of microseconds that [timedelta] can hold. *)
Definition timedelta_ok (td : timedelta) : Prop :=
  - MAX_DELTA_DAYS * us_per_day <= td < (MAX_DELTA_DAYS + 1) * us_per_day.

(** Enough for a run with shift [s] to stay within the range of [datetime]:
    the shift is a [timedelta], every shifted start and end is
    representable, and so is any start moved on by the time to any end and
    30 seconds more, which no slot start exceeds. *)
Definition run_in_range (l : list SleepEntry) (s : Z) : Prop :=
  timedelta_ok (seconds s)
  /\ (forall e, In e l ->
        representable (apply_time_shift (StartDate e) s) = true
        /\ representable (apply_time_shift (EndDate e) s) = true)
  /\ (forall e e', In e l -> In e' l ->
        wall (StartDate e) + seconds s
        + (utc (EndDate e') - utc (StartDate e)) + seconds 30
        < MAXORDINAL * us_per_day).

(** * Properties *)

(** ** Arithmetic of time values *)

Section TimeFacts.

Lemma seconds_30_pos : 0 < seconds 30.
Proof. unfold seconds, us_per_second. lia. Qed.

Lemma seconds_plus (a b : Z) : seconds (a + b) = seconds a + seconds b.
Proof. unfold seconds. ring. Qed.

Lemma utc_dt_add (d : datetime) (td : timedelta) : utc (dt_add d td) = utc d + td.
Proof. unfold utc, dt_add. simpl. ring. Qed.

Lemma dt_add_0 (d : datetime) : dt_add d 0 = d.
Proof. destruct d. unfold dt_add. simpl. f_equal. ring. Qed.

Lemma dt_add_add (d : datetime) (a b : timedelta) :
  dt_add (dt_add d a) b = dt_add d (a + b).
Proof. unfold dt_add. simpl. f_equal. ring. Qed.

Lemma dt_leb_add (a b : datetime) (td : timedelta) :
  dt_leb (dt_add a td) (dt_add b td) = dt_leb a b.
Proof.
  unfold dt_leb. rewrite !utc_dt_add.
  destruct (Z.leb_spec (utc a) (utc b));
    [apply Z.leb_le | apply Z.leb_gt]; lia.
Qed.

Lemma dt_ltb_add (a b : datetime) (td : timedelta) :
  dt_ltb (dt_add a td) (dt_add b td) = dt_ltb a b.
Proof.
  unfold dt_ltb. rewrite !utc_dt_add.
  destruct (Z.ltb_spec (utc a) (utc b));
    [apply Z.ltb_lt | apply Z.ltb_ge]; lia.
Qed.

Lemma dt_sub_add (a b : datetime) (td : timedelta) :
  dt_sub (dt_add a td) (dt_add b td) = dt_sub a b.
Proof. unfold dt_sub. rewrite !utc_dt_add. ring. Qed.

End TimeFacts.

(** ** The timeline *)

Lemma ceil_div_alt (a b : Z) : 0 < b -> ceil_div a b = (a + (b - 1)) / b.
Proof.
  intros Hb. unfold ceil_div.
  pose proof (Z.div_mod (- a) b ltac:(lia)) as H1.
  pose proof (Z.mod_pos_bound (- a) b Hb) as H2.
  apply Z.div_unique with (r := b - 1 - (- a) mod b); lia.
Qed.

Lemma ceil_div_bounds (a b : Z) :
  0 < b -> a <= b * ceil_div a b < a + b.
Proof.
  intros Hb. unfold ceil_div.
  pose proof (Z.div_mod (- a) b ltac:(lia)).
  pose proof (Z.mod_pos_bound (- a) b Hb). lia.
Qed.

Lemma ceil_div_cases (a b : Z) :
  0 < b ->
  ceil_div a b = if a mod b =? 0 then a / b else a / b + 1.
Proof.
  intros Hb. pose proof (ceil_div_bounds a b Hb) as Hc.
  pose proof (Z.div_mod a b ltac:(lia)) as Hd.
  pose proof (Z.mod_pos_bound a b Hb) as Hm.
  destruct (Z.eqb_spec (a mod b) 0) as [E | E]; nia.
Qed.

Lemma slots_left_done (c e : datetime) :
  utc e <= utc c -> slots_left c e = 0%nat.
Proof.
  intros H. unfold slots_left.
  pose proof seconds_30_pos as Hp.
  assert ((utc e - utc c + (seconds 30 - 1)) / seconds 30 <= 0).
  { apply Z.lt_succ_r. apply Z.div_lt_upper_bound; lia. }
  lia.
Qed.

Lemma slots_left_succ (c e : datetime) :
  utc c < utc e ->
  slots_left c e = S (slots_left (dt_add c (seconds 30)) e).
Proof.
  intros H. unfold slots_left. pose proof seconds_30_pos as Hp.
  replace (utc e - utc (dt_add c (seconds 30)) + (seconds 30 - 1))
    with (utc e - utc c + (seconds 30 - 1) + (-1) * seconds 30)
    by (rewrite utc_dt_add; ring).
  rewrite Z.div_add by lia.
  assert (1 <= (utc e - utc c + (seconds 30 - 1)) / seconds 30)
    by (apply Z.div_le_lower_bound; lia).
  lia.
Qed.

Lemma segments_loop_closed_form (n : nat) :
  forall c e, slots_left c e = n ->
  segments_loop c e = map (slot_at c) (seq 0 n).
Proof.
  induction n as [| n IH]; intros c e Hn; simp segments_loop;
    destruct (Z_lt_dec (utc c) (utc e)) as [Hlt | Hge]; simpl.
  - rewrite slots_left_succ in Hn by assumption. discriminate.
  - reflexivity.
  - rewrite slots_left_succ in Hn by assumption. injection Hn as Hn.
    unfold slot_at at 1. rewrite Z.mul_0_r, dt_add_0. f_equal.
    rewrite (IH _ _ Hn), <- seq_shift, map_map.
    apply map_ext. intros k. unfold slot_at. rewrite dt_add_add.
    do 2 f_equal. unfold seconds, us_per_second. lia.
  - rewrite slots_left_done in Hn by lia. discriminate.
Qed.

Lemma create_30s_segments_closed_form (start end_ : datetime) :
  create_30s_segments start end_
  = map (slot_at start) (seq 0 (slots_left start end_)).
Proof. apply segments_loop_closed_form. reflexivity. Qed.

Lemma create_30s_segments_length (start end_ : datetime) :
  List.length (create_30s_segments start end_) = slots_left start end_.
Proof.
  rewrite create_30s_segments_closed_form, length_map, length_seq.
  reflexivity.
Qed.

Lemma slots_left_ceil (start end_ : datetime) :
  utc start <= utc end_ ->
  Z.of_nat (slots_left start end_) = ceil_div (dt_sub end_ start) (seconds 30).
Proof.
  intros H. pose proof seconds_30_pos as Hp.
  rewrite ceil_div_alt by assumption. unfold slots_left, dt_sub.
  apply Z2Nat.id. apply Z.div_pos; lia.
Qed.

Lemma create_30s_segments_all_wake (start end_ : datetime) :
  Forall (fun s => Stage s = WAKE) (create_30s_segments start end_).
Proof.
  rewrite create_30s_segments_closed_form. apply Forall_forall.
  intros s Hs. apply in_map_iff in Hs. destruct Hs as [k [<- _]].
  reflexivity.
Qed.

(** C2, as amended: for [start <= end], [create_30s_segments] yields exactly
    [ceil((end - start) / 30s)] slots, which is the quotient on an exact
    multiple of 30 seconds and the quotient plus one otherwise (the final
    partial period gets a slot of its own); every slot is WAKE. *)
Theorem create_30s_segments_count (start end_ : datetime) :
  utc start <= utc end_ ->
  let span := dt_sub end_ start in
  let n := Z.of_nat (List.length (create_30s_segments start end_)) in
  n = ceil_div span (seconds 30)
  /\ n = (if span mod seconds 30 =? 0 then span / seconds 30
          else span / seconds 30 + 1)
  /\ Forall (fun s => Stage s = WAKE) (create_30s_segments start end_).
Proof.
  intros Hle span n.
  assert (Hn : n = ceil_div span (seconds 30)).
  { unfold n, span. rewrite create_30s_segments_length.
    apply slots_left_ceil. assumption. }
  split; [exact Hn |]. split.
  - rewrite Hn. apply ceil_div_cases. apply seconds_30_pos.
  - apply create_30s_segments_all_wake.
Qed.

Lemma create_30s_segments_count_witness :
  let start := mkdt 0 0 in
  let end_ := mkdt (seconds 90) 3600 in
  utc start <= utc end_
  /\ Z.of_nat (List.length (create_30s_segments start end_))
     = ceil_div (dt_sub end_ start) (seconds 30).
Proof.
  intros start end_.
  assert (H : utc start <= utc end_) by (vm_compute; discriminate).
  split; [exact H |].
  exact (proj1 (create_30s_segments_count start end_ H)).
Defined.

(** C2 as stated fails on a span of 45 seconds: the loop emits the slots at
    0s and 30s, where the claim counts one. *)
Lemma create_30s_segments_count_counterexample :
  let start := mkdt 0 0 in
  let end_ := mkdt (seconds 45) 0 in
  utc start <= utc end_
  /\ create_30s_segments start end_
     = [mkSegment start WAKE; mkSegment (mkdt (seconds 30) 0) WAKE]
  /\ claimed_slot_count (dt_sub end_ start) = 1
  /\ Z.of_nat (List.length (create_30s_segments start end_))
     <> claimed_slot_count (dt_sub end_ start).
Proof.
  cbv zeta. split; [vm_compute; discriminate |].
  split; [vm_compute; reflexivity |].
  split; [vm_compute; reflexivity |].
  vm_compute. discriminate.
Qed.

(** ** The overlay *)

Lemma is_wake_true (s : CanonicalStage) : is_wake s = true <-> s = WAKE.
Proof. destruct s; simpl; split; intros H; congruence. Qed.

Lemma is_wake_false (s : CanonicalStage) : is_wake s = false <-> s <> WAKE.
Proof. destruct s; simpl; split; intros H; congruence. Qed.

Lemma update_segment_spec (entry : SleepEntry) (segment : SleepSegment) :
  update_segment (StartDate entry) (EndDate entry) (entry_stage entry) segment
  = if covers entry (Start segment) && is_wake (Stage segment)
    then mkSegment (Start segment) (entry_stage entry)
    else segment.
Proof. reflexivity. Qed.

Lemma update_segment_Start (a b : datetime) (st : CanonicalStage)
    (segment : SleepSegment) :
  Start (update_segment a b st segment) = Start segment.
Proof.
  unfold update_segment.
  destruct (dt_leb a (Start segment) && dt_leb (Start segment) b
            && is_wake (Stage segment)); reflexivity.
Qed.

Lemma overlaid_step (entry : SleepEntry) (rest : list SleepEntry)
    (segment : SleepSegment) :
  overlaid rest
    (update_segment (StartDate entry) (EndDate entry) (entry_stage entry)
       segment)
  = overlaid (entry :: rest) segment.
Proof.
  rewrite update_segment_spec. destruct segment as [t st].
  unfold overlaid, first_writer. simpl.
  destruct (covers entry t) eqn:Hc; destruct (is_wake st) eqn:Hw; simpl;
    rewrite ?Hw; try reflexivity.
  destruct (is_wake (entry_stage entry)) eqn:He; simpl; reflexivity.
Qed.

Lemma overlay_closed_form (sleep_data : list SleepEntry) :
  forall segments,
  update_segments_with_sleep_data segments sleep_data
  = map (overlaid sleep_data) segments.
Proof.
  unfold update_segments_with_sleep_data.
  induction sleep_data as [| entry rest IH]; intros segs; simpl.
  - symmetry. erewrite map_ext; [apply map_id |].
    intros [t st]. unfold overlaid, first_writer. simpl.
    destruct st; reflexivity.
  - rewrite IH. unfold update_with_entry. rewrite map_map.
    apply map_ext. intros seg. apply overlaid_step.
Qed.

Lemma overlay_length (segments : list SleepSegment)
    (sleep_data : list SleepEntry) :
  List.length (update_segments_with_sleep_data segments sleep_data)
  = List.length segments.
Proof. rewrite overlay_closed_form. apply length_map. Qed.

Lemma overlay_Start (segments : list SleepSegment)
    (sleep_data : list SleepEntry) :
  map Start (update_segments_with_sleep_data segments sleep_data)
  = map Start segments.
Proof.
  rewrite overlay_closed_form, map_map. apply map_ext. reflexivity.
Qed.

Lemma overlay_snoc (segments : list SleepSegment)
    (sleep_data : list SleepEntry) (entry : SleepEntry) :
  update_segments_with_sleep_data segments (sleep_data ++ [entry])
  = map (update_segment (StartDate entry) (EndDate entry) (entry_stage entry))
      (update_segments_with_sleep_data segments sleep_data).
Proof.
  unfold update_segments_with_sleep_data. rewrite fold_left_app. reflexivity.
Qed.

(** C3: processing one more entry sets a slot to the entry's stage exactly
    when the entry covers the slot's start (both ends included) and the slot
    is still WAKE; a slot that is not WAKE is left as it is by the whole
    overlay, so the first entry to write a stage other than WAKE wins. *)
Theorem overlay_first_writer_wins :
  (forall segments sleep_data entry,
     update_segments_with_sleep_data segments (sleep_data ++ [entry])
     = map (fun segment =>
              if covers entry (Start segment) && is_wake (Stage segment)
              then mkSegment (Start segment) (map_sleep_stage (Value entry))
              else segment)
         (update_segments_with_sleep_data segments sleep_data))
  /\ (forall segments sleep_data i segment,
        nth_error segments i = Some segment ->
        Stage segment <> WAKE ->
        nth_error (update_segments_with_sleep_data segments sleep_data) i
        = Some segment)
  /\ (forall segments sleep_data i segment,
        nth_error segments i = Some segment ->
        Stage segment = WAKE ->
        nth_error (update_segments_with_sleep_data segments sleep_data) i
        = Some (mkSegment (Start segment)
                  (first_writer sleep_data (Start segment)))).
Proof.
  split; [| split].
  - intros segs data entry. rewrite overlay_snoc. apply map_ext.
    intros seg. apply update_segment_spec.
  - intros segs data i seg Hi Hs. rewrite overlay_closed_form.
    rewrite nth_error_map, Hi. simpl. f_equal.
    apply is_wake_false in Hs. unfold overlaid. rewrite Hs.
    destruct seg; reflexivity.
  - intros segs data i seg Hi Hs. rewrite overlay_closed_form.
    rewrite nth_error_map, Hi. simpl. f_equal.
    apply is_wake_true in Hs. unfold overlaid. rewrite Hs. reflexivity.
Qed.

Lemma overlay_first_writer_wins_witness :
  let segment := mkSegment (mkdt 0 0) Light in
  let entry := mkEntry "watch" 1 (mkdt 0 0) "Deep" (mkdt (seconds 60) 0) in
  nth_error [segment] 0 = Some segment
  /\ Stage segment <> WAKE
  /\ nth_error (update_segments_with_sleep_data [segment] [entry]) 0
     = Some segment.
Proof.
  intros segment entry.
  assert (H1 : nth_error [segment] 0 = Some segment) by reflexivity.
  assert (H2 : Stage segment <> WAKE) by (simpl; discriminate).
  split; [exact H1 |]. split; [exact H2 |].
  exact (proj1 (proj2 overlay_first_writer_wins) [segment] [entry] 0%nat
           segment H1 H2).
Defined.

(** ** Per-stage durations *)

Lemma Stage_eqb_refl (s : CanonicalStage) : Stage_eqb s s = true.
Proof. destruct s; reflexivity. Qed.

Lemma stage_durations_fold (segments : list SleepSegment) :
  forall (d : durations) (st : CanonicalStage),
  fold_left (fun d segment => durations_add d (Stage segment) (seconds 30))
    segments d st
  = d st + seconds 30 * Z.of_nat (count_stage st segments).
Proof.
  induction segments as [| seg segs IH]; intros d st.
  - unfold count_stage. simpl. ring.
  - cbn [fold_left]. rewrite IH. unfold count_stage, durations_add.
    generalize (seconds 30). intros td. cbn [filter].
    destruct (Stage seg), st; cbn [Stage_eqb List.length]; lia.
Qed.

Lemma stage_durations_of_count (segments : list SleepSegment)
    (st : CanonicalStage) :
  stage_durations_of segments st
  = seconds 30 * Z.of_nat (count_stage st segments).
Proof.
  unfold stage_durations_of. rewrite stage_durations_fold. reflexivity.
Qed.

Lemma count_stage_total (segments : list SleepSegment) :
  (count_stage Asleep segments + count_stage Light segments
   + count_stage Deep segments + count_stage REM segments
   + count_stage WAKE segments = List.length segments)%nat.
Proof.
  unfold count_stage.
  induction segments as [| seg segs IH]; simpl; [reflexivity |].
  destruct (Stage seg); simpl; lia.
Qed.

Lemma sum_durations_length (segments : list SleepSegment) :
  sum_durations (stage_durations_of segments)
  = seconds 30 * Z.of_nat (List.length segments).
Proof.
  unfold sum_durations. rewrite !stage_durations_of_count.
  rewrite <- (count_stage_total segments). lia.
Qed.

(** C1, as amended: on the timeline built for [start <= end] and overlaid
    with any entries, each of the five stage durations is 30 seconds times
    the number of slots in that stage, their sum is 30 seconds times the
    number of slots, and that total is the span [end - start] rounded up to
    a whole number of 30-second slots. *)
Theorem stage_durations_total (start end_ : datetime)
    (sleep_data : list SleepEntry) :
  utc start <= utc end_ ->
  let segments :=
    update_segments_with_sleep_data (create_30s_segments start end_)
      sleep_data in
  let d := stage_durations_of segments in
  (forall st, d st = seconds 30 * Z.of_nat (count_stage st segments))
  /\ sum_durations d = seconds 30 * Z.of_nat (List.length segments)
  /\ seconds 30 * Z.of_nat (List.length segments)
     = round_up_30s (dt_sub end_ start)
  /\ dt_sub end_ start <= sum_durations d < dt_sub end_ start + seconds 30.
Proof.
  intros Hle segs d.
  assert (Hsum : sum_durations d
                 = seconds 30 * Z.of_nat (List.length segs))
    by apply sum_durations_length.
  assert (Hup : seconds 30 * Z.of_nat (List.length segs)
                = round_up_30s (dt_sub end_ start)).
  { unfold segs, round_up_30s.
    rewrite overlay_length, create_30s_segments_length, slots_left_ceil
      by assumption.
    reflexivity. }
  split; [intros st; apply stage_durations_of_count |].
  split; [exact Hsum |]. split; [exact Hup |].
  rewrite Hsum, Hup. apply ceil_div_bounds, seconds_30_pos.
Qed.

Lemma stage_durations_total_witness :
  let start := mkdt 0 0 in
  let end_ := mkdt (seconds 45) 0 in
  let sleep_data := [mkEntry "watch" 1 start "Core" end_] in
  utc start <= utc end_
  /\ sum_durations
       (stage_durations_of
          (update_segments_with_sleep_data (create_30s_segments start end_)
             sleep_data))
     = round_up_30s (dt_sub end_ start).
Proof.
  intros start end_ sleep_data.
  assert (H : utc start <= utc end_) by (vm_compute; discriminate).
  split; [exact H |].
  destruct (stage_durations_total start end_ sleep_data H)
    as [_ [Hsum [Hup _]]].
  exact (eq_trans Hsum Hup).
Defined.

(** C1 as stated fails on a span of 45 seconds: two slots are built, so the
    five durations add up to 60 seconds, while the span rounded down to a
    multiple of 30 seconds is 30 seconds. *)
Lemma stage_durations_total_counterexample :
  let start := mkdt 0 0 in
  let end_ := mkdt (seconds 45) 0 in
  let sleep_data := [mkEntry "watch" 1 start "Core" end_] in
  let segments :=
    update_segments_with_sleep_data (create_30s_segments start end_)
      sleep_data in
  utc start <= utc end_
  /\ sum_durations (stage_durations_of segments) = seconds 60
  /\ round_down_30s (dt_sub end_ start) = seconds 30
  /\ sum_durations (stage_durations_of segments)
     <> round_down_30s (dt_sub end_ start).
Proof.
  cbv zeta. split; [vm_compute; discriminate |].
  split; [vm_compute; reflexivity |].
  split; [vm_compute; reflexivity |].
  vm_compute. discriminate.
Qed.

(** ** Awakenings *)

Lemma filter_map_length {A B} (f : B -> bool) (g : A -> B) (l : list A) :
  List.length (filter f (map g l))
  = List.length (filter (fun x => f (g x)) l).
Proof.
  induction l as [| x l IH]; simpl; [reflexivity |].
  destruct (f (g x)); simpl; rewrite IH; reflexivity.
Qed.

Lemma filter_none {A} (f : A -> bool) (l : list A) :
  (forall x, In x l -> f x = false) -> filter f l = [].
Proof.
  induction l as [| x l IH]; intros H; simpl; [reflexivity |].
  rewrite (H x (or_introl eq_refl)). apply IH.
  intros y Hy. apply H. right. exact Hy.
Qed.

Lemma awakening_transitions_cons (a : CanonicalStage)
    (l : list CanonicalStage) :
  awakening_transitions (a :: l)
  = (match l with
     | b :: _ => if negb (is_wake a) && is_wake b then 1 else 0
     | [] => 0
     end + awakening_transitions l)%nat.
Proof.
  unfold awakening_transitions.
  assert (Ht : List.length (filter (awakening_at (a :: l))
                              (seq 1 (List.length l)))
               = List.length (filter (awakening_at l)
                                (seq 0 (List.length l)))).
  { rewrite <- seq_shift, filter_map_length. reflexivity. }
  change (List.length (a :: l)) with (S (List.length l)).
  remember (List.length l) as n eqn:Hn. clear Hn.
  cbn [seq filter]. unfold awakening_at at 1. cbn [nth_error].
  destruct l as [| b l']; [exact Ht |].
  destruct (negb (is_wake a) && is_wake b); cbn [List.length];
    rewrite Ht; reflexivity.
Qed.

Lemma count_fold {A} (f : A -> bool) (l : list A) :
  forall n : Z,
  fold_left (fun n p => if f p then n + 1 else n) l n
  = n + Z.of_nat (List.length (filter f l)).
Proof.
  induction l as [| x l IH]; intros n; cbn [fold_left filter].
  - cbn [List.length]. lia.
  - rewrite IH. destruct (f x); cbn [List.length]; lia.
Qed.

Lemma awakening_pairs_transitions (segments : list SleepSegment) :
  List.length (filter awakening_pair (List.combine segments (tl segments)))
  = awakening_transitions (map Stage segments).
Proof.
  induction segments as [| a rest IH]; [reflexivity |].
  cbn [map]. rewrite awakening_transitions_cons, <- IH.
  destruct rest as [| b r]; [reflexivity |].
  cbn [tl List.combine filter map].
  unfold awakening_pair at 1. cbn [fst snd].
  destruct (negb (is_wake (Stage a)) && is_wake (Stage b)); reflexivity.
Qed.

Lemma count_awakenings_spec (segments : list SleepSegment) :
  count_awakenings segments
  = Z.of_nat (awakening_transitions (map Stage segments)).
Proof.
  unfold count_awakenings. rewrite count_fold, awakening_pairs_transitions.
  lia.
Qed.

Lemma awakening_transitions_all_wake (stages : list CanonicalStage) :
  Forall (fun s => s = WAKE) stages -> awakening_transitions stages = 0%nat.
Proof.
  intros Hall. unfold awakening_transitions.
  replace (filter (awakening_at stages) (seq 0 (List.length stages)))
    with (@nil nat); [reflexivity |].
  symmetry. apply filter_none. intros i _. unfold awakening_at.
  destruct (nth_error stages i) as [a |] eqn:Ha; [| reflexivity].
  apply nth_error_In in Ha. rewrite Forall_forall in Hall.
  rewrite (Hall a Ha). destruct (nth_error stages (S i)); reflexivity.
Qed.

(** ** Printing a duration and reading it back *)

Section DurationText.

Local Open Scope string_scope.

Lemma string_app_assoc (a b c : string) : (a ++ b) ++ c = a ++ (b ++ c).
Proof. induction a as [| x a IH]; simpl; [| rewrite IH]; reflexivity. Qed.

Lemma string_app_nil_r (a : string) : a ++ EmptyString = a.
Proof. induction a as [| x a IH]; simpl; [| rewrite IH]; reflexivity. Qed.

Lemma no_colon_app (a b : string) :
  no_colon a = true -> no_colon b = true -> no_colon (a ++ b) = true.
Proof.
  intros Ha Hb. induction a as [| x a IH]; simpl in *; [exact Hb |].
  apply andb_true_iff in Ha. destruct Ha as [Hx Ha].
  rewrite Hx, (IH Ha). reflexivity.
Qed.

Lemma no_colon_uint (d : Decimal.uint) :
  no_colon (NilEmpty.string_of_uint d) = true.
Proof. induction d; simpl; auto. Qed.

Lemma no_colon_str (n : Z) : no_colon (str n) = true.
Proof.
  unfold str, NilZero.string_of_int, NilZero.string_of_uint.
  destruct (Z.to_int n) as [d | d]; destruct d; simpl;
    auto using no_colon_uint.
Qed.

Lemma no_colon_zeros (n : nat) : no_colon (zeros n) = true.
Proof. induction n; simpl; auto. Qed.

Lemma no_colon_zfill (w : nat) (s : string) :
  no_colon s = true -> no_colon (zfill w s) = true.
Proof. intros H. apply no_colon_app; [apply no_colon_zeros | exact H]. Qed.

Lemma split_loop_last (a : string) :
  forall acc, no_colon a = true -> split_loop a acc = [acc ++ a].
Proof.
  induction a as [| c a IH]; intros acc H; simpl in *.
  - rewrite string_app_nil_r. reflexivity.
  - apply andb_true_iff in H. destruct H as [Hc Ha].
    apply negb_true_iff in Hc. rewrite Hc, (IH _ Ha), string_app_assoc.
    reflexivity.
Qed.

Lemma split_loop_field (a rest : string) :
  forall acc, no_colon a = true ->
  split_loop (a ++ String ":" rest) acc
  = (acc ++ a) :: split_loop rest EmptyString.
Proof.
  induction a as [| c a IH]; intros acc H; simpl in *.
  - rewrite string_app_nil_r. reflexivity.
  - apply andb_true_iff in H. destruct H as [Hc Ha].
    apply negb_true_iff in Hc. rewrite Hc, (IH _ Ha), string_app_assoc.
    reflexivity.
Qed.

Lemma split_colon_fmt_hms (h m s : Z) :
  split_colon (fmt_hms h m s) = [str h; fmt_02d m; fmt_02d s].
Proof.
  unfold split_colon, fmt_hms.
  change (str h ++ ":" ++ fmt_02d m ++ ":" ++ fmt_02d s)
    with (str h ++ String ":" (fmt_02d m ++ String ":" (fmt_02d s))).
  rewrite split_loop_field by apply no_colon_str.
  rewrite split_loop_field by apply no_colon_zfill, no_colon_str.
  rewrite split_loop_last by apply no_colon_zfill, no_colon_str.
  reflexivity.
Qed.

Lemma int_str (n : Z) : int (str n) = Some n.
Proof.
  unfold int, str. rewrite NilZero.isi.
  - simpl. rewrite DecimalZ.of_to. reflexivity.
  - destruct n as [| p | p]; simpl; try discriminate.
    intros E. injection E as E.
    pose proof (DecimalPos.Unsigned.of_to p) as H. rewrite E in H.
    discriminate.
  - destruct n as [| p | p]; simpl; try discriminate.
    intros E. injection E as E.
    pose proof (DecimalPos.Unsigned.of_to p) as H. rewrite E in H.
    discriminate.
Qed.

(** The sixty values that minutes and seconds take, checked one by one. *)
Lemma int_fmt_02d (n : Z) : 0 <= n < 60 -> int (fmt_02d n) = Some n.
Proof.
  intros H.
  assert (Hall : forallb
            (fun k => match int (fmt_02d (Z.of_nat k)) with
                      | Some v => Z.eqb v (Z.of_nat k)
                      | None => false
                      end) (seq 0 60) = true) by (vm_compute; reflexivity).
  rewrite forallb_forall in Hall.
  specialize (Hall (Z.to_nat n)). rewrite Z2Nat.id in Hall by lia.
  assert (Hin : In (Z.to_nat n) (seq 0 60)) by (apply in_seq; lia).
  specialize (Hall Hin).
  destruct (int (fmt_02d n)) as [v |]; [| discriminate].
  apply Z.eqb_eq in Hall. congruence.
Qed.

Lemma parse_fmt_hms (h m s : Z) :
  0 <= m < 60 -> 0 <= s < 60 ->
  parse_duration_string (fmt_hms h m s) = inr (hms h m s).
Proof.
  intros Hm Hs. unfold parse_duration_string.
  rewrite split_colon_fmt_hms. cbn [map].
  rewrite int_str, (int_fmt_02d m Hm), (int_fmt_02d s Hs). reflexivity.
Qed.

End DurationText.

Lemma hms_of_total (t : Z) :
  hms (t / 3600) ((t mod 3600) / 60) (t mod 60) = seconds t.
Proof. unfold hms. f_equal. Z.div_mod_to_equations. lia. Qed.

Lemma parse_calculate_duration (a b : datetime) :
  parse_duration_string (calculate_duration a b)
  = inr (seconds (total_seconds_int (dt_sub b a))).
Proof.
  unfold calculate_duration. cbv zeta.
  rewrite parse_fmt_hms.
  - rewrite hms_of_total. reflexivity.
  - pose proof (Z.mod_pos_bound (total_seconds_int (dt_sub b a)) 3600).
    Z.div_mod_to_equations. lia.
  - apply Z.mod_pos_bound. lia.
Qed.

Lemma total_seconds_int_seconds (n : Z) : total_seconds_int (seconds n) = n.
Proof.
  unfold total_seconds_int, seconds. apply Z.quot_mul.
  unfold us_per_second. lia.
Qed.

(** ** What [process_health_data] computes when it returns *)

Lemma find_sleep_onset_In (segs : list SleepSegment) (seg : SleepSegment) :
  find_sleep_onset segs = inr seg -> In seg segs.
Proof.
  unfold find_sleep_onset. destruct segs as [| s0 segs']; simpl.
  - discriminate.
  - intros E. injection E as E.
    destruct (negb (is_wake (Stage s0))) eqn:H0.
    + subst. left. reflexivity.
    + destruct (find _ segs') as [x |] eqn:Hf.
      * subst. right. apply find_some in Hf. apply Hf.
      * subst. left. reflexivity.
Qed.

Lemma night_of_inr (sleep_data : list SleepEntry) (shift : Z) (n : Night) :
  night_of sleep_data shift = inr n ->
  exists first rest onset,
    prepared sleep_data shift = first :: rest
    /\ start_time n = StartDate first
    /\ end_time n = max_dt (EndDate first) (map EndDate rest)
    /\ segments n
       = update_segments_with_sleep_data
           (create_30s_segments (start_time n) (end_time n)) (first :: rest)
    /\ total_duration n = calculate_duration (start_time n) (end_time n)
    /\ find_sleep_onset (segments n) = inr (sleep_onset_segment n)
    /\ sleep_onset_duration n
       = calculate_duration (start_time n) (Start (sleep_onset_segment n))
    /\ stage_durations n = stage_durations_of (segments n)
    /\ parse_duration_string (sleep_onset_duration n) = inr onset
    /\ wake_after_sleep_onset n = stage_durations n WAKE - onset
    /\ num_awakenings n = count_awakenings (segments n)
    /\ hypnogram n
       = join "," (map (fun s => stage_label (Stage s)) (segments n)).
Proof.
  unfold night_of. fold (prepared sleep_data shift).
  destruct (prepared sleep_data shift) as [| first rest]; [discriminate |].
  cbv zeta.
  destruct (find_sleep_onset _) as [e | seg] eqn:Hseg; [discriminate |].
  cbn [bind].
  destruct (parse_duration_string _) as [e | onset] eqn:Hp; [discriminate |].
  cbn [bind ret]. intros E. injection E as <-. cbn.
  exists first, rest, onset. repeat split; assumption.
Qed.

Lemma timeline_slot (start end_ : datetime) (sleep_data : list SleepEntry)
    (seg : SleepSegment) :
  In seg (update_segments_with_sleep_data (create_30s_segments start end_)
            sleep_data) ->
  exists k : nat, Start seg = dt_add start (seconds 30 * Z.of_nat k).
Proof.
  rewrite overlay_closed_form, create_30s_segments_closed_form, map_map.
  intros H. apply in_map_iff in H. destruct H as [k [<- _]].
  exists k. reflexivity.
Qed.

Lemma onset_duration_exact (start : datetime) (k : nat) :
  parse_duration_string
    (calculate_duration start (dt_add start (seconds 30 * Z.of_nat k)))
  = inr (dt_sub (dt_add start (seconds 30 * Z.of_nat k)) start).
Proof.
  rewrite parse_calculate_duration. f_equal.
  replace (dt_sub (dt_add start (seconds 30 * Z.of_nat k)) start)
    with (seconds (30 * Z.of_nat k))
    by (unfold dt_sub; rewrite utc_dt_add; unfold seconds; ring).
  rewrite total_seconds_int_seconds. reflexivity.
Qed.

(** C8: the awakening count is the number of positions [i] where slot [i] is
    not WAKE and slot [i+1] is WAKE; it is zero on a timeline that is WAKE
    throughout; and this is the count the summary reports. *)
Theorem count_awakenings_transitions :
  (forall segs,
     count_awakenings segs
     = Z.of_nat (awakening_transitions (map Stage segs)))
  /\ (forall segs,
        Forall (fun s => Stage s = WAKE) segs -> count_awakenings segs = 0)
  /\ (forall sleep_data shift n,
        night_of sleep_data shift = inr n ->
        NumberOfAwakenings (output_of n)
        = Z.of_nat (awakening_transitions (map Stage (segments n)))).
Proof.
  split; [| split].
  - apply count_awakenings_spec.
  - intros segs Hall. rewrite count_awakenings_spec.
    rewrite awakening_transitions_all_wake; [reflexivity |].
    apply Forall_map. exact Hall.
  - intros l s n Hn. apply night_of_inr in Hn.
    destruct Hn as (first & rest & onset & Hn).
    cbn [output_of NumberOfAwakenings].
    replace (num_awakenings n) with (count_awakenings (segments n))
      by (symmetry; apply Hn).
    apply count_awakenings_spec.
Qed.

Lemma count_awakenings_transitions_witness :
  let segs := [mkSegment (mkdt 0 0) WAKE; mkSegment (mkdt (seconds 30) 0) WAKE] in
  Forall (fun s => Stage s = WAKE) segs /\ count_awakenings segs = 0.
Proof.
  intros segs.
  assert (H : Forall (fun s => Stage s = WAKE) segs)
    by (repeat constructor).
  split; [exact H |].
  exact (proj1 (proj2 count_awakenings_transitions) segs H).
Defined.


(** ** Sorting by start, and the span of a night *)

Lemma insert_by_start_perm (e : SleepEntry) (l : list SleepEntry) :
  Permutation (insert_by_start e l) (e :: l).
Proof.
  induction l as [| x l IH]; simpl; [apply Permutation_refl |].
  destruct (dt_leb (StartDate e) (StartDate x)); [apply Permutation_refl |].
  eapply Permutation_trans; [apply perm_skip, IH | apply perm_swap].
Qed.

Lemma sorted_by_start_perm (l : list SleepEntry) :
  Permutation (sorted_by_start l) l.
Proof.
  induction l as [| e l IH]; simpl; [apply Permutation_refl |].
  eapply Permutation_trans; [apply insert_by_start_perm |].
  apply perm_skip, IH.
Qed.

Lemma sorted_by_start_In (l : list SleepEntry) (e : SleepEntry) :
  In e (sorted_by_start l) <-> In e l.
Proof.
  split; apply Permutation_in;
    [| apply Permutation_sym]; apply sorted_by_start_perm.
Qed.

Lemma insert_by_start_sorted (e : SleepEntry) (l : list SleepEntry) :
  StronglySorted start_le l -> StronglySorted start_le (insert_by_start e l).
Proof.
  induction l as [| x l IH]; intros Hs; simpl.
  - constructor; constructor.
  - inversion Hs as [| ? ? Hl Hx]; subst. unfold dt_leb.
    destruct (Z.leb_spec (utc (StartDate e)) (utc (StartDate x))) as [H | H].
    + constructor; [exact Hs |]. constructor; [exact H |].
      eapply Forall_impl; [| exact Hx]. unfold start_le. intros; lia.
    + constructor; [apply IH; exact Hl |].
      eapply Permutation_Forall;
        [apply Permutation_sym, insert_by_start_perm |].
      constructor; [unfold start_le; lia | exact Hx].
Qed.

Lemma sorted_by_start_sorted (l : list SleepEntry) :
  StronglySorted start_le (sorted_by_start l).
Proof.
  induction l as [| e l IH]; simpl; [constructor |].
  apply insert_by_start_sorted, IH.
Qed.

Lemma sorted_by_start_head (l : list SleepEntry) (first : SleepEntry)
    (rest : list SleepEntry) :
  sorted_by_start l = first :: rest ->
  In first l /\ forall e, In e l -> start_le first e.
Proof.
  intros E. split.
  - apply sorted_by_start_In. rewrite E. left. reflexivity.
  - intros e He. apply sorted_by_start_In in He. rewrite E in He.
    pose proof (sorted_by_start_sorted l) as Hs. rewrite E in Hs.
    inversion Hs as [| ? ? _ Hall]; subst.
    destruct He as [<- | He]; [unfold start_le; lia |].
    rewrite Forall_forall in Hall. apply Hall, He.
Qed.

Lemma fold_min_spec (l : list Z) :
  forall a, In (fold_left Z.min l a) (a :: l)
            /\ forall x, In x (a :: l) -> fold_left Z.min l a <= x.
Proof.
  induction l as [| y l IH]; intros a; simpl.
  - split; [left; reflexivity | intros x [<- | []]; lia].
  - destruct (IH (Z.min a y)) as [Hin Hlb]. split.
    + destruct Hin as [Hin | Hin]; [| right; right; exact Hin].
      destruct (Z.min_spec a y) as [[_ E] | [_ E]]; rewrite E in *; auto.
    + intros x [<- | [<- | Hx]].
      * specialize (Hlb (Z.min a y) (or_introl eq_refl)). lia.
      * specialize (Hlb (Z.min a y) (or_introl eq_refl)). lia.
      * apply Hlb. right. exact Hx.
Qed.

Lemma fold_max_spec (l : list Z) :
  forall a, In (fold_left Z.max l a) (a :: l)
            /\ forall x, In x (a :: l) -> x <= fold_left Z.max l a.
Proof.
  induction l as [| y l IH]; intros a; simpl.
  - split; [left; reflexivity | intros x [<- | []]; lia].
  - destruct (IH (Z.max a y)) as [Hin Hub]. split.
    + destruct Hin as [Hin | Hin]; [| right; right; exact Hin].
      destruct (Z.max_spec a y) as [[_ E] | [_ E]]; rewrite E in *; auto.
    + intros x [<- | [<- | Hx]].
      * specialize (Hub (Z.max a y) (or_introl eq_refl)). lia.
      * specialize (Hub (Z.max a y) (or_introl eq_refl)). lia.
      * apply Hub. right. exact Hx.
Qed.

Lemma utc_max_dt (l : list datetime) :
  forall a, utc (max_dt a l) = fold_left Z.max (map utc l) (utc a).
Proof.
  unfold max_dt. induction l as [| d l IH]; intros a; simpl; [reflexivity |].
  rewrite IH. f_equal. unfold dt_ltb.
  destruct (Z.ltb_spec (utc a) (utc d)); lia.
Qed.

Lemma earliest_start_spec (l : list SleepEntry) (t : Z) :
  earliest_start l = Some t ->
  (exists e, In e l /\ utc (StartDate e) = t)
  /\ forall e, In e l -> t <= utc (StartDate e).
Proof.
  destruct l as [| e0 r]; [discriminate |]. simpl. intros E.
  injection E as <-.
  destruct (fold_min_spec (map (fun x => utc (StartDate x)) r)
              (utc (StartDate e0))) as [Hin Hlb].
  split.
  - change (In (fold_left Z.min (map (fun x => utc (StartDate x)) r)
                  (utc (StartDate e0)))
               (map (fun x => utc (StartDate x)) (e0 :: r))) in Hin.
    apply in_map_iff in Hin. destruct Hin as [e [He Hin]].
    exists e. split; [exact Hin | exact He].
  - intros e He. apply Hlb.
    change (In (utc (StartDate e))
              (map (fun x => utc (StartDate x)) (e0 :: r))).
    apply (in_map (fun x => utc (StartDate x))). exact He.
Qed.

Lemma latest_end_spec (l : list SleepEntry) (t : Z) :
  latest_end l = Some t ->
  (exists e, In e l /\ utc (EndDate e) = t)
  /\ forall e, In e l -> utc (EndDate e) <= t.
Proof.
  destruct l as [| e0 r]; [discriminate |]. simpl. intros E.
  injection E as <-.
  destruct (fold_max_spec (map (fun x => utc (EndDate x)) r)
              (utc (EndDate e0))) as [Hin Hub].
  split.
  - change (In (fold_left Z.max (map (fun x => utc (EndDate x)) r)
                  (utc (EndDate e0)))
               (map (fun x => utc (EndDate x)) (e0 :: r))) in Hin.
    apply in_map_iff in Hin. destruct Hin as [e [He Hin]].
    exists e. split; [exact Hin | exact He].
  - intros e He. apply Hub.
    change (In (utc (EndDate e))
              (map (fun x => utc (EndDate x)) (e0 :: r))).
    apply (in_map (fun x => utc (EndDate x))). exact He.
Qed.

Lemma utc_shift_start (s : Z) (e : SleepEntry) :
  utc (StartDate (shift_entry s e)) = utc (StartDate e) + seconds s.
Proof. apply utc_dt_add. Qed.

Lemma utc_shift_end (s : Z) (e : SleepEntry) :
  utc (EndDate (shift_entry s e)) = utc (EndDate e) + seconds s.
Proof. apply utc_dt_add. Qed.

(** The span the timeline is built over, in terms of the input list. *)
Lemma prepared_span (l : list SleepEntry) (s : Z) (first : SleepEntry)
    (rest : list SleepEntry) :
  prepared l s = first :: rest ->
  exists tmin tmax,
    earliest_start l = Some tmin /\ latest_end l = Some tmax
    /\ utc (StartDate first) = tmin + seconds s
    /\ utc (max_dt (EndDate first) (map EndDate rest)) = tmax + seconds s.
Proof.
  unfold prepared. intros E.
  destruct (sorted_by_start l) as [| f0 r0] eqn:Hs; [discriminate |].
  cbn [map] in E. injection E as <- <-.
  destruct (sorted_by_start_head l f0 r0 Hs) as [Hf0 Hmin].
  destruct l as [| e0 l']; [destruct Hf0 |].
  destruct (earliest_start (e0 :: l')) as [tmin |] eqn:Emin; [| discriminate].
  destruct (latest_end (e0 :: l')) as [tmax |] eqn:Emax; [| discriminate].
  exists tmin, tmax. split; [reflexivity |]. split; [reflexivity |].
  destruct (earliest_start_spec _ _ Emin) as [[em [Hem1 Hem2]] Hlb].
  destruct (latest_end_spec _ _ Emax) as [[ex [Hex1 Hex2]] Hub].
  split.
  - rewrite utc_shift_start.
    pose proof (Hmin em Hem1) as H1. pose proof (Hlb f0 Hf0) as H2.
    unfold start_le in H1. lia.
  - rewrite utc_max_dt.
    destruct (fold_max_spec (map utc (map EndDate (map (shift_entry s) r0)))
                (utc (EndDate (shift_entry s f0)))) as [Hin Hub'].
    set (M := fold_left Z.max _ _) in *.
    assert (Hset : forall x,
               In x (utc (EndDate (shift_entry s f0))
                     :: map utc (map EndDate (map (shift_entry s) r0)))
               <-> exists e, In e (e0 :: l')
                             /\ x = utc (EndDate e) + seconds s).
    { intros x.
      change (utc (EndDate (shift_entry s f0))
              :: map utc (map EndDate (map (shift_entry s) r0)))
        with (map utc (map EndDate (map (shift_entry s) (f0 :: r0)))).
      rewrite !map_map, in_map_iff. rewrite <- Hs.
      split; intros [e [H1 H2]]; exists e.
      - apply (proj1 (sorted_by_start_In _ _)) in H2.
        rewrite utc_shift_end in H1.
        split; [exact H2 | symmetry; exact H1].
      - apply (proj2 (sorted_by_start_In _ _)) in H1. rewrite utc_shift_end.
        split; [symmetry; exact H2 | exact H1]. }
    apply Hset in Hin. destruct Hin as [e [He1 He2]].
    assert (Hx : tmax + seconds s <= M).
    { apply Hub'. apply Hset. exists ex. split; [exact Hex1 | lia]. }
    pose proof (Hub e He1). lia.
Qed.

Lemma create_30s_segments_nil (start end_ : datetime) :
  utc end_ <= utc start -> create_30s_segments start end_ = [].
Proof.
  intros H. rewrite create_30s_segments_closed_form, slots_left_done by lia.
  reflexivity.
Qed.

Lemma create_30s_segments_cons (start end_ : datetime) :
  utc start < utc end_ ->
  exists rest, create_30s_segments start end_ = mkSegment start WAKE :: rest.
Proof.
  intros H. rewrite create_30s_segments_closed_form, slots_left_succ by lia.
  cbn [seq map]. eexists. unfold slot_at at 1.
  rewrite Z.mul_0_r, dt_add_0. reflexivity.
Qed.

(** C10: when the earliest start of a non-empty list of entries equals its
    latest end (a single zero-length entry, say), the timeline built is
    empty and [process_health_data] raises IndexError on [segments[0]]:
    no summary is produced. *)
Theorem process_health_data_empty_timeline (sleep_data : list SleepEntry)
    (shift t : Z) :
  earliest_start sleep_data = Some t ->
  latest_end sleep_data = Some t ->
  sleep_data <> []
  /\ (exists first rest,
        prepared sleep_data shift = first :: rest
        /\ create_30s_segments (StartDate first)
             (max_dt (EndDate first) (map EndDate rest)) = [])
  /\ process_health_data sleep_data shift = inl IndexError.
Proof.
  intros Hmin Hmax.
  assert (Hne : sleep_data <> []) by (intros ->; discriminate).
  split; [exact Hne |].
  destruct (prepared sleep_data shift) as [| first rest] eqn:Hp.
  { unfold prepared in Hp. apply map_eq_nil in Hp.
    pose proof (sorted_by_start_perm sleep_data) as Hperm. rewrite Hp in Hperm.
    apply Permutation_nil in Hperm. contradiction. }
  destruct (prepared_span _ _ _ _ Hp) as (tmin & tmax & E1 & E2 & Hs & He).
  rewrite Hmin in E1. rewrite Hmax in E2.
  injection E1 as <-. injection E2 as <-.
  assert (Hnil : create_30s_segments (StartDate first)
                   (max_dt (EndDate first) (map EndDate rest)) = [])
    by (apply create_30s_segments_nil; lia).
  split.
  - exists first, rest. split; [reflexivity | exact Hnil].
  - unfold process_health_data, night_of. fold (prepared sleep_data shift).
    rewrite Hp. cbv zeta. rewrite Hnil.
    rewrite overlay_closed_form. reflexivity.
Qed.

Lemma process_health_data_empty_timeline_witness :
  let t := mkdt (seconds 3600) 0 in
  let sleep_data := [mkEntry "watch" 1 t "Core" t] in
  earliest_start sleep_data = Some (seconds 3600)
  /\ latest_end sleep_data = Some (seconds 3600)
  /\ process_health_data sleep_data 0 = inl IndexError.
Proof.
  intros t sleep_data.
  assert (H1 : earliest_start sleep_data = Some (seconds 3600))
    by reflexivity.
  assert (H2 : latest_end sleep_data = Some (seconds 3600)) by reflexivity.
  split; [exact H1 |]. split; [exact H2 |].
  exact (proj2 (proj2 (process_health_data_empty_timeline sleep_data 0
                         (seconds 3600) H1 H2))).
Defined.

(** Conversely, a summary is produced whenever the latest end lies after
    the earliest start. *)
Lemma night_of_returns (sleep_data : list SleepEntry) (shift a b : Z) :
  earliest_start sleep_data = Some a ->
  latest_end sleep_data = Some b ->
  a < b ->
  exists n, night_of sleep_data shift = inr n.
Proof.
  intros Hmin Hmax Hab.
  destruct (prepared sleep_data shift) as [| first rest] eqn:Hp.
  { unfold prepared in Hp. apply map_eq_nil in Hp.
    pose proof (sorted_by_start_perm sleep_data) as Hperm. rewrite Hp in Hperm.
    apply Permutation_nil in Hperm. subst. discriminate. }
  destruct (prepared_span _ _ _ _ Hp) as (tmin & tmax & E1 & E2 & Hs & He).
  rewrite Hmin in E1. rewrite Hmax in E2.
  injection E1 as <-. injection E2 as <-.
  unfold night_of. fold (prepared sleep_data shift). rewrite Hp. cbv zeta.
  set (start := StartDate first).
  set (end_ := max_dt (EndDate first) (map EndDate rest)).
  set (segs := update_segments_with_sleep_data
                 (create_30s_segments start end_) (first :: rest)).
  destruct (find_sleep_onset segs) as [e | seg] eqn:Hf.
  - exfalso. unfold segs in Hf. rewrite overlay_closed_form in Hf.
    destruct (create_30s_segments_cons start end_) as [r Hr];
      [unfold start, end_; lia |].
    rewrite Hr in Hf. discriminate.
  - cbn [bind]. pose proof (find_sleep_onset_In _ _ Hf) as Hin.
    apply timeline_slot in Hin. destruct Hin as [k Hk].
    rewrite Hk, onset_duration_exact. cbn [bind ret]. eexists. reflexivity.
Qed.

(** ** Shifting the clock *)

Lemma shift_entry_plus (s d : Z) (e : SleepEntry) :
  shift_entry (s + d) e = shift_entry d (shift_entry s e).
Proof.
  unfold shift_entry, apply_time_shift. cbn.
  rewrite !dt_add_add, seconds_plus. reflexivity.
Qed.

Lemma prepared_plus (l : list SleepEntry) (s d : Z) :
  prepared l (s + d) = map (shift_entry d) (prepared l s).
Proof.
  unfold prepared. rewrite map_map. apply map_ext.
  intros e. apply shift_entry_plus.
Qed.

Lemma max_dt_shift (td : timedelta) (l : list datetime) :
  forall a,
  max_dt (dt_add a td) (map (fun x => dt_add x td) l)
  = dt_add (max_dt a l) td.
Proof.
  unfold max_dt. induction l as [| x l IH]; intros a; cbn [map fold_left].
  - reflexivity.
  - rewrite dt_ltb_add. destruct (dt_ltb a x); apply IH.
Qed.

Lemma slots_left_shift (td : timedelta) (a b : datetime) :
  slots_left (dt_add a td) (dt_add b td) = slots_left a b.
Proof. unfold slots_left. rewrite !utc_dt_add. do 2 f_equal. ring. Qed.

Lemma create_30s_segments_shift (td : timedelta) (a b : datetime) :
  create_30s_segments (dt_add a td) (dt_add b td)
  = map (shift_segment td) (create_30s_segments a b).
Proof.
  rewrite !create_30s_segments_closed_form, slots_left_shift, map_map.
  apply map_ext. intros k. unfold slot_at, shift_segment. cbn.
  rewrite !dt_add_add. do 2 f_equal. ring.
Qed.

Lemma covers_shift (d : Z) (e : SleepEntry) (t : datetime) :
  covers (shift_entry d e) (dt_add t (seconds d)) = covers e t.
Proof.
  unfold covers, shift_entry, apply_time_shift. cbn.
  rewrite !dt_leb_add. reflexivity.
Qed.

Lemma first_writer_shift (d : Z) (data : list SleepEntry) (t : datetime) :
  first_writer (map (shift_entry d) data) (dt_add t (seconds d))
  = first_writer data t.
Proof.
  unfold first_writer. induction data as [| e data IH]; cbn [map find].
  - reflexivity.
  - rewrite covers_shift.
    change (entry_stage (shift_entry d e)) with (entry_stage e).
    destruct (covers e t && negb (is_wake (entry_stage e)));
      [reflexivity | exact IH].
Qed.

Lemma overlay_shift (d : Z) (segs : list SleepSegment)
    (data : list SleepEntry) :
  update_segments_with_sleep_data (map (shift_segment (seconds d)) segs)
    (map (shift_entry d) data)
  = map (shift_segment (seconds d))
      (update_segments_with_sleep_data segs data).
Proof.
  rewrite !overlay_closed_form, !map_map. apply map_ext. intros seg.
  unfold overlaid, shift_segment. cbn. rewrite first_writer_shift.
  reflexivity.
Qed.

Lemma calculate_duration_shift (td : timedelta) (a b : datetime) :
  calculate_duration (dt_add a td) (dt_add b td) = calculate_duration a b.
Proof. unfold calculate_duration. rewrite dt_sub_add. reflexivity. Qed.

Lemma find_not_wake_shift (td : timedelta) (l : list SleepSegment) :
  find (fun s => negb (is_wake (Stage s))) (map (shift_segment td) l)
  = option_map (shift_segment td)
      (find (fun s => negb (is_wake (Stage s))) l).
Proof.
  induction l as [| x l IH]; cbn [map find]; [reflexivity |].
  change (Stage (shift_segment td x)) with (Stage x).
  destruct (negb (is_wake (Stage x))); [reflexivity | exact IH].
Qed.

Lemma find_sleep_onset_shift (td : timedelta) (segs : list SleepSegment) :
  find_sleep_onset (map (shift_segment td) segs)
  = match find_sleep_onset segs with
    | inl e => inl e
    | inr seg => inr (shift_segment td seg)
    end.
Proof.
  unfold find_sleep_onset. rewrite find_not_wake_shift.
  destruct segs as [| s0 segs]; [reflexivity |].
  cbn [map first_segment bind ret].
  destruct (find _ (s0 :: segs)); reflexivity.
Qed.

Lemma map_Stage_shift (td : timedelta) (segs : list SleepSegment) :
  map Stage (map (shift_segment td) segs) = map Stage segs.
Proof. rewrite map_map. apply map_ext. reflexivity. Qed.

Lemma stage_durations_of_shift (td : timedelta) (segs : list SleepSegment) :
  stage_durations_of (map (shift_segment td) segs) = stage_durations_of segs.
Proof.
  unfold stage_durations_of. generalize durations_init.
  induction segs as [| x l IH]; intros d; cbn [map fold_left];
    [reflexivity | apply IH].
Qed.

Lemma count_awakenings_shift (td : timedelta) (segs : list SleepSegment) :
  count_awakenings (map (shift_segment td) segs) = count_awakenings segs.
Proof. rewrite !count_awakenings_spec, map_Stage_shift. reflexivity. Qed.

(** Adding [d] seconds to the shift moves the night and nothing else. *)
Lemma night_of_shift (l : list SleepEntry) (s d : Z) :
  night_of l (s + d)
  = match night_of l s with
    | inl e => inl e
    | inr n => inr (shift_night (seconds d) n)
    end.
Proof.
  unfold night_of. fold (prepared l (s + d)). fold (prepared l s).
  rewrite prepared_plus.
  destruct (prepared l s) as [| first rest]; [reflexivity |].
  cbn [map]. cbv zeta.
  change (StartDate (shift_entry d first))
    with (dt_add (StartDate first) (seconds d)).
  change (EndDate (shift_entry d first))
    with (dt_add (EndDate first) (seconds d)).
  replace (map EndDate (map (shift_entry d) rest))
    with (map (fun x => dt_add x (seconds d)) (map EndDate rest))
    by (rewrite !map_map; reflexivity).
  rewrite max_dt_shift, create_30s_segments_shift.
  change (shift_entry d first :: map (shift_entry d) rest)
    with (map (shift_entry d) (first :: rest)).
  rewrite overlay_shift, find_sleep_onset_shift, calculate_duration_shift.
  destruct (find_sleep_onset _) as [e | seg]; [reflexivity |].
  cbn [bind].
  change (Start (shift_segment (seconds d) seg))
    with (dt_add (Start seg) (seconds d)).
  rewrite calculate_duration_shift.
  destruct (parse_duration_string _) as [e | onset]; [reflexivity |].
  cbn [bind ret]. unfold shift_night.
  cbn [start_time end_time segments total_duration sleep_onset_segment
       sleep_onset_duration stage_durations wake_after_sleep_onset
       num_awakenings hypnogram].
  rewrite stage_durations_of_shift, count_awakenings_shift.
  rewrite (map_map (shift_segment (seconds d))). reflexivity.
Qed.

(** ** Runs within the range of [datetime] *)

Lemma timedelta_checked_cases (td : timedelta) :
  timedelta_checked td = inl OverflowError \/ timedelta_checked td = inr td.
Proof.
  unfold timedelta_checked. destruct (_ && _); [right | left]; reflexivity.
Qed.

Lemma apply_time_shift_checked_cases (d : datetime) (s : Z) :
  apply_time_shift_checked d s = inl OverflowError
  \/ apply_time_shift_checked d s = inr (apply_time_shift d s).
Proof.
  unfold apply_time_shift_checked.
  destruct (timedelta_checked_cases (seconds s)) as [-> | ->];
    [left; reflexivity |].
  cbn [bind]. unfold dt_add_checked, apply_time_shift.
  destruct (representable _); [right | left]; reflexivity.
Qed.

Lemma apply_time_shift_checked_ok (d : datetime) (s : Z) :
  timedelta_ok (seconds s) ->
  representable (apply_time_shift d s) = true ->
  apply_time_shift_checked d s = inr (apply_time_shift d s).
Proof.
  intros [H1 H2] Hr.
  unfold apply_time_shift_checked, timedelta_checked.
  replace (- MAX_DELTA_DAYS * us_per_day <=? seconds s) with true
    by (symmetry; apply Z.leb_le; exact H1).
  replace (seconds s <? (MAX_DELTA_DAYS + 1) * us_per_day) with true
    by (symmetry; apply Z.ltb_lt; exact H2).
  cbn [andb bind ret]. unfold dt_add_checked.
  fold (apply_time_shift d s). rewrite Hr. reflexivity.
Qed.

Lemma shift_entry_checked_cases (s : Z) (e : SleepEntry) :
  shift_entry_checked s e = inl OverflowError
  \/ shift_entry_checked s e = inr (shift_entry s e).
Proof.
  unfold shift_entry_checked.
  destruct (apply_time_shift_checked_cases (StartDate e) s) as [-> | ->];
    [left; reflexivity |]. cbn [bind].
  destruct (apply_time_shift_checked_cases (EndDate e) s) as [-> | ->];
    [left | right]; reflexivity.
Qed.

Lemma shift_all_checked_cases (s : Z) (l : list SleepEntry) :
  shift_all_checked s l = inl OverflowError
  \/ shift_all_checked s l = inr (map (shift_entry s) l).
Proof.
  induction l as [| e l IH]; cbn [shift_all_checked map];
    [right; reflexivity |].
  destruct (shift_entry_checked_cases s e) as [-> | ->];
    [left; reflexivity |]. cbn [bind].
  destruct IH as [-> | ->]; [left | right]; reflexivity.
Qed.

Lemma shift_all_checked_ok (s : Z) (l : list SleepEntry) :
  timedelta_ok (seconds s) ->
  (forall e, In e l ->
     representable (apply_time_shift (StartDate e) s) = true
     /\ representable (apply_time_shift (EndDate e) s) = true) ->
  shift_all_checked s l = inr (map (shift_entry s) l).
Proof.
  intros Htd. induction l as [| e l IH]; intros Hall;
    cbn [shift_all_checked map]; [reflexivity |].
  destruct (Hall e (or_introl eq_refl)) as [H1 H2].
  unfold shift_entry_checked.
  rewrite (apply_time_shift_checked_ok _ _ Htd H1). cbn [bind].
  rewrite (apply_time_shift_checked_ok _ _ Htd H2). cbn [bind ret].
  rewrite IH by (intros x Hx; apply Hall; right; exact Hx).
  reflexivity.
Qed.

Lemma segments_loop_checked_cases (n : nat) :
  forall c e, slots_left c e = n ->
  segments_loop_checked c e = inl OverflowError
  \/ segments_loop_checked c e = inr (segments_loop c e).
Proof.
  induction n as [| n IH]; intros c e Hn;
    simp segments_loop_checked segments_loop;
    destruct (Z_lt_dec (utc c) (utc e)) as [Hlt | Hge]; cbn.
  - rewrite slots_left_succ in Hn by assumption. discriminate.
  - right. reflexivity.
  - rewrite slots_left_succ in Hn by assumption. injection Hn as Hn.
    destruct (representable (dt_add c 30000000)); cbn;
      [| left; reflexivity].
    destruct (IH (dt_add c (seconds 30)) e Hn) as [E | E];
      change (seconds 30) with 30000000 in E; rewrite E;
      [left | right]; reflexivity.
  - right. reflexivity.
Qed.

Lemma segments_loop_checked_ok (n : nat) :
  forall c e, slots_left c e = n ->
  (forall k, 1 <= k <= Z.of_nat n ->
     representable (dt_add c (seconds 30 * k)) = true) ->
  segments_loop_checked c e = inr (segments_loop c e).
Proof.
  induction n as [| n IH]; intros c e Hn Hrep;
    simp segments_loop_checked segments_loop;
    destruct (Z_lt_dec (utc c) (utc e)) as [Hlt | Hge]; cbn.
  - rewrite slots_left_succ in Hn by assumption. discriminate.
  - reflexivity.
  - rewrite slots_left_succ in Hn by assumption. injection Hn as Hn.
    pose proof (Hrep 1 ltac:(lia)) as H1.
    change (seconds 30 * 1) with 30000000 in H1. rewrite H1. cbn.
    assert (E : segments_loop_checked (dt_add c (seconds 30)) e
                = inr (segments_loop (dt_add c (seconds 30)) e)).
    { apply IH; [exact Hn |]. intros k Hk. rewrite dt_add_add.
      replace (seconds 30 + seconds 30 * k) with (seconds 30 * (k + 1))
        by ring.
      apply Hrep. lia. }
    change (seconds 30) with 30000000 in E. rewrite E. reflexivity.
  - reflexivity.
Qed.

Lemma night_of_summary (l : list SleepEntry) (s : Z) :
  night_of l s
  = match prepared l s with
    | [] => raise IndexError
    | first :: rest =>
        night_summary first rest
          (create_30s_segments (StartDate first)
             (max_dt (EndDate first) (map EndDate rest)))
    end.
Proof.
  unfold night_of, prepared. cbv zeta.
  destruct (map (shift_entry s) (sorted_by_start l)); reflexivity.
Qed.

(** A run with the range checked either raises OverflowError or is the run
    on the unbounded time line. *)
Lemma night_of_checked_cases (l : list SleepEntry) (s : Z) :
  night_of_checked l s = inl OverflowError
  \/ night_of_checked l s = night_of l s.
Proof.
  rewrite night_of_summary. unfold night_of_checked, prepared. cbv zeta.
  destruct (shift_all_checked_cases s (sorted_by_start l)) as [-> | ->];
    [left; reflexivity |].
  cbn [bind].
  destruct (map (shift_entry s) (sorted_by_start l)) as [| first rest];
    [right; reflexivity |].
  unfold create_30s_segments_checked, create_30s_segments.
  destruct (segments_loop_checked_cases _ (StartDate first)
              (max_dt (EndDate first) (map EndDate rest)) eq_refl)
    as [-> | ->]; [left | right]; reflexivity.
Qed.

Lemma process_health_data_checked_cases (l : list SleepEntry) (s : Z) :
  process_health_data_checked l s = inl OverflowError
  \/ process_health_data_checked l s = process_health_data l s.
Proof.
  unfold process_health_data_checked, process_health_data.
  destruct (night_of_checked_cases l s) as [-> | ->];
    [left | right]; reflexivity.
Qed.

Lemma night_of_checked_no_overflow (l : list SleepEntry) (s : Z) :
  process_health_data_checked l s <> inl OverflowError ->
  night_of_checked l s = night_of l s.
Proof.
  intros H. destruct (night_of_checked_cases l s) as [E | E]; [| exact E].
  exfalso. apply H. unfold process_health_data_checked. rewrite E.
  reflexivity.
Qed.

Lemma max_dt_In (l : list datetime) :
  forall a, In (max_dt a l) (a :: l).
Proof.
  unfold max_dt. induction l as [| d l IH]; intros a; cbn [fold_left].
  - left. reflexivity.
  - destruct (dt_ltb a d).
    + right. apply IH.
    + destruct (IH a) as [H | H]; [left; exact H | right; right; exact H].
Qed.

(** Within [run_in_range] no addition leaves the range. *)
Lemma night_of_checked_in_range (l : list SleepEntry) (s : Z) :
  run_in_range l s -> night_of_checked l s = night_of l s.
Proof.
  intros (Htd & Hends & Hslots).
  rewrite night_of_summary. unfold night_of_checked, prepared. cbv zeta.
  rewrite shift_all_checked_ok;
    [| exact Htd
     | intros e He; apply Hends, sorted_by_start_In, He].
  cbn [bind].
  destruct (map (shift_entry s) (sorted_by_start l)) as [| first rest] eqn:Hp;
    [reflexivity |].
  unfold create_30s_segments_checked, create_30s_segments.
  set (start := StartDate first) in *.
  set (end_ := max_dt (EndDate first) (map EndDate rest)) in *.
  rewrite (segments_loop_checked_ok _ start end_ eq_refl); [reflexivity |].
  intros k Hk.
  assert (Hfirst : exists e, In e l /\ start = apply_time_shift (StartDate e) s).
  { assert (Hin : In first (map (shift_entry s) (sorted_by_start l)))
      by (rewrite Hp; left; reflexivity).
    apply in_map_iff in Hin. destruct Hin as [e [<- He]].
    exists e. split; [apply sorted_by_start_In, He | reflexivity]. }
  assert (Hlast : exists e', In e' l /\ end_ = apply_time_shift (EndDate e') s).
  { pose proof (max_dt_In (map EndDate rest) (EndDate first)) as Hin.
    fold end_ in Hin.
    change (EndDate first :: map EndDate rest)
      with (map EndDate (first :: rest)) in Hin.
    rewrite <- Hp, map_map in Hin. apply in_map_iff in Hin.
    destruct Hin as [e' [He1 He2]].
    exists e'. split; [apply sorted_by_start_In, He2 | symmetry; exact He1]. }
  destruct Hfirst as [e [He Hs]]. destruct Hlast as [e' [He' Hl]].
  destruct (Hends e He) as [Hrs _]. rewrite <- Hs in Hrs.
  specialize (Hslots e e' He He').
  assert (Hpos : utc start < utc end_).
  { destruct (Z.lt_ge_cases (utc start) (utc end_)) as [H | H]; [exact H |].
    rewrite slots_left_done in Hk by lia. cbn in Hk. lia. }
  pose proof (slots_left_ceil start end_ ltac:(lia)) as Hc.
  pose proof (ceil_div_bounds (dt_sub end_ start) (seconds 30)
                seconds_30_pos) as Hb.
  unfold representable in *. unfold dt_add. cbn [wall].
  apply andb_true_iff in Hrs. destruct Hrs as [Hlo Hhi].
  apply Z.leb_le in Hlo. apply Z.ltb_lt in Hhi.
  pose proof seconds_30_pos as Hp30.
  assert (Hspan : dt_sub end_ start = utc (EndDate e') - utc (StartDate e)).
  { unfold dt_sub. rewrite Hs, Hl. unfold apply_time_shift.
    rewrite !utc_dt_add. ring. }
  assert (Hw : wall start = wall (StartDate e) + seconds s)
    by (rewrite Hs; reflexivity).
  apply andb_true_iff. split; [apply Z.leb_le | apply Z.ltb_lt]; nia.
Qed.

(** C4, as amended: when the latest end of the entries lies after their
    earliest start and neither run leaves the range of [datetime], the runs
    with shift [s] and with shift [s + 3600] both return a summary; the
    start and the stop printed by the second are those of the first moved by
    one hour, and the total duration, the sleep-onset duration, the five
    stage durations, the wake-after-sleep-onset duration, the awakening
    count and the hypnogram are the same. *)
Theorem time_shift_one_hour (sleep_data : list SleepEntry) (s : Z) :
  positive_span sleep_data ->
  process_health_data_checked sleep_data s <> inl OverflowError ->
  process_health_data_checked sleep_data (s + 3600) <> inl OverflowError ->
  exists n n',
    night_of_checked sleep_data s = inr n
    /\ night_of_checked sleep_data (s + 3600) = inr n'
    /\ process_health_data_checked sleep_data s = inr (output_of n)
    /\ process_health_data_checked sleep_data (s + 3600)
       = inr (output_of n')
    /\ start_time n' = dt_add (start_time n) (seconds 3600)
    /\ end_time n' = dt_add (end_time n) (seconds 3600)
    /\ StartTime (output_of n) = strftime_iso (start_time n)
    /\ StopTime (output_of n) = strftime_iso (end_time n)
    /\ StartTime (output_of n')
       = strftime_iso (dt_add (start_time n) (seconds 3600))
    /\ StopTime (output_of n')
       = strftime_iso (dt_add (end_time n) (seconds 3600))
    /\ total_duration n' = total_duration n
    /\ sleep_onset_duration n' = sleep_onset_duration n
    /\ (forall st, stage_durations n' st = stage_durations n st)
    /\ wake_after_sleep_onset n' = wake_after_sleep_onset n
    /\ num_awakenings n' = num_awakenings n
    /\ hypnogram n' = hypnogram n
    /\ output_of n'
       = mkOutput (Type_ (output_of n)) (StartTime (output_of n'))
           (StopTime (output_of n')) (SleepDuration (output_of n))
           (SleepOnsetDuration (output_of n))
           (LightSleepDuration (output_of n))
           (DeepSleepDuration (output_of n)) (REMDuration (output_of n))
           (WakeAfterSleepOnsetDuration (output_of n))
           (NumberOfAwakenings (output_of n)) (PositionChanges (output_of n))
           (MeanHeartRate (output_of n)) (MeanRespirationCPM (output_of n))
           (NumberOfStimulations (output_of n))
           (SleepEfficiency (output_of n)) (Hypnogram (output_of n)).
Proof.
  intros (a & b & Ea & Eb & Hab) H1 H2.
  destruct (night_of_returns sleep_data s a b Ea Eb Hab) as [n Hn].
  pose proof (night_of_checked_no_overflow _ _ H1) as E1.
  pose proof (night_of_checked_no_overflow _ _ H2) as E2.
  rewrite night_of_shift, Hn in E2. rewrite Hn in E1.
  exists n, (shift_night (seconds 3600) n).
  unfold process_health_data_checked. rewrite E1, E2.
  repeat split.
Qed.

Lemma time_shift_one_hour_witness :
  let at_s := fun n => mkdt (seconds n) 0 in
  let day := 738886 * 86400 in
  let sleep_data :=
    [ mkEntry "watch" 1 (at_s day) "InBed" (at_s (day + 60));
      mkEntry "watch" 1 (at_s (day + 60)) "Core" (at_s (day + 120)) ] in
  positive_span sleep_data
  /\ process_health_data_checked sleep_data 0 <> inl OverflowError
  /\ process_health_data_checked sleep_data (0 + 3600) <> inl OverflowError
  /\ exists n n',
       process_health_data_checked sleep_data 0 = inr (output_of n)
       /\ process_health_data_checked sleep_data (0 + 3600)
          = inr (output_of n')
       /\ start_time n' = dt_add (start_time n) (seconds 3600)
       /\ hypnogram n' = hypnogram n.
Proof.
  intros at_s day sleep_data.
  assert (H0 : positive_span sleep_data).
  { exists (seconds day), (seconds (day + 120)).
    split; [reflexivity |]. split; [reflexivity |]. vm_compute. reflexivity. }
  assert (H1 : process_health_data_checked sleep_data 0 <> inl OverflowError)
    by (vm_compute; discriminate).
  assert (H2 : process_health_data_checked sleep_data (0 + 3600)
               <> inl OverflowError) by (vm_compute; discriminate).
  split; [exact H0 |]. split; [exact H1 |]. split; [exact H2 |].
  destruct (time_shift_one_hour sleep_data 0 H0 H1 H2)
    as (n & n' & _ & _ & Ho & Ho' & Hs & Hrest).
  exists n, n'. split; [exact Ho |]. split; [exact Ho' |].
  split; [exact Hs |]. apply Hrest.
Defined.

(** C4 as stated fails on a list that is not empty in two ways.  A single
    entry of zero length has no summary under any shift, so there is no
    start time to move.  And an entry that ends at 23:00 on the last day of
    the range has a summary under shift 0 and none under shift 3600, where
    its end leaves the range of [datetime]. *)
Lemma time_shift_one_hour_counterexample :
  let top := MAXORDINAL * us_per_day in
  let t := mkdt (seconds 3600) 0 in
  let zero_length := [mkEntry "watch" 1 t "Core" t] in
  let last_hour :=
    [mkEntry "watch" 1 (mkdt (top - seconds 3660) 0) "Core"
       (mkdt (top - seconds 3600) 0)] in
  (zero_length <> []
   /\ process_health_data_checked zero_length 0 = inl IndexError
   /\ process_health_data_checked zero_length (0 + 3600) = inl IndexError)
  /\ (last_hour <> []
      /\ (exists o, process_health_data_checked last_hour 0 = inr o)
      /\ process_health_data_checked last_hour (0 + 3600)
         = inl OverflowError).
Proof.
  cbv zeta. split; (split; [discriminate |]); split.
  - vm_compute. reflexivity.
  - vm_compute. reflexivity.
  - eexists. vm_compute. reflexivity.
  - vm_compute. reflexivity.
Qed.

(** ** Night grouping *)

Lemma us_per_day_pos : 0 < us_per_day.
Proof. unfold us_per_day, us_per_second. lia. Qed.

Lemma date_of_previous_day (d : datetime) :
  date_of (dt_add d (- days 1)) = date_of d - 1.
Proof.
  unfold date_of, dt_add. cbn [wall].
  replace (wall d + - days 1) with (wall d + (-1) * us_per_day)
    by (unfold days, seconds, us_per_day; ring).
  rewrite Z.div_add by (pose proof us_per_day_pos; lia). ring.
Qed.

Lemma night_date_of_spec (d : datetime) :
  night_date_of d
  = if night_start_clock <=? time_of d then date_of d else date_of d - 1.
Proof.
  unfold night_date_of. rewrite date_of_previous_day. reflexivity.
Qed.

Lemma date_of_combine (D t off : Z) :
  0 <= t < us_per_day -> date_of (combine D t off) = D.
Proof.
  intros Ht. unfold date_of, combine. cbn [wall].
  rewrite (Z.add_comm ((D - 1) * us_per_day) t), Z.div_add by lia.
  rewrite Z.div_small by exact Ht. ring.
Qed.

Lemma time_of_combine (D t off : Z) :
  0 <= t < us_per_day -> time_of (combine D t off) = t.
Proof.
  intros Ht. unfold time_of, combine. cbn [wall].
  rewrite (Z.add_comm ((D - 1) * us_per_day) t), Z.mod_add by lia.
  apply Z.mod_small. exact Ht.
Qed.

(** The start of an entry never precedes the 19:00 of its own night. *)
Lemma night_start_le (d : datetime) : utc (night_start_dt d) <= utc d.
Proof.
  unfold night_start_dt, utc, combine. cbn [wall utcoffset].
  rewrite night_date_of_spec. unfold date_of, time_of.
  pose proof us_per_day_pos as Hp.
  pose proof (Z.div_mod (wall d) us_per_day ltac:(lia)) as Hd.
  pose proof (Z.mod_pos_bound (wall d) us_per_day Hp) as Hm.
  assert (Hc : night_start_clock < us_per_day) by (vm_compute; reflexivity).
  destruct (Z.leb_spec night_start_clock (wall d mod us_per_day)); nia.
Qed.

Lemma flush_entries (st : GroupState) :
  List.concat (map snd (flush st)) = all_entries st.
Proof.
  unfold flush, all_entries. destruct (current_night_entries st) as [| e r].
  - rewrite app_nil_r. reflexivity.
  - rewrite map_app, concat_app. cbn [map snd List.concat].
    rewrite app_nil_r. reflexivity.
Qed.

Lemma group_step_entries (from_date to_date : datetime) (st : GroupState)
    (e : SleepEntry) :
  all_entries (group_step from_date to_date st e)
  = all_entries st ++ filter (in_night_and_range from_date to_date) [e].
Proof.
  unfold group_step. cbn [filter].
  destruct (in_night_and_range from_date to_date e).
  - destruct (same_night _ _); unfold all_entries;
      cbn [grouped_sleep_data current_night_start current_night_entries].
    + rewrite app_assoc. reflexivity.
    + rewrite flush_entries. reflexivity.
  - rewrite app_nil_r. reflexivity.
Qed.

Lemma group_fold_entries (from_date to_date : datetime)
    (l : list SleepEntry) :
  forall st,
  all_entries (fold_left (group_step from_date to_date) l st)
  = all_entries st ++ filter (in_night_and_range from_date to_date) l.
Proof.
  induction l as [| e l IH]; intros st; cbn [fold_left].
  - cbn [filter]. rewrite app_nil_r. reflexivity.
  - rewrite IH, group_step_entries, <- app_assoc. f_equal.
    cbn [filter]. destruct (in_night_and_range _ _ e); reflexivity.
Qed.

(** The groups, read in order, are the entries that pass the filter, in the
    order in which the loop met them. *)
Lemma group_sorted_entries (l : list SleepEntry)
    (from_date to_date : datetime) :
  List.concat (map snd (group_sorted l from_date to_date))
  = filter (in_night_and_range from_date to_date) l.
Proof.
  unfold group_sorted. rewrite flush_entries, group_fold_entries.
  reflexivity.
Qed.

Lemma state_ok_flush (st : GroupState) :
  state_ok st -> Forall group_ok (flush st).
Proof.
  intros [Hg Hc]. unfold flush.
  destruct (current_night_entries st) as [| e r] eqn:E; [exact Hg |].
  apply Forall_app. split; [exact Hg |].
  constructor; [| constructor]. split; cbn [fst snd].
  - discriminate.
  - exact Hc.
Qed.

Lemma same_night_true (current : option Z) (d : Z) :
  same_night current d = true -> current = Some d.
Proof.
  destruct current as [c |]; cbn; [| discriminate].
  intros H. apply Z.eqb_eq in H. congruence.
Qed.

Lemma state_ok_step (from_date to_date : datetime) (st : GroupState)
    (e : SleepEntry) :
  state_ok st -> state_ok (group_step from_date to_date st e).
Proof.
  intros Hst. unfold group_step.
  destruct (in_night_and_range from_date to_date e); [| exact Hst].
  destruct (same_night _ _) eqn:Hs.
  - destruct Hst as [Hg Hc]. split;
      cbn [grouped_sleep_data current_night_start current_night_entries].
    + exact Hg.
    + apply Forall_app. split; [exact Hc |].
      constructor; [| constructor]. apply same_night_true. exact Hs.
  - split; cbn [grouped_sleep_data current_night_start current_night_entries].
    + apply state_ok_flush. exact Hst.
    + constructor; [reflexivity | constructor].
Qed.

Lemma state_ok_fold (from_date to_date : datetime) (l : list SleepEntry) :
  forall st, state_ok st ->
  state_ok (fold_left (group_step from_date to_date) l st).
Proof.
  induction l as [| e l IH]; intros st Hst; cbn [fold_left];
    [exact Hst | apply IH, state_ok_step, Hst].
Qed.

Lemma group_sorted_ok (l : list SleepEntry) (from_date to_date : datetime) :
  Forall group_ok (group_sorted l from_date to_date).
Proof.
  apply state_ok_flush, state_ok_fold. split; constructor.
Qed.

Lemma grouped_somewhere_concat (groups : list NightGroup) (e : SleepEntry) :
  grouped_somewhere groups e <-> In e (List.concat (map snd groups)).
Proof.
  unfold grouped_somewhere. rewrite in_concat. split.
  - intros [g [Hg He]]. exists (snd g). split; [apply in_map; exact Hg | exact He].
  - intros [es [Hes He]]. apply in_map_iff in Hes.
    destruct Hes as [g [<- Hg]]. exists g. split; assumption.
Qed.

Lemma group_nights_member (entries : list SleepEntry)
    (from_date to_date : datetime) (e : SleepEntry) :
  grouped_somewhere (group_nights entries from_date to_date) e
  <-> In e entries /\ in_night_and_range from_date to_date e = true.
Proof.
  rewrite grouped_somewhere_concat. unfold group_nights.
  rewrite group_sorted_entries, filter_In, sorted_by_start_In. reflexivity.
Qed.

Lemma group_nights_singleton (e : SleepEntry) (from_date to_date : datetime) :
  group_nights [e] from_date to_date
  = if in_night_and_range from_date to_date e
    then [(Some (night_date_of (StartDate e)), [e])]
    else [].
Proof.
  unfold group_nights, group_sorted. cbn [sorted_by_start fold_right
    insert_by_start fold_left]. unfold group_step.
  destruct (in_night_and_range from_date to_date e); reflexivity.
Qed.

Lemma night_date_of_combine (D t off : Z) :
  0 <= t < us_per_day ->
  night_date_of (combine D t off)
  = if night_start_clock <=? t then D else D - 1.
Proof.
  intros Ht. rewrite night_date_of_spec, time_of_combine, date_of_combine
    by exact Ht. reflexivity.
Qed.

Lemma in_night_and_range_iff (from_date to_date : datetime) (e : SleepEntry) :
  in_night_and_range from_date to_date e = true
  <-> within_closed_window e /\ within_filter from_date to_date e.
Proof.
  unfold in_night_and_range, within_closed_window, within_filter, dt_leb.
  rewrite !andb_true_iff, !Z.leb_le. tauto.
Qed.

(** C5: an entry is filed under the calendar date of its start when its
    start clock time is 19:00 or later and under the previous date
    otherwise; this is the date of every group it appears in.  An entry
    from 23:00 to 23:30 on date [D] forms the group of night [D], one from
    06:00 to 06:30 the group of night [D - 1]. *)
Theorem night_date_assignment :
  (forall d,
     night_date_of d
     = if time_hms 19 0 0 <=? time_of d then date_of d else date_of d - 1)
  /\ (forall entries from_date to_date g e,
        In g (group_nights entries from_date to_date) ->
        In e (snd g) ->
        fst g = Some (night_date_of (StartDate e)))
  /\ (forall D off src qty v from_date to_date,
        let e := mkEntry src qty (combine D (time_hms 23 0 0) off) v
                   (combine D (time_hms 23 30 0) off) in
        within_filter from_date to_date e ->
        night_date_of (StartDate e) = D
        /\ group_nights [e] from_date to_date = [(Some D, [e])])
  /\ (forall D off src qty v from_date to_date,
        let e := mkEntry src qty (combine D (time_hms 6 0 0) off) v
                   (combine D (time_hms 6 30 0) off) in
        within_filter from_date to_date e ->
        night_date_of (StartDate e) = D - 1
        /\ group_nights [e] from_date to_date = [(Some (D - 1), [e])]).
Proof.
  split; [exact night_date_of_spec |]. split; [| split].
  - intros entries from_date to_date g e Hg He.
    pose proof (group_sorted_ok (sorted_by_start entries) from_date to_date)
      as Hok.
    rewrite Forall_forall in Hok. destruct (Hok g Hg) as [_ Hall].
    rewrite Forall_forall in Hall. apply Hall, He.
  - intros D off src qty v from_date to_date e Hf.
    assert (Hn : night_date_of (StartDate e) = D).
    { unfold e. cbn [StartDate]. rewrite night_date_of_combine;
        [reflexivity | vm_compute; split; [discriminate | reflexivity]]. }
    split; [exact Hn |].
    rewrite group_nights_singleton.
    replace (in_night_and_range from_date to_date e) with true;
      [rewrite Hn; reflexivity |].
    symmetry. apply in_night_and_range_iff. split; [| exact Hf].
    unfold within_closed_window, night_start_dt, night_end_dt.
    rewrite Hn. unfold e, utc, combine. cbn [StartDate EndDate wall utcoffset].
    unfold night_start_clock, night_end_clock, time_hms, hms, seconds,
      us_per_day, us_per_second. lia.
  - intros D off src qty v from_date to_date e Hf.
    assert (Hn : night_date_of (StartDate e) = D - 1).
    { unfold e. cbn [StartDate]. rewrite night_date_of_combine;
        [reflexivity | vm_compute; split; [discriminate | reflexivity]]. }
    split; [exact Hn |].
    rewrite group_nights_singleton.
    replace (in_night_and_range from_date to_date e) with true;
      [rewrite Hn; reflexivity |].
    symmetry. apply in_night_and_range_iff. split; [| exact Hf].
    unfold within_closed_window, night_start_dt, night_end_dt.
    rewrite Hn. unfold e, utc, combine. cbn [StartDate EndDate wall utcoffset].
    unfold night_start_clock, night_end_clock, time_hms, hms, seconds,
      us_per_day, us_per_second. lia.
Qed.

Lemma night_date_assignment_witness :
  let D := 738886 in
  let e := mkEntry "watch" 1 (combine D (time_hms 23 0 0) 3600000000) "Core"
             (combine D (time_hms 23 30 0) 3600000000) in
  let from_date := combine D (time_hms 19 0 0) 3600000000 in
  let to_date := combine (D + 1) (time_hms 11 0 0) 3600000000 in
  within_filter from_date to_date e
  /\ group_nights [e] from_date to_date = [(Some D, [e])].
Proof.
  intros D e from_date to_date.
  assert (H : within_filter from_date to_date e)
    by (split; vm_compute; discriminate).
  split; [exact H |].
  exact (proj2 (proj1 (proj2 (proj2 night_date_assignment)) D 3600000000
                  "watch"%string 1 "Core"%string from_date to_date H)).
Defined.

(** C6, as amended: an entry appears in some group exactly when it is one of
    the input entries, lies within the window from 19:00 of its night to
    11:00 of the next day, both ends included and both taken in the zone of
    its start, and lies within the filter range; any other entry appears in
    no group. *)
Theorem group_membership (entries : list SleepEntry)
    (from_date to_date : datetime) (e : SleepEntry) :
  grouped_somewhere (group_nights entries from_date to_date) e
  <-> In e entries /\ within_closed_window e
      /\ within_filter from_date to_date e.
Proof.
  rewrite group_nights_member, in_night_and_range_iff. reflexivity.
Qed.

(** C6 as stated fails on an entry that ends at 11:00 sharp: it is grouped,
    although 11:00 is outside the half-open window. *)
Lemma group_membership_counterexample :
  let D := 738886 in
  let e := mkEntry "watch" 1 (combine D (time_hms 23 0 0) 0) "Core"
             (combine (D + 1) (time_hms 11 0 0) 0) in
  let from_date := combine D (time_hms 19 0 0) 0 in
  let to_date := combine (D + 1) (time_hms 11 0 0) 0 in
  group_nights [e] from_date to_date = [(Some D, [e])]
  /\ grouped_somewhere (group_nights [e] from_date to_date) e
  /\ ~ within_half_open_window e.
Proof.
  intros D e from_date to_date.
  assert (Hg : group_nights [e] from_date to_date = [(Some D, [e])])
    by (vm_compute; reflexivity).
  split; [exact Hg |]. split.
  - rewrite Hg. exists (Some D, [e]). split; left; reflexivity.
  - intros [_ H]. vm_compute in H. discriminate.
Qed.

(** C7: every group holds at least one entry, and a night none of whose
    entries passes the filter has no group. *)
Theorem groups_never_empty (entries : list SleepEntry)
    (from_date to_date : datetime) :
  (forall g, In g (group_nights entries from_date to_date) -> snd g <> [])
  /\ (forall d,
        (forall e, In e entries -> night_date_of (StartDate e) = d ->
                   in_night_and_range from_date to_date e = false) ->
        forall g, In g (group_nights entries from_date to_date) ->
                  fst g <> Some d).
Proof.
  pose proof (group_sorted_ok (sorted_by_start entries) from_date to_date)
    as Hok.
  rewrite Forall_forall in Hok. split.
  - intros g Hg. apply (Hok g Hg).
  - intros d Hd g Hg Hfst. destruct (Hok g Hg) as [Hne Hall].
    destruct (snd g) as [| e r] eqn:Es; [contradiction |].
    assert (He : In e (snd g)) by (rewrite Es; left; reflexivity).
    assert (Hmem : grouped_somewhere
                     (group_nights entries from_date to_date) e)
      by (exists g; split; assumption).
    apply group_nights_member in Hmem. destruct Hmem as [Hin Hkeep].
    inversion Hall as [| ? ? Hk _]; subst.
    rewrite Hfst in Hk. injection Hk as Hk.
    rewrite (Hd e Hin (eq_sym Hk)) in Hkeep. discriminate.
Qed.

Lemma groups_never_empty_witness :
  let D := 738886 in
  let e := mkEntry "watch" 1 (combine D (time_hms 23 0 0) 0) "Core"
             (combine (D + 1) (time_hms 11 30 0) 0) in
  let from_date := combine D (time_hms 19 0 0) 0 in
  let to_date := combine (D + 1) (time_hms 12 0 0) 0 in
  (forall e', In e' [e] -> night_date_of (StartDate e') = D ->
              in_night_and_range from_date to_date e' = false)
  /\ (forall g, In g (group_nights [e] from_date to_date) -> fst g <> Some D).
Proof.
  intros D e from_date to_date.
  assert (H : forall e', In e' [e] -> night_date_of (StartDate e') = D ->
                         in_night_and_range from_date to_date e' = false).
  { intros e' [<- | []] _. vm_compute. reflexivity. }
  split; [exact H |].
  exact (proj2 (groups_never_empty [e] from_date to_date) D H).
Defined.

(** ** The sign of the wake-after-sleep-onset duration *)

Lemma find_split {A} (p : A -> bool) (l : list A) (x : A) :
  find p l = Some x ->
  exists l1 l2, l = l1 ++ x :: l2 /\ Forall (fun y => p y = false) l1.
Proof.
  induction l as [| y l IH]; cbn [find]; [discriminate |].
  destruct (p y) eqn:Hy.
  - intros E. injection E as <-. exists [], l. split; [reflexivity | constructor].
  - intros E. destruct (IH E) as (l1 & l2 & -> & Hall).
    exists (y :: l1), l2. split; [reflexivity |].
    constructor; assumption.
Qed.

Lemma count_stage_app (st : CanonicalStage) (l1 l2 : list SleepSegment) :
  count_stage st (l1 ++ l2) = (count_stage st l1 + count_stage st l2)%nat.
Proof. unfold count_stage. rewrite filter_app, length_app. reflexivity. Qed.

Lemma count_stage_all_wake (l : list SleepSegment) :
  Forall (fun y => negb (is_wake (Stage y)) = false) l ->
  count_stage WAKE l = List.length l.
Proof.
  unfold count_stage. induction 1 as [| y l Hy _ IH]; [reflexivity |].
  cbn [filter]. apply negb_false_iff in Hy. unfold is_wake in Hy.
  rewrite Hy. cbn [List.length]. rewrite IH. reflexivity.
Qed.

Lemma timeline_Start (start end_ : datetime) (sleep_data : list SleepEntry) :
  map Start
    (update_segments_with_sleep_data (create_30s_segments start end_)
       sleep_data)
  = map (fun k => dt_add start (seconds 30 * Z.of_nat k))
      (seq 0 (slots_left start end_)).
Proof.
  rewrite overlay_Start, create_30s_segments_closed_form, map_map.
  reflexivity.
Qed.

Lemma night_of_onset (sleep_data : list SleepEntry) (shift : Z) (n : Night) :
  night_of sleep_data shift = inr n ->
  segments n
  = update_segments_with_sleep_data
      (create_30s_segments (start_time n) (end_time n))
      (prepared sleep_data shift)
  /\ find_sleep_onset (segments n) = inr (sleep_onset_segment n)
  /\ wake_after_sleep_onset n
     = seconds 30 * Z.of_nat (count_stage WAKE (segments n))
       - dt_sub (Start (sleep_onset_segment n)) (start_time n).
Proof.
  intros Hn. apply night_of_inr in Hn.
  destruct Hn as (first & rest & td & Hp & _ & _ & Hsegs & _ & Hfind & Hdur
                  & Hd & Hparse & Hwaso & _).
  rewrite Hp. split; [exact Hsegs |]. split; [exact Hfind |].
  rewrite Hwaso, Hd, stage_durations_of_count. f_equal.
  apply find_sleep_onset_In in Hfind. rewrite Hsegs in Hfind.
  apply timeline_slot in Hfind. destruct Hfind as [k Hk].
  rewrite Hdur, Hk, onset_duration_exact in Hparse.
  injection Hparse as <-. rewrite Hk. reflexivity.
Qed.

(** The slots before the sleep-onset slot are all WAKE, so the
    wake-after-sleep-onset duration is never negative. *)
Lemma wake_after_sleep_onset_nonneg (sleep_data : list SleepEntry)
    (shift : Z) (n : Night) :
  night_of sleep_data shift = inr n -> 0 <= wake_after_sleep_onset n.
Proof.
  intros Hn.
  destruct (night_of_onset sleep_data shift n Hn) as (Hsegs & Hfind & Hw).
  rewrite Hw. clear Hw. pose proof seconds_30_pos as Hp.
  pose proof (timeline_Start (start_time n) (end_time n)
                (prepared sleep_data shift)) as Hst.
  rewrite <- Hsegs in Hst. clear Hsegs.
  unfold find_sleep_onset in Hfind.
  destruct (find (fun s => negb (is_wake (Stage s))) (segments n))
    as [x |] eqn:Hf;
    destruct (segments n) as [| s0 segs']; try discriminate;
    cbn [first_segment bind ret] in Hfind; injection Hfind as Hfind.
  - subst x. destruct (find_split _ _ _ Hf) as (l1 & l2 & El & Hall).
    rewrite El in Hst |- *.
    assert (Hk : nth_error (map Start (l1 ++ sleep_onset_segment n :: l2))
                   (List.length l1)
                 = Some (Start (sleep_onset_segment n))).
    { rewrite map_app, nth_error_app2 by (rewrite length_map; lia).
      rewrite length_map, Nat.sub_diag. reflexivity. }
    rewrite Hst, nth_error_map in Hk.
    destruct (nth_error (seq 0 (slots_left (start_time n) (end_time n)))
                (List.length l1)) as [k |] eqn:Ek; [| discriminate].
    assert (Hlen : (List.length l1
                    < slots_left (start_time n) (end_time n))%nat).
    { rewrite <- (length_seq (slots_left (start_time n) (end_time n)) 0).
      apply nth_error_Some. congruence. }
    assert (k = List.length l1).
    { pose proof (nth_error_nth _ _ 0%nat Ek) as H1.
      rewrite seq_nth in H1 by exact Hlen. lia. }
    subst k. cbn [option_map] in Hk.
    assert (Hk' : Start (sleep_onset_segment n)
                  = dt_add (start_time n)
                      (seconds 30 * Z.of_nat (List.length l1)))
      by congruence.
    rewrite Hk'. unfold dt_sub. rewrite utc_dt_add.
    rewrite count_stage_app, (count_stage_all_wake l1 Hall). nia.
  - subst s0.
    destruct (slots_left (start_time n) (end_time n)); [discriminate |].
    cbn [seq map] in Hst.
    assert (Hs0 : Start (sleep_onset_segment n)
                  = dt_add (start_time n) (seconds 30 * Z.of_nat 0))
      by congruence.
    rewrite Hs0. unfold dt_sub. rewrite utc_dt_add. nia.
Qed.


(** A night of InBed, Core and Awake entries, run through the model: the
    slot at 120s is claimed by Core, whose closed interval reaches it before
    the Awake entry does. *)
Example process_health_data_example :
  let at_s := fun n => mkdt (seconds n) 0 in
  process_health_data
    [ mkEntry "watch" 1 (at_s 0) "InBed" (at_s 60);
      mkEntry "watch" 1 (at_s 60) "Core" (at_s 120);
      mkEntry "watch" 1 (at_s 120) "Awake" (at_s 180) ] 0
  = inr (mkOutput "night" "0001-01-01T00:00:00" "0001-01-01T00:03:00"
           "0:03:00" "0:01:00" "0:01:30" "0:00:00" "0:00:00" "0:00:30"
           1 0 0 0 0 0 "[WAKE,WAKE,Light,Light,Light,WAKE]").
Proof. vm_compute. reflexivity. Qed.

(** * Further properties of the code *)

(** ** Stage mapping *)

Lemma dict_get_missing {A} (d : list (string * A)) (k : string) (default : A) :
  ~ In k (map fst d) -> dict_get d k default = default.
Proof.
  induction d as [| [k' v] d IH]; intros Hk; cbn [dict_get]; [reflexivity |].
  destruct (String.eqb_spec k k') as [-> | Hne].
  - exfalso. apply Hk. left. reflexivity.
  - apply IH. intros Hin. apply Hk. right. exact Hin.
Qed.

(** X1: a raw label that is not one of the six keys of the table maps to
    WAKE, and the labels that map to a sleep stage are exactly Core, Asleep,
    Deep and REM (Awake and InBed map to WAKE like an unknown label). *)
Theorem map_sleep_stage_table :
  (forall raw, ~ In raw (map fst mapping) -> map_sleep_stage raw = WAKE)
  /\ (forall raw,
        map_sleep_stage raw <> WAKE
        <-> In raw ["Core"; "Asleep"; "Deep"; "REM"]%string)
  /\ map_sleep_stage "Core" = Light
  /\ map_sleep_stage "Asleep" = Asleep
  /\ map_sleep_stage "Deep" = Deep
  /\ map_sleep_stage "REM" = REM.
Proof.
  split; [| split; [| repeat split]].
  - intros raw H. apply dict_get_missing. exact H.
  - intros raw. unfold map_sleep_stage, mapping. cbn [dict_get In].
    destruct (String.eqb_spec raw "Core") as [-> | H1];
      [split; [auto | discriminate] |].
    destruct (String.eqb_spec raw "Asleep") as [-> | H2];
      [split; [auto | discriminate] |].
    destruct (String.eqb_spec raw "Deep") as [-> | H3];
      [split; [auto | discriminate] |].
    destruct (String.eqb_spec raw "REM") as [-> | H4];
      [split; [auto | discriminate] |].
    assert (Hno : ~ (("Core"%string = raw) \/ ("Asleep"%string = raw)
                     \/ ("Deep"%string = raw) \/ ("REM"%string = raw)
                     \/ False)) by (intros [E | [E | [E | [E | []]]]]; auto).
    destruct (String.eqb raw "Awake"); [tauto |].
    destruct (String.eqb raw "InBed"); tauto.
Qed.

Lemma map_sleep_stage_table_witness :
  ~ In "core"%string (map fst mapping) /\ map_sleep_stage "core" = WAKE.
Proof.
  assert (H : ~ In "core"%string (map fst mapping)).
  { cbn. intros [E | [E | [E | [E | [E | [E | []]]]]]]; discriminate. }
  split; [exact H |].
  exact (proj1 map_sleep_stage_table "core"%string H).
Defined.

(** ** Durations as text *)

(** X2: the [H:MM:SS] text of a duration reads back as that duration cut to
    whole seconds, for [calculate_duration] and for [format_timedelta], a
    negative duration included ([-30s] prints as [-1:59:30] and reads back
    as [-30s]). *)
Theorem duration_text_round_trip :
  (forall a b,
     parse_duration_string (calculate_duration a b)
     = inr (seconds (total_seconds_int (dt_sub b a))))
  /\ (forall td,
        parse_duration_string (format_timedelta td)
        = inr (seconds (total_seconds_int td)))
  /\ format_timedelta (seconds (-30)) = "-1:59:30"%string.
Proof.
  split; [exact parse_calculate_duration |]. split; [| reflexivity].
  intros td. unfold format_timedelta. cbv zeta.
  rewrite parse_fmt_hms.
  - rewrite hms_of_total. reflexivity.
  - pose proof (Z.mod_pos_bound (total_seconds_int td) 3600).
    Z.div_mod_to_equations. lia.
  - apply Z.mod_pos_bound. lia.
Qed.

(** ** When a summary is produced *)

Lemma night_of_empty_timeline (sleep_data : list SleepEntry) (shift a b : Z) :
  earliest_start sleep_data = Some a ->
  latest_end sleep_data = Some b ->
  b <= a ->
  night_of sleep_data shift = inl IndexError.
Proof.
  intros Hmin Hmax Hba. unfold night_of. fold (prepared sleep_data shift).
  destruct (prepared sleep_data shift) as [| first rest] eqn:Hp;
    [reflexivity |].
  destruct (prepared_span _ _ _ _ Hp) as (tmin & tmax & E1 & E2 & Hs & He).
  rewrite Hmin in E1. rewrite Hmax in E2.
  injection E1 as <-. injection E2 as <-.
  cbv zeta. rewrite create_30s_segments_nil by lia.
  rewrite overlay_closed_form. reflexivity.
Qed.

Lemma night_of_inl (sleep_data : list SleepEntry) (shift : Z) (e : exn) :
  night_of sleep_data shift = inl e ->
  e = IndexError /\ ~ positive_span sleep_data.
Proof.
  intros H. destruct sleep_data as [| e0 r].
  - assert (E : night_of [] shift = inl IndexError) by reflexivity.
    rewrite E in H. split; [congruence |].
    intros (a & b & Ea & _). discriminate.
  - destruct (earliest_start (e0 :: r)) as [a |] eqn:Ea; [| discriminate].
    destruct (latest_end (e0 :: r)) as [b |] eqn:Eb; [| discriminate].
    destruct (Z.lt_ge_cases a b) as [Hab | Hab].
    + destruct (night_of_returns _ shift a b Ea Eb Hab) as [n Hn].
      rewrite Hn in H. discriminate.
    + rewrite (night_of_empty_timeline _ shift a b Ea Eb Hab) in H.
      split; [congruence |]. intros (a' & b' & Ea' & Eb' & Hlt).
      rewrite Ea in Ea'. rewrite Eb in Eb'.
      injection Ea' as <-. injection Eb' as <-. lia.
Qed.

Lemma night_of_inr_span (sleep_data : list SleepEntry) (shift : Z)
    (n : Night) :
  night_of sleep_data shift = inr n -> positive_span sleep_data.
Proof.
  intros H. destruct sleep_data as [| e0 r]; [discriminate |].
  destruct (earliest_start (e0 :: r)) as [a |] eqn:Ea; [| discriminate].
  destruct (latest_end (e0 :: r)) as [b |] eqn:Eb; [| discriminate].
  exists a, b. split; [exact Ea |]. split; [exact Eb |].
  destruct (Z.lt_ge_cases a b) as [Hab | Hab]; [exact Hab |].
  rewrite (night_of_empty_timeline _ shift a b Ea Eb Hab) in H. discriminate.
Qed.

(** The three outcomes of a run within the range of [datetime]. *)
Lemma night_of_checked_outcome (sleep_data : list SleepEntry) (shift : Z) :
  night_of_checked sleep_data shift = inl OverflowError
  \/ (night_of_checked sleep_data shift = inl IndexError
      /\ ~ positive_span sleep_data)
  \/ (positive_span sleep_data
      /\ exists n, night_of_checked sleep_data shift = inr n
                   /\ night_of sleep_data shift = inr n).
Proof.
  destruct (night_of_checked_cases sleep_data shift) as [E | E];
    [left; exact E | right].
  rewrite E. destruct (night_of sleep_data shift) as [e | n] eqn:Hn.
  - left. destruct (night_of_inl _ _ _ Hn) as [-> Hns].
    split; [reflexivity | exact Hns].
  - right. split; [exact (night_of_inr_span _ _ _ Hn) |].
    exists n. split; reflexivity.
Qed.

Lemma process_health_data_checked_inr (l : list SleepEntry) (s : Z)
    (o : OutputData) :
  process_health_data_checked l s = inr o ->
  exists n, night_of_checked l s = inr n /\ night_of l s = inr n
            /\ o = output_of n /\ positive_span l.
Proof.
  unfold process_health_data_checked. intros H.
  destruct (night_of_checked_outcome l s)
    as [E | [[E _] | [Hsp (n & E & En)]]]; rewrite E in H;
    try discriminate.
  cbn in H. injection H as <-. exists n. repeat split; assumption.
Qed.

Lemma process_health_data_checked_inl (l : list SleepEntry) (s : Z)
    (e : exn) :
  process_health_data_checked l s = inl e ->
  e = OverflowError \/ (e = IndexError /\ ~ positive_span l).
Proof.
  unfold process_health_data_checked. intros H.
  destruct (night_of_checked_outcome l s)
    as [E | [[E Hns] | [_ (n & E & _)]]]; rewrite E in H; cbn in H.
  - left. congruence.
  - right. split; [congruence | exact Hns].
  - discriminate.
Qed.

Lemma process_health_data_checked_returns (l : list SleepEntry) (s : Z) :
  positive_span l ->
  process_health_data_checked l s <> inl OverflowError ->
  exists o, process_health_data_checked l s = inr o.
Proof.
  intros Hsp Hno.
  destruct (process_health_data_checked l s) as [e | o] eqn:H;
    [| exists o; reflexivity].
  destruct (process_health_data_checked_inl _ _ _ H) as [-> | [_ Hns]];
    [exfalso; apply Hno; reflexivity | contradiction].
Qed.

(** X3: within the range of [datetime], [process_health_data] returns a
    summary exactly when the latest end of the entries lies after their
    earliest start, and raises IndexError otherwise (on an empty list, and
    whenever the latest end is not after the earliest start).  A run either
    raises OverflowError, when the shift or a slot leaves the range, or does
    what the run on the unbounded time line does; within [run_in_range] it
    does the latter.  It never raises ValueError: the onset duration it
    prints always reads back. *)
Theorem process_health_data_returns_iff (sleep_data : list SleepEntry)
    (shift : Z) :
  (process_health_data_checked sleep_data shift = inl OverflowError
   \/ process_health_data_checked sleep_data shift
      = process_health_data sleep_data shift)
  /\ (run_in_range sleep_data shift ->
      process_health_data_checked sleep_data shift
      = process_health_data sleep_data shift)
  /\ ((exists o, process_health_data_checked sleep_data shift = inr o)
      <-> positive_span sleep_data
          /\ process_health_data_checked sleep_data shift
             <> inl OverflowError)
  /\ (process_health_data_checked sleep_data shift = inl IndexError
      <-> ~ positive_span sleep_data
          /\ process_health_data_checked sleep_data shift
             <> inl OverflowError)
  /\ process_health_data_checked sleep_data shift <> inl ValueError.
Proof.
  split; [apply process_health_data_checked_cases |].
  split.
  { intros Hr. unfold process_health_data_checked, process_health_data.
    rewrite (night_of_checked_in_range _ _ Hr). reflexivity. }
  split.
  { split.
    - intros [o Ho].
      destruct (process_health_data_checked_inr _ _ _ Ho)
        as (n & _ & _ & _ & Hsp).
      split; [exact Hsp | rewrite Ho; discriminate].
    - intros [Hsp Hno]. apply process_health_data_checked_returns; assumption. }
  split.
  { split.
    - intros H.
      destruct (process_health_data_checked_inl _ _ _ H) as [E | [_ Hns]];
        [discriminate |].
      split; [exact Hns | rewrite H; discriminate].
    - intros [Hns Hno].
      destruct (process_health_data_checked sleep_data shift) as [e | o] eqn:H.
      + destruct (process_health_data_checked_inl _ _ _ H) as [-> | [-> _]];
          [exfalso; apply Hno; reflexivity | reflexivity].
      + destruct (process_health_data_checked_inr _ _ _ H)
          as (n & _ & _ & _ & Hsp).
        contradiction. }
  intros H.
  destruct (process_health_data_checked_inl _ _ _ H) as [E | [E _]];
    discriminate.
Qed.

Lemma process_health_data_returns_iff_witness :
  let at_s := fun n => mkdt (seconds n) 0 in
  let day := 738886 * 86400 in
  let sleep_data :=
    [ mkEntry "watch" 1 (at_s day) "InBed" (at_s (day + 60));
      mkEntry "watch" 1 (at_s (day + 60)) "Core" (at_s (day + 120)) ] in
  run_in_range sleep_data 3600
  /\ positive_span sleep_data
  /\ process_health_data_checked sleep_data 3600
     = process_health_data sleep_data 3600
  /\ exists o, process_health_data_checked sleep_data 3600 = inr o.
Proof.
  intros at_s day sleep_data.
  assert (Hr : run_in_range sleep_data 3600).
  { split; [split; vm_compute; [discriminate | reflexivity] |]. split.
    - intros e [<- | [<- | []]]; split; vm_compute; reflexivity.
    - intros e e' [<- | [<- | []]] [<- | [<- | []]]; vm_compute;
        reflexivity. }
  assert (Hsp : positive_span sleep_data).
  { exists (seconds day), (seconds (day + 120)).
    split; [reflexivity |]. split; [reflexivity |]. vm_compute. reflexivity. }
  pose proof (process_health_data_returns_iff sleep_data 3600)
    as (_ & Hin & Hret & _).
  pose proof (Hin Hr) as Heq.
  split; [exact Hr |]. split; [exact Hsp |]. split; [exact Heq |].
  apply (proj2 Hret). split; [exact Hsp |].
  rewrite Heq. vm_compute. discriminate.
Defined.

(** ** The timeline after the overlay *)

(** X4: the overlay keeps the slots of the timeline: the timeline after the
    overlay has as many slots as the one built, the number of 30-second
    steps from [start] up to [end], with the same start times in the same
    order; slot [k] of either starts [30 * k] seconds after [start], at or
    after [start] and before [end], and was built as a WAKE slot. *)
Theorem timeline_cadence (start end_ : datetime)
    (sleep_data : list SleepEntry) :
  let built := create_30s_segments start end_ in
  let timeline := update_segments_with_sleep_data built sleep_data in
  List.length timeline = List.length built
  /\ List.length timeline = slots_left start end_
  /\ map Start timeline = map Start built
  /\ (forall k, (k < slots_left start end_)%nat ->
        exists seg,
          nth_error timeline k = Some seg
          /\ Start seg = dt_add start (seconds 30 * Z.of_nat k)
          /\ utc start <= utc (Start seg) < utc end_
          /\ nth_error built k = Some (mkSegment (Start seg) WAKE))
  /\ (forall k seg, nth_error timeline k = Some seg ->
        (k < slots_left start end_)%nat).
Proof.
  intros built timeline.
  assert (Hlen : List.length timeline = slots_left start end_).
  { unfold timeline, built.
    rewrite overlay_length. apply create_30s_segments_length. }
  split; [apply overlay_length |]. split; [exact Hlen |].
  split; [apply overlay_Start |]. split.
  - intros k Hk.
    destruct (nth_error timeline k) as [seg |] eqn:Hseg.
    2:{ apply nth_error_None in Hseg. lia. }
    exists seg. split; [reflexivity |].
    assert (Hs : Start seg = dt_add start (seconds 30 * Z.of_nat k)).
    { pose proof (timeline_Start start end_ sleep_data) as Hst.
      apply (f_equal (fun l => nth_error l k)) in Hst.
      fold built in Hst. fold timeline in Hst.
      rewrite !nth_error_map, Hseg in Hst.
      rewrite (nth_error_nth' _ 0%nat) in Hst
        by (rewrite length_seq; exact Hk).
      rewrite seq_nth in Hst by exact Hk.
      cbn [option_map Nat.add] in Hst. congruence. }
    split; [exact Hs |]. split.
    + rewrite Hs, utc_dt_add. pose proof seconds_30_pos as Hp.
      assert (Hle : utc start <= utc end_).
      { destruct (Z.le_gt_cases (utc start) (utc end_)) as [H | H];
          [exact H |].
        rewrite slots_left_done in Hk by lia. lia. }
      pose proof (slots_left_ceil start end_ Hle) as Hc.
      pose proof (ceil_div_bounds (dt_sub end_ start) (seconds 30) Hp) as Hb.
      unfold dt_sub in *. nia.
    + unfold built.
      rewrite create_30s_segments_closed_form, nth_error_map.
      rewrite (nth_error_nth' _ 0%nat)
        by (rewrite length_seq; exact Hk).
      rewrite seq_nth by exact Hk. cbn [option_map Nat.add].
      unfold slot_at. rewrite Hs. reflexivity.
  - intros k seg Hseg. rewrite <- Hlen. apply nth_error_Some. congruence.
Qed.

Lemma timeline_cadence_witness :
  let start := mkdt 0 0 in
  let end_ := mkdt (seconds 45) 0 in
  let sleep_data := [mkEntry "watch" 1 start "Core" end_] in
  let timeline :=
    update_segments_with_sleep_data (create_30s_segments start end_)
      sleep_data in
  List.length timeline = 2%nat
  /\ (1 < slots_left start end_)%nat
  /\ exists seg, nth_error timeline 1 = Some seg
                 /\ Start seg = dt_add start (seconds 30 * 1)
                 /\ utc start <= utc (Start seg) < utc end_.
Proof.
  intros start end_ sleep_data timeline.
  assert (H1 : (1 < slots_left start end_)%nat) by (vm_compute; lia).
  destruct (timeline_cadence start end_ sleep_data)
    as (_ & Hlen & _ & Hslot & _).
  split; [exact Hlen |]. split; [exact H1 |].
  destruct (Hslot 1%nat H1) as (seg & Hseg & Hs & Hr & _).
  exists seg. split; [exact Hseg |]. split; [exact Hs | exact Hr].
Defined.

Lemma find_covering_filter (t : datetime) (data : list SleepEntry) :
  find (fun e => covers e t && negb (is_wake (entry_stage e))) data
  = find (fun e => covers e t && negb (is_wake (entry_stage e)))
      (filter (fun e => negb (is_wake (map_sleep_stage (Value e)))) data).
Proof.
  induction data as [| e data IH]; cbn [find filter]; [reflexivity |].
  change (entry_stage e) with (map_sleep_stage (Value e)).
  destruct (negb (is_wake (map_sleep_stage (Value e)))) eqn:He.
  - cbn [find]. change (entry_stage e) with (map_sleep_stage (Value e)).
    rewrite He.
    destruct (covers e t); cbn [andb]; [reflexivity | exact IH].
  - rewrite andb_false_r. exact IH.
Qed.

(** X5: entries whose label maps to WAKE (Awake, InBed, any unknown label)
    leave the timeline as it is: the overlay gives the same slots with and
    without them. *)
Theorem overlay_ignores_wake_entries (segs : list SleepSegment)
    (sleep_data : list SleepEntry) :
  update_segments_with_sleep_data segs sleep_data
  = update_segments_with_sleep_data segs
      (filter (fun e => negb (is_wake (map_sleep_stage (Value e))))
         sleep_data).
Proof.
  rewrite !overlay_closed_form. apply map_ext. intros seg.
  unfold overlaid, first_writer. rewrite <- find_covering_filter.
  reflexivity.
Qed.

(** X6: overlaying the same entries a second time changes nothing. *)
Theorem overlay_idempotent (segs : list SleepSegment)
    (sleep_data : list SleepEntry) :
  update_segments_with_sleep_data
    (update_segments_with_sleep_data segs sleep_data) sleep_data
  = update_segments_with_sleep_data segs sleep_data.
Proof.
  rewrite !overlay_closed_form, map_map. apply map_ext. intros [t st].
  unfold overlaid. cbn [Start Stage].
  destruct (is_wake st) eqn:Hst; [| rewrite Hst; reflexivity].
  destruct (is_wake (first_writer sleep_data t)) eqn:Hw; [| reflexivity].
  apply is_wake_true in Hw. rewrite Hw. reflexivity.
Qed.

(** ** The shift, the onset and the groups *)

(** X7: of two runs on the same entries with two shifts, neither of which
    leaves the range of [datetime], either both raise IndexError or both
    return a summary, and then the summaries differ in the printed start and
    stop only, which in the second run are those of the first moved by the
    difference of the shifts. *)
Theorem time_shift_only_moves_clock (sleep_data : list SleepEntry)
    (s s' : Z) :
  process_health_data_checked sleep_data s <> inl OverflowError ->
  process_health_data_checked sleep_data s' <> inl OverflowError ->
  (process_health_data_checked sleep_data s = inl IndexError
   /\ process_health_data_checked sleep_data s' = inl IndexError)
  \/ exists n,
       let o := output_of n in
       night_of_checked sleep_data s = inr n
       /\ process_health_data_checked sleep_data s = inr o
       /\ process_health_data_checked sleep_data s'
          = inr (mkOutput (Type_ o)
                   (strftime_iso (dt_add (start_time n) (seconds (s' - s))))
                   (strftime_iso (dt_add (end_time n) (seconds (s' - s))))
                   (SleepDuration o) (SleepOnsetDuration o)
                   (LightSleepDuration o) (DeepSleepDuration o)
                   (REMDuration o) (WakeAfterSleepOnsetDuration o)
                   (NumberOfAwakenings o) (PositionChanges o)
                   (MeanHeartRate o) (MeanRespirationCPM o)
                   (NumberOfStimulations o) (SleepEfficiency o)
                   (Hypnogram o)).
Proof.
  intros H1 H2.
  pose proof (night_of_checked_no_overflow _ _ H1) as E1.
  pose proof (night_of_checked_no_overflow _ _ H2) as E2.
  assert (E : night_of sleep_data s' = night_of sleep_data (s + (s' - s)))
    by (f_equal; ring).
  rewrite E, night_of_shift in E2. clear E.
  unfold process_health_data_checked. rewrite E1, E2.
  destruct (night_of sleep_data s) as [e | n] eqn:Hn; cbn [bind ret].
  - left. destruct (night_of_inl _ _ _ Hn) as [-> _]. split; reflexivity.
  - right. exists n. cbv zeta. repeat split.
Qed.

Lemma time_shift_only_moves_clock_witness :
  let at_s := fun n => mkdt (seconds n) 0 in
  let day := 738886 * 86400 in
  let sleep_data :=
    [ mkEntry "watch" 1 (at_s day) "InBed" (at_s (day + 60));
      mkEntry "watch" 1 (at_s (day + 60)) "Core" (at_s (day + 120)) ] in
  process_health_data_checked sleep_data 0 <> inl OverflowError
  /\ process_health_data_checked sleep_data (-7200) <> inl OverflowError
  /\ exists o o',
       process_health_data_checked sleep_data 0 = inr o
       /\ process_health_data_checked sleep_data (-7200) = inr o'
       /\ StartTime o = "2024-01-02T00:00:00"%string
       /\ StartTime o' = "2024-01-01T22:00:00"%string
       /\ Hypnogram o' = Hypnogram o.
Proof.
  intros at_s day sleep_data.
  assert (H1 : process_health_data_checked sleep_data 0 <> inl OverflowError)
    by (vm_compute; discriminate).
  assert (H2 : process_health_data_checked sleep_data (-7200)
               <> inl OverflowError) by (vm_compute; discriminate).
  split; [exact H1 |]. split; [exact H2 |].
  assert (Hs : match process_health_data_checked sleep_data 0 with
               | inr o => StartTime o
               | inl _ => EmptyString
               end = "2024-01-02T00:00:00"%string)
    by (vm_compute; reflexivity).
  assert (Hs' : match process_health_data_checked sleep_data (-7200) with
                | inr o => StartTime o
                | inl _ => EmptyString
                end = "2024-01-01T22:00:00"%string)
    by (vm_compute; reflexivity).
  destruct (time_shift_only_moves_clock sleep_data 0 (-7200) H1 H2)
    as [[Hfail _] | (n & Hn & Ho & Ho')].
  - exfalso. rewrite Hfail in Hs. discriminate.
  - rewrite Ho in Hs. rewrite Ho' in Hs'.
    eexists. eexists. split; [exact Ho |]. split; [exact Ho' |].
    split; [exact Hs |]. split; [exact Hs' | reflexivity].
Defined.

(** X8: in a summary the wake-after-sleep-onset duration is never negative
    and never more than the total WAKE duration: the sleep-onset slot is
    reached through WAKE slots only. *)
Theorem wake_after_sleep_onset_range (sleep_data : list SleepEntry)
    (shift : Z) (n : Night) :
  night_of sleep_data shift = inr n ->
  0 <= wake_after_sleep_onset n <= stage_durations n WAKE.
Proof.
  intros Hn. split; [exact (wake_after_sleep_onset_nonneg _ _ _ Hn) |].
  destruct (night_of_onset _ _ _ Hn) as (Hsegs & Hfind & Hw).
  apply night_of_inr in Hn.
  destruct Hn as (first & rest & td & _ & _ & _ & _ & _ & _ & _ & Hd & _).
  rewrite Hw, Hd, stage_durations_of_count.
  apply find_sleep_onset_In in Hfind. rewrite Hsegs in Hfind.
  apply timeline_slot in Hfind. destruct Hfind as [k Hk].
  rewrite Hk. unfold dt_sub. rewrite utc_dt_add.
  pose proof seconds_30_pos. nia.
Qed.

Lemma wake_after_sleep_onset_range_witness :
  let at_s := fun n => mkdt (seconds n) 0 in
  let sleep_data :=
    [ mkEntry "watch" 1 (at_s 0) "InBed" (at_s 60);
      mkEntry "watch" 1 (at_s 60) "Core" (at_s 120) ] in
  exists n,
    night_of sleep_data 0 = inr n
    /\ 0 <= wake_after_sleep_onset n <= stage_durations n WAKE.
Proof.
  intros at_s sleep_data.
  destruct (night_of sleep_data 0) as [e | n] eqn:E.
  - vm_compute in E. discriminate.
  - exists n. split; [reflexivity |].
    exact (wake_after_sleep_onset_range sleep_data 0 n E).
Defined.

(** X9: read one after the other, the groups hold exactly the entries that
    pass the night and range test, each once, in the order of the sorted
    input: grouping neither reorders nor repeats nor invents an entry. *)
Theorem groups_preserve_order (entries : list SleepEntry)
    (from_date to_date : datetime) :
  List.concat (map snd (group_nights entries from_date to_date))
  = filter (in_night_and_range from_date to_date) (sorted_by_start entries).
Proof. unfold group_nights. apply group_sorted_entries. Qed.

(** X10: the first comparison of the filter, [start_dt >= night_start_dt],
    never fails: an entry is kept exactly when it ends by 11:00 after its
    night and lies within the filter range. *)
Theorem night_start_test_redundant (from_date to_date : datetime)
    (e : SleepEntry) :
  dt_leb (night_start_dt (StartDate e)) (StartDate e) = true
  /\ in_night_and_range from_date to_date e
     = dt_leb (EndDate e) (night_end_dt (StartDate e))
       && dt_leb from_date (StartDate e)
       && dt_leb (EndDate e) to_date.
Proof.
  assert (H : dt_leb (night_start_dt (StartDate e)) (StartDate e) = true)
    by (apply Z.leb_le, night_start_le).
  split; [exact H |]. unfold in_night_and_range. cbv zeta. rewrite H.
  reflexivity.
Qed.

(** X11: an entry that starts after 11:00 and before 19:00 (on the clock of
    its own zone) and does not end before it starts is in no group,
    whatever the filter range: daytime entries are dropped. *)
Theorem daytime_entries_dropped (entries : list SleepEntry)
    (from_date to_date : datetime) (e : SleepEntry) :
  night_end_clock < time_of (StartDate e) < night_start_clock ->
  utc (StartDate e) <= utc (EndDate e) ->
  ~ grouped_somewhere (group_nights entries from_date to_date) e.
Proof.
  intros [Hlo Hhi] Hle Hg. apply group_nights_member in Hg.
  destruct Hg as [_ Hk]. apply in_night_and_range_iff in Hk.
  destruct Hk as [[_ Hend] _].
  unfold night_end_dt, utc, combine in Hend. cbn [wall utcoffset] in Hend.
  rewrite night_date_of_spec in Hend.
  destruct (Z.leb_spec night_start_clock (time_of (StartDate e))); [lia |].
  unfold utc in Hle. unfold time_of, date_of in *.
  pose proof us_per_day_pos as Hp.
  pose proof (Z.div_mod (wall (StartDate e)) us_per_day ltac:(lia)) as Hd.
  nia.
Qed.

Lemma daytime_entries_dropped_witness :
  let D := 738886 in
  let e := mkEntry "watch" 1 (combine D (time_hms 14 0 0) 0) "Core"
             (combine D (time_hms 15 0 0) 0) in
  let from_date := combine (D - 1) (time_hms 19 0 0) 0 in
  let to_date := combine (D + 1) (time_hms 11 0 0) 0 in
  night_end_clock < time_of (StartDate e) < night_start_clock
  /\ utc (StartDate e) <= utc (EndDate e)
  /\ ~ grouped_somewhere (group_nights [e] from_date to_date) e.
Proof.
  intros D e from_date to_date.
  assert (H1 : night_end_clock < time_of (StartDate e) < night_start_clock)
    by (split; vm_compute; reflexivity).
  assert (H2 : utc (StartDate e) <= utc (EndDate e))
    by (vm_compute; discriminate).
  split; [exact H1 |]. split; [exact H2 |].
  exact (daytime_entries_dropped [e] from_date to_date e H1 H2).
Defined.

(** ** One group per night *)

Lemma night_date_of_div (d : datetime) :
  night_date_of d = (wall d - night_start_clock) / us_per_day + 1.
Proof.
  rewrite night_date_of_spec. unfold date_of, time_of.
  pose proof us_per_day_pos as Hp.
  pose proof (Z.div_mod (wall d) us_per_day ltac:(lia)) as Hd.
  pose proof (Z.mod_pos_bound (wall d) us_per_day Hp) as Hm.
  assert (Hc : night_start_clock = 68400000000) by reflexivity.
  assert (Hu : us_per_day = 86400000000) by reflexivity.
  destruct (Z.leb_spec night_start_clock (wall d mod us_per_day)) as [H | H].
  - assert (E : (wall d - night_start_clock) / us_per_day
                = wall d / us_per_day).
    { symmetry.
      apply Z.div_unique
        with (r := wall d mod us_per_day - night_start_clock); lia. }
    lia.
  - assert (E : (wall d - night_start_clock) / us_per_day
                = wall d / us_per_day - 1).
    { symmetry.
      apply Z.div_unique
        with (r := wall d mod us_per_day + (us_per_day - night_start_clock));
        lia. }
    lia.
Qed.

Lemma night_date_of_mono (a b : datetime) :
  utcoffset a = utcoffset b -> utc a <= utc b ->
  night_date_of a <= night_date_of b.
Proof.
  unfold utc. intros Ho Hle. rewrite !night_date_of_div.
  pose proof us_per_day_pos.
  apply Z.add_le_mono_r, Z.div_le_mono; lia.
Qed.

Lemma StronglySorted_snoc {A} (R : A -> A -> Prop) (l : list A) (a : A) :
  StronglySorted R l -> Forall (fun x => R x a) l ->
  StronglySorted R (l ++ [a]).
Proof.
  induction 1 as [| x l Hs IH Hx]; intros Hall; cbn [app].
  - constructor; constructor.
  - inversion Hall as [| ? ? Hxa Hla]; subst.
    constructor; [apply IH, Hla |].
    apply Forall_app. split; [exact Hx | constructor; [exact Hxa | constructor]].
Qed.

Lemma StronglySorted_snoc_inv {A} (R : A -> A -> Prop) (l : list A) (a : A) :
  StronglySorted R (l ++ [a]) -> Forall (fun x => R x a) l.
Proof.
  induction l as [| x l IH]; cbn [app]; intros Hs; [constructor |].
  inversion Hs as [| ? ? Hl Hx]; subst.
  constructor; [| apply IH, Hl].
  rewrite Forall_forall in Hx. apply Hx. apply in_or_app. right. left.
  reflexivity.
Qed.

Lemma StronglySorted_NoDup {A} (R : A -> A -> Prop) (l : list A) :
  (forall x, ~ R x x) -> StronglySorted R l -> NoDup l.
Proof.
  intros Hirr. induction 1 as [| x l Hs IH Hx]; constructor; [| exact IH].
  intros Hin. rewrite Forall_forall in Hx. exact (Hirr x (Hx x Hin)).
Qed.

Lemma flush_keys (st : GroupState) :
  current_night_entries st <> [] ->
  map fst (flush st)
  = map fst (grouped_sleep_data st) ++ [current_night_start st].
Proof.
  intros Hne. unfold flush.
  destruct (current_night_entries st); [contradiction |].
  rewrite map_app. reflexivity.
Qed.

Lemma sorted_state_weaken (m m' : Z) (st : GroupState) :
  m <= m' -> sorted_state m st -> sorted_state m' st.
Proof.
  intros Hm (Hs & Hb & Hc). split; [exact Hs |]. split; [| exact Hc].
  eapply Forall_impl; [| exact Hb].
  intros k [c [-> Hle]]. exists c. split; [reflexivity | lia].
Qed.

Lemma sorted_state_step (from_date to_date : datetime) (m : Z)
    (st : GroupState) (e : SleepEntry) :
  sorted_state m st -> m <= entry_night e ->
  sorted_state (entry_night e) (group_step from_date to_date st e).
Proof.
  intros Hst Hm. pose proof (sorted_state_weaken _ _ _ Hm Hst) as Hst'.
  unfold group_step. fold (entry_night e).
  destruct (in_night_and_range from_date to_date e); [| exact Hst'].
  destruct Hst' as (Hs & Hb & Hc).
  destruct (same_night (current_night_start st) (entry_night e)) eqn:Hsame.
  - apply same_night_true in Hsame.
    destruct (current_night_entries st) as [| x r] eqn:Ecur.
    + specialize (Hc eq_refl).
      unfold sorted_state, flush.
      cbn [grouped_sleep_data current_night_start current_night_entries app].
      rewrite Hc, Hsame. cbn [app map fst].
      split; [constructor; constructor |]. split; [| discriminate].
      constructor; [| constructor]. exists (entry_night e).
      split; [reflexivity | lia].
    + unfold sorted_state in *. unfold flush in *.
      cbn [grouped_sleep_data current_night_start current_night_entries app]
        in *.
      rewrite Ecur in *. cbn [app] in *. rewrite !map_app in *.
      cbn [map fst] in *. split; [exact Hs |]. split; [exact Hb |].
      discriminate.
  - unfold sorted_state.
    assert (Hf : flush (mkGroupState (flush st) (Some (entry_night e)) [e])
                 = flush st ++ [(Some (entry_night e), [e])]) by reflexivity.
    cbn [grouped_sleep_data current_night_start current_night_entries app].
    rewrite Hf, map_app. cbn [map fst].
    split; [| split; [| discriminate]].
    + assert (Hall : Forall (fun k => key_lt k (Some (entry_night e)))
                       (map fst (flush st)));
        [| apply StronglySorted_snoc; [exact Hs | exact Hall]].
      destruct (current_night_entries st) as [| x r] eqn:Ecur.
      * specialize (Hc eq_refl). unfold flush. rewrite Ecur, Hc. constructor.
      * assert (Hne : current_night_entries st <> [])
          by (rewrite Ecur; discriminate).
        rewrite (flush_keys st Hne) in Hs, Hb.
        rewrite (flush_keys st Hne).
        apply Forall_app in Hb. destruct Hb as [_ Hcur].
        inversion Hcur as [| ? ? [c [Ec Hle]] _]; subst.
        assert (Hlt : c < entry_night e).
        { rewrite Ec in Hsame. cbn [same_night] in Hsame.
          apply Z.eqb_neq in Hsame. lia. }
        apply Forall_app. split.
        -- apply StronglySorted_snoc_inv in Hs.
           eapply Forall_impl; [| exact Hs].
           intros k Hk. rewrite Ec in Hk. destruct k as [y |]; [| destruct Hk].
           cbn [key_lt] in *. lia.
        -- constructor; [| constructor]. rewrite Ec. exact Hlt.
    + apply Forall_app. split; [exact Hb |].
      constructor; [| constructor]. exists (entry_night e).
      split; [reflexivity | lia].
Qed.

Lemma sorted_state_fold (from_date to_date : datetime)
    (l : list SleepEntry) :
  forall (m : Z) (st : GroupState),
  StronglySorted (fun a b => entry_night a <= entry_night b) l ->
  (forall e, In e l -> m <= entry_night e) ->
  sorted_state m st ->
  exists m', sorted_state m' (fold_left (group_step from_date to_date) l st).
Proof.
  induction l as [| e l IH]; intros m st Hs Hm Hst; cbn [fold_left].
  - exists m. exact Hst.
  - inversion Hs as [| ? ? Hl He]; subst.
    apply (IH (entry_night e)); [exact Hl | |].
    + rewrite Forall_forall in He. exact He.
    + apply (sorted_state_step _ _ m); [exact Hst |].
      apply Hm. left. reflexivity.
Qed.

(** X12: when all entries start in one time zone, the groups come out in
    strictly increasing order of night date, so no night has two groups. *)
Theorem group_keys_increasing (entries : list SleepEntry)
    (from_date to_date : datetime) (off : Z) :
  (forall e, In e entries -> utcoffset (StartDate e) = off) ->
  StronglySorted key_lt (map fst (group_nights entries from_date to_date))
  /\ NoDup (map fst (group_nights entries from_date to_date)).
Proof.
  intros Hoff.
  assert (Hsorted : StronglySorted key_lt
                      (map fst (group_nights entries from_date to_date))).
  { unfold group_nights, group_sorted.
    pose proof (sorted_by_start_sorted entries) as Hs.
    assert (Hn : StronglySorted (fun a b => entry_night a <= entry_night b)
                   (sorted_by_start entries)).
    { assert (Hin : forall e, In e (sorted_by_start entries) ->
                              utcoffset (StartDate e) = off)
        by (intros e He; apply Hoff, sorted_by_start_In, He).
      induction Hs as [| x l Hl IH Hx]; constructor.
      - apply IH. intros e He. apply Hin. right. exact He.
      - rewrite Forall_forall in *. intros y Hy.
        apply night_date_of_mono; [| exact (Hx y Hy)].
        rewrite (Hin x (or_introl eq_refl)), (Hin y (or_intror Hy)).
        reflexivity. }
    destruct (sorted_by_start entries) as [| e0 l0] eqn:El;
      [constructor |].
    destruct (sorted_state_fold from_date to_date (e0 :: l0) (entry_night e0)
                group_init Hn) as [m' Hm'].
    - intros e [<- | He]; [lia |].
      inversion Hn as [| ? ? _ Hall]; subst.
      rewrite Forall_forall in Hall. exact (Hall e He).
    - split; [constructor |]. split; [constructor | reflexivity].
    - exact (proj1 Hm'). }
  split; [exact Hsorted |].
  apply (StronglySorted_NoDup key_lt); [| exact Hsorted].
  intros [x |]; cbn [key_lt]; lia.
Qed.

Lemma group_keys_increasing_witness :
  let D := 738886 in
  let e1 := mkEntry "watch" 1 (combine (D + 1) (time_hms 23 0 0) 0) "Core"
              (combine (D + 2) (time_hms 6 0 0) 0) in
  let e2 := mkEntry "watch" 1 (combine D (time_hms 23 0 0) 0) "Core"
              (combine (D + 1) (time_hms 6 0 0) 0) in
  let from_date := combine D (time_hms 19 0 0) 0 in
  let to_date := combine (D + 2) (time_hms 11 0 0) 0 in
  (forall e, In e [e1; e2] -> utcoffset (StartDate e) = 0)
  /\ map fst (group_nights [e1; e2] from_date to_date)
     = [Some D; Some (D + 1)]
  /\ NoDup (map fst (group_nights [e1; e2] from_date to_date)).
Proof.
  intros D e1 e2 from_date to_date.
  assert (H : forall e, In e [e1; e2] -> utcoffset (StartDate e) = 0)
    by (intros e [<- | [<- | []]]; reflexivity).
  split; [exact H |]. split; [vm_compute; reflexivity |].
  exact (proj2 (group_keys_increasing [e1; e2] from_date to_date 0 H)).
Defined.

(** Across time zones the night dates of entries sorted by instant need not
    be sorted, and a night can then have two groups. *)
Example group_keys_repeat_across_zones :
  let D := 738886 in
  let east := 36000000000 in
  let a := combine D (time_hms 20 0 0) east in
  let b := combine D (time_hms 11 0 0) 0 in
  let c := combine D (time_hms 22 0 0) east in
  let entries := [ mkEntry "watch" 1 a "Core" a; mkEntry "watch" 1 b "Core" b;
                   mkEntry "watch" 1 c "Core" c ] in
  map fst
    (group_nights entries (combine (D - 1) 0 0) (combine (D + 2) 0 0))
  = [Some D; Some (D - 1); Some D].
Proof. vm_compute. reflexivity. Qed.

(** ** The date range and the nights it selects *)

Lemma grouped_night_range (from_date to_date : datetime) (A B off : Z)
    (e : SleepEntry) :
  from_date = combine A night_start_clock off ->
  to_date = combine B night_end_clock off ->
  utcoffset (StartDate e) = off ->
  utc (StartDate e) <= utc (EndDate e) ->
  in_night_and_range from_date to_date e = true ->
  A <= entry_night e <= B - 1.
Proof.
  intros -> -> Hoff Hle Hk. apply in_night_and_range_iff in Hk.
  destruct Hk as [_ [Hfrom Hto]].
  unfold entry_night. rewrite night_date_of_div.
  unfold utc, combine in *. cbn [wall utcoffset] in *.
  pose proof us_per_day_pos as Hp.
  assert (Hc : night_start_clock = 68400000000) by reflexivity.
  assert (Hn : night_end_clock = 39600000000) by reflexivity.
  assert (Hu : us_per_day = 86400000000) by reflexivity.
  split.
  - assert (A - 1 <= (wall (StartDate e) - night_start_clock) / us_per_day)
      by (apply Z.div_le_lower_bound; lia).
    lia.
  - assert ((wall (StartDate e) - night_start_clock) / us_per_day < B - 1)
      by (apply Z.div_lt_upper_bound; lia).
    lia.
Qed.

(** X13: when the range given to [process_file] runs from 19:00 on one date
    to 11:00 on a later one, both on the clock of one zone, the nights
    grouped lie between the two dates: an entry of that zone that does not
    end before it starts is grouped only under a night from the first date
    to the day before the second.  A range from 19:00 on one day to 11:00 on
    the next therefore yields at most one group, the night of the first
    day. *)
Theorem range_selects_nights (A B off : Z) (entries : list SleepEntry) :
  let from_date := combine A night_start_clock off in
  let to_date := combine B night_end_clock off in
  let groups := group_nights entries from_date to_date in
  (forall e,
     utcoffset (StartDate e) = off ->
     utc (StartDate e) <= utc (EndDate e) ->
     grouped_somewhere groups e ->
     A <= night_date_of (StartDate e) <= B - 1)
  /\ (forall g e,
        In g groups -> In e (snd g) ->
        utcoffset (StartDate e) = off ->
        utc (StartDate e) <= utc (EndDate e) ->
        exists d, fst g = Some d /\ A <= d <= B - 1)
  /\ (B = A + 1 ->
      forall g e,
        In g groups -> In e (snd g) ->
        utcoffset (StartDate e) = off ->
        utc (StartDate e) <= utc (EndDate e) ->
        fst g = Some A).
Proof.
  intros from_date to_date groups.
  assert (Hnight : forall e,
            utcoffset (StartDate e) = off ->
            utc (StartDate e) <= utc (EndDate e) ->
            grouped_somewhere groups e ->
            A <= night_date_of (StartDate e) <= B - 1).
  { intros e Hoff Hle Hmem.
    apply group_nights_member in Hmem. destruct Hmem as [_ Hk].
    exact (grouped_night_range from_date to_date A B off e eq_refl eq_refl
             Hoff Hle Hk). }
  assert (Hkey : forall g e,
            In g groups -> In e (snd g) ->
            fst g = Some (night_date_of (StartDate e))).
  { intros g e Hg He.
    pose proof (group_sorted_ok (sorted_by_start entries) from_date to_date)
      as Hok.
    rewrite Forall_forall in Hok. destruct (Hok g Hg) as [_ Hall].
    rewrite Forall_forall in Hall. exact (Hall e He). }
  split; [exact Hnight |]. split.
  - intros g e Hg He Hoff Hle. exists (night_date_of (StartDate e)).
    split; [exact (Hkey g e Hg He) |].
    apply Hnight; [exact Hoff | exact Hle |].
    exists g. split; assumption.
  - intros HB g e Hg He Hoff Hle. rewrite (Hkey g e Hg He). f_equal.
    assert (Hr : A <= night_date_of (StartDate e) <= B - 1).
    { apply Hnight; [exact Hoff | exact Hle |]. exists g. split; assumption. }
    lia.
Qed.

Lemma range_selects_nights_witness :
  let D := 738886 in
  let e := mkEntry "watch" 1 (combine D (time_hms 23 0 0) 0) "Core"
             (combine (D + 1) (time_hms 6 0 0) 0) in
  let g := (Some D, [e]) in
  In g (group_nights [e] (combine D night_start_clock 0)
          (combine (D + 1) night_end_clock 0))
  /\ utc (StartDate e) <= utc (EndDate e)
  /\ fst g = Some D.
Proof.
  intros D e g.
  assert (Hg : In g (group_nights [e] (combine D night_start_clock 0)
                       (combine (D + 1) night_end_clock 0)))
    by (vm_compute; left; reflexivity).
  assert (Hle : utc (StartDate e) <= utc (EndDate e))
    by (vm_compute; discriminate).
  split; [exact Hg |]. split; [exact Hle |].
  exact (proj2 (proj2 (range_selects_nights D (D + 1) 0 [e])) eq_refl g e Hg
           (or_introl eq_refl) eq_refl Hle).
Defined.

(** ** A file of several nights *)

Lemma process_health_data_checked_nil (s : Z) :
  process_health_data_checked [] s = inl IndexError.
Proof. reflexivity. Qed.

Lemma process_groups_checked_inr (groups : list NightGroup) (s : Z) :
  forall outs,
  process_groups_checked groups s = inr outs <->
  Forall2 (fun g o => fst o = fst g
                      /\ fst g <> None
                      /\ process_health_data_checked (snd g) s = inr (snd o))
    groups outs.
Proof.
  induction groups as [| [k es] groups IH]; intros outs;
    cbn [process_groups_checked].
  - split.
    + intros H. injection H as <-. constructor.
    + intros H. inversion H. reflexivity.
  - split.
    + intros H. destruct es as [| e0 r]; [discriminate |].
      cbn [segment_dates bind ret] in H.
      destruct k as [d |]; [| discriminate].
      cbn [night_key bind ret] in H.
      destruct (process_health_data_checked (e0 :: r) s) as [e | o] eqn:Ho;
        [discriminate |].
      cbn [bind] in H.
      destruct (process_groups_checked groups s) as [e | outs'] eqn:Hr;
        [discriminate |].
      cbn [bind ret] in H. injection H as <-.
      constructor;
        [split; [reflexivity | split; [discriminate | exact Ho]] |].
      apply IH. reflexivity.
    + intros H. inversion H as [| g [k' o] gs outs' (Hk & Hkey & Ho) Hrest];
        subst.
      cbn [fst snd] in Hk, Hkey, Ho. subst k'.
      destruct es as [| e0 r];
        [rewrite process_health_data_checked_nil in Ho; discriminate |].
      destruct k as [d |]; [| contradiction].
      cbn [segment_dates night_key bind ret]. rewrite Ho. cbn [bind].
      rewrite (proj2 (IH outs') Hrest). reflexivity.
Qed.

Lemma process_groups_checked_inl (groups : list NightGroup) (s : Z)
    (e : exn) :
  process_groups_checked groups s = inl e ->
  exists pre g post outs,
    groups = pre ++ g :: post
    /\ process_groups_checked pre s = inr outs
    /\ ((snd g = [] /\ e = ValueError)
        \/ (snd g <> [] /\ fst g = None /\ e = AttributeError)
        \/ (snd g <> [] /\ fst g <> None
            /\ process_health_data_checked (snd g) s = inl e)).
Proof.
  induction groups as [| [k es] groups IH]; cbn [process_groups_checked];
    [discriminate |].
  intros H. destruct es as [| e0 r].
  - exists [], (k, []), groups, []. split; [reflexivity |].
    split; [reflexivity |]. left. split; [reflexivity |].
    cbn in H. congruence.
  - cbn [segment_dates bind ret] in H. destruct k as [d |].
    2:{ exists [], (None, e0 :: r), groups, []. split; [reflexivity |].
        split; [reflexivity |]. right. left. split; [discriminate |].
        split; [reflexivity |]. cbn in H. congruence. }
    cbn [night_key bind ret] in H.
    destruct (process_health_data_checked (e0 :: r) s) as [e' | o] eqn:Ho;
      cbn [bind] in H.
    + exists [], (Some d, e0 :: r), groups, []. split; [reflexivity |].
      split; [reflexivity |]. right. right. split; [discriminate |].
      split; [discriminate |]. cbn [snd]. rewrite Ho. congruence.
    + destruct (process_groups_checked groups s) as [e' | outs'] eqn:Hr;
        cbn [bind ret] in H; [| discriminate].
      destruct (IH H) as (pre & g & post & outs & -> & Hpre & Hg).
      exists ((Some d, e0 :: r) :: pre), g, post, ((Some d, o) :: outs).
      split; [reflexivity |]. split; [| exact Hg].
      cbn [process_groups_checked segment_dates night_key bind ret].
      rewrite Ho. cbn [bind]. rewrite Hpre. reflexivity.
Qed.

Lemma process_groups_checked_returns (groups : list NightGroup) (s : Z) :
  Forall (fun g => fst g <> None
                   /\ positive_span (snd g)
                   /\ process_health_data_checked (snd g) s
                      <> inl OverflowError) groups ->
  exists outs, process_groups_checked groups s = inr outs.
Proof.
  induction groups as [| [k es] groups IH]; intros Hall.
  - eexists. reflexivity.
  - inversion Hall as [| ? ? (Hkey & Hsp & Hno) Hrest]; subst.
    cbn [fst snd] in *.
    destruct (process_health_data_checked_returns _ _ Hsp Hno) as [o Ho].
    destruct (IH Hrest) as [outs Hr].
    exists ((k, o) :: outs).
    apply process_groups_checked_inr.
    constructor; [split; [reflexivity | split; [exact Hkey | exact Ho]] |].
    apply process_groups_checked_inr. exact Hr.
Qed.

Lemma group_ok_key (g : NightGroup) :
  group_ok g -> snd g <> [] /\ fst g <> None.
Proof.
  intros [Hne Hall]. split; [exact Hne |].
  destruct (snd g) as [| e r]; [contradiction |].
  inversion Hall as [| ? ? Hk _]; subst. rewrite Hk. discriminate.
Qed.

(** X15: the loop over the night groups, apart from the writing of the
    files and within the range of [datetime].  It returns exactly when every
    group has a night date and is summarised, and then gives one summary per
    group, in the order and under the night dates of the groups.  Otherwise
    it stops at the first group that fails, after the summaries of the
    groups before it: with ValueError when that group is empty, with
    AttributeError when it has no night date, and else with the exception
    of its summary, which is OverflowError, or IndexError and then the group
    has no positive span.  It returns when every group has a night date and
    a positive span and no summary leaves the range of [datetime].  On
    groups as the grouping loop makes them, never empty and keyed by the
    night of their entries, the only exceptions are IndexError and
    OverflowError. *)
Theorem process_groups_outcome (groups : list NightGroup) (s : Z) :
  (forall outs,
     process_groups_checked groups s = inr outs <->
     Forall2 (fun g o => fst o = fst g
                         /\ fst g <> None
                         /\ process_health_data_checked (snd g) s
                            = inr (snd o)) groups outs)
  /\ (forall e,
        process_groups_checked groups s = inl e ->
        exists pre g post outs,
          groups = pre ++ g :: post
          /\ process_groups_checked pre s = inr outs
          /\ ((snd g = [] /\ e = ValueError)
              \/ (snd g <> [] /\ fst g = None /\ e = AttributeError)
              \/ (snd g <> [] /\ fst g <> None
                  /\ process_health_data_checked (snd g) s = inl e
                  /\ (e = OverflowError
                      \/ (e = IndexError /\ ~ positive_span (snd g))))))
  /\ (Forall (fun g => fst g <> None
                       /\ positive_span (snd g)
                       /\ process_health_data_checked (snd g) s
                          <> inl OverflowError) groups ->
      exists outs, process_groups_checked groups s = inr outs)
  /\ (Forall group_ok groups ->
      forall e, process_groups_checked groups s = inl e ->
                e = IndexError \/ e = OverflowError).
Proof.
  assert (Hfail : forall e,
            process_groups_checked groups s = inl e ->
            exists pre g post outs,
              groups = pre ++ g :: post
              /\ process_groups_checked pre s = inr outs
              /\ ((snd g = [] /\ e = ValueError)
                  \/ (snd g <> [] /\ fst g = None /\ e = AttributeError)
                  \/ (snd g <> [] /\ fst g <> None
                      /\ process_health_data_checked (snd g) s = inl e
                      /\ (e = OverflowError
                          \/ (e = IndexError
                              /\ ~ positive_span (snd g)))))).
  { intros e H.
    destruct (process_groups_checked_inl _ _ _ H)
      as (pre & g & post & outs & Hsplit & Hpre
          & [Hempty | [Hnone | (Hne & Hkey & Hg)]]);
      exists pre, g, post, outs; (split; [exact Hsplit |]);
      (split; [exact Hpre |]).
    - left. exact Hempty.
    - right. left. exact Hnone.
    - right. right. split; [exact Hne |]. split; [exact Hkey |].
      split; [exact Hg |]. exact (process_health_data_checked_inl _ _ _ Hg). }
  split; [apply process_groups_checked_inr |].
  split; [exact Hfail |].
  split; [apply process_groups_checked_returns |].
  intros Hok e H.
  destruct (Hfail e H) as (pre & g & post & outs & Hsplit & _ & Hcase).
  assert (Hg : group_ok g).
  { rewrite Forall_forall in Hok. apply Hok. rewrite Hsplit.
    apply in_or_app. right. left. reflexivity. }
  destruct (group_ok_key g Hg) as [Hne Hkey].
  destruct Hcase as [[Hempty _] | [(_ & Hnone & _) | (_ & _ & _ & He)]].
  - contradiction.
  - contradiction.
  - destruct He as [-> | [-> _]]; [right | left]; reflexivity.
Qed.

Lemma process_groups_outcome_witness :
  let D := 738886 in
  let t := combine D (time_hms 23 0 0) 0 in
  let t' := combine (D + 1) (time_hms 23 0 0) 0 in
  let good := (Some D, [mkEntry "watch" 1 t "Core" (dt_add t (seconds 60))]) in
  let bad := (Some (D + 1), [mkEntry "watch" 1 t' "Core" t']) in
  process_groups_checked [good; bad] 0 = inl IndexError
  /\ (exists outs, process_groups_checked [good] 0 = inr outs)
  /\ exists pre g post outs,
       [good; bad] = pre ++ g :: post
       /\ process_groups_checked pre 0 = inr outs
       /\ ((snd g = [] /\ IndexError = ValueError)
           \/ (snd g <> [] /\ fst g = None /\ IndexError = AttributeError)
           \/ (snd g <> [] /\ fst g <> None
               /\ process_health_data_checked (snd g) 0 = inl IndexError
               /\ (IndexError = OverflowError
                   \/ (IndexError = IndexError
                       /\ ~ positive_span (snd g))))).
Proof.
  intros D t t' good bad.
  assert (H : process_groups_checked [good; bad] 0 = inl IndexError)
    by (vm_compute; reflexivity).
  split; [exact H |].
  split; [eexists; vm_compute; reflexivity |].
  exact (proj1 (proj2 (process_groups_outcome [good; bad] 0)) IndexError H).
Defined.

(** ** A free file name *)

Lemma str_inj (a b : Z) : str a = str b -> a = b.
Proof.
  intros H. pose proof (int_str a) as Ha. rewrite H, int_str in Ha.
  congruence.
Qed.

Lemma string_app_inv_head (a b c : string) :
  (a ++ b = a ++ c)%string -> b = c.
Proof.
  induction a as [| x a IH]; cbn [append]; intros H; [exact H |].
  injection H as H. exact (IH H).
Qed.

Lemma list_ascii_of_string_app (a b : string) :
  list_ascii_of_string (a ++ b)
  = list_ascii_of_string a ++ list_ascii_of_string b.
Proof.
  induction a as [| x a IH]; cbn; [reflexivity | rewrite IH; reflexivity].
Qed.

Lemma string_app_inv_tail (a b c : string) :
  (a ++ c = b ++ c)%string -> a = b.
Proof.
  intros H. apply (f_equal list_ascii_of_string) in H.
  rewrite !list_ascii_of_string_app in H. apply app_inv_tail in H.
  rewrite <- (string_of_list_ascii_of_string a),
    <- (string_of_list_ascii_of_string b), H.
  reflexivity.
Qed.

Lemma path_join_inj (a b1 b2 : string) :
  starts_with_sep b1 = starts_with_sep b2 ->
  path_join a b1 = path_join a b2 -> b1 = b2.
Proof.
  unfold path_join. intros <-.
  destruct (starts_with_sep b1); [exact (fun H => H) |].
  destruct ((String.length a =? 0)%nat || ends_with_sep a).
  - apply string_app_inv_head.
  - intros H. apply string_app_inv_head in H. injection H as H. exact H.
Qed.

Lemma least_true (q : nat -> bool) (B : nat) :
  (forall n, (n <= B)%nat -> q n = false)
  \/ exists k, (k <= B)%nat /\ q k = true
               /\ forall j, (j < k)%nat -> q j = false.
Proof.
  induction B as [| B IH].
  - destruct (q 0%nat) eqn:H0.
    + right. exists 0%nat. repeat split; [lia | exact H0 | lia].
    + left. intros n Hn. replace n with 0%nat by lia. exact H0.
  - destruct IH as [Hall | (k & Hk & Hq & Hlt)].
    + destruct (q (S B)) eqn:HS.
      * right. exists (S B). repeat split; [lia | exact HS |].
        intros j Hj. apply Hall. lia.
      * left. intros n Hn.
        destruct (Nat.eq_dec n (S B)) as [-> | Hne]; [exact HS |].
        apply Hall. lia.
    + right. exists k. repeat split; [lia | exact Hq | exact Hlt].
Qed.

Section UniqueFileNameFacts.

Variable exists_ : string -> bool.
Variable basename : string -> string.
Variable dirname : string -> string.
Variable splitext : string -> string * string.

Let np := numbered_path basename dirname splitext.
Let loop := unique_loop exists_ basename dirname splitext.

Lemma numbered_path_inj (file_name : string) (c1 c2 : Z) :
  np file_name c1 = np file_name c2 -> c1 = c2.
Proof.
  unfold np, numbered_path.
  destruct (splitext (basename file_name)) as [stem ext]. intros H.
  apply path_join_inj in H.
  - apply string_app_inv_tail in H. apply string_app_inv_head in H.
    injection H as H. apply str_inj. exact H.
  - destruct stem; reflexivity.
Qed.

Lemma unique_loop_first (file_name : string) (k : nat) :
  forall (fuel : nat) (c : Z),
  (k < fuel)%nat ->
  (forall j, (j < k)%nat -> exists_ (np file_name (c + Z.of_nat j)) = true) ->
  exists_ (np file_name (c + Z.of_nat k)) = false ->
  loop fuel file_name (np file_name c) (c + 1)
  = Some (np file_name (c + Z.of_nat k)).
Proof.
  induction k as [| k IH]; intros fuel c Hf Hbefore Hfree;
    (destruct fuel as [| fuel]; [lia |]); unfold loop; cbn [unique_loop].
  - rewrite Z.add_0_r in Hfree. rewrite Hfree, Z.add_0_r. reflexivity.
  - pose proof (Hbefore 0%nat ltac:(lia)) as H0. rewrite Z.add_0_r in H0.
    rewrite H0. fold loop. fold (np file_name (c + 1)).
    replace (c + Z.of_nat (S k)) with (c + 1 + Z.of_nat k) in * by lia.
    apply IH; [lia | | exact Hfree].
    intros j Hj. replace (c + 1 + Z.of_nat j) with (c + Z.of_nat (S j)) by lia.
    apply Hbefore. lia.
Qed.

Lemma free_candidate (files : list string) (file_name : string) :
  (forall c, 1 <= c -> exists_ (np file_name c) = true ->
             In (np file_name c) files) ->
  exists k, (k <= List.length files)%nat
            /\ exists_ (np file_name (1 + Z.of_nat k)) = false
            /\ forall j, (j < k)%nat ->
                         exists_ (np file_name (1 + Z.of_nat j)) = true.
Proof.
  intros Hfiles.
  destruct (least_true
              (fun n => negb (exists_ (np file_name (1 + Z.of_nat n))))
              (List.length files)) as [Hall | (k & Hk & Hq & Hlt)].
  - exfalso.
    set (cs := map (fun n => np file_name (1 + Z.of_nat n))
                 (seq 0 (S (List.length files)))).
    assert (Hnd : NoDup cs).
    { unfold cs. apply Finite.Injective_map_NoDup_in; [| apply seq_NoDup].
      intros x y _ _ Hxy. apply numbered_path_inj in Hxy. lia. }
    assert (Hincl : incl cs files).
    { intros p Hp. unfold cs in Hp. apply in_map_iff in Hp.
      destruct Hp as [n [<- Hn]]. apply in_seq in Hn.
      apply Hfiles; [lia |]. apply negb_false_iff. apply Hall. lia. }
    pose proof (NoDup_incl_length Hnd Hincl) as Hlen.
    unfold cs in Hlen. rewrite length_map, length_seq in Hlen. lia.
  - exists k. split; [exact Hk |]. split.
    + apply negb_true_iff. exact Hq.
    + intros j Hj. apply negb_false_iff. apply Hlt. exact Hj.
Qed.

(** X16: when the numbered names [stem_1.ext], [stem_2.ext], ... that are
    taken all occur in a list of [n] paths, the loop ends within [n + 1]
    candidates, and the name returned is not taken: it is [file_name] itself
    when that is free, and otherwise the numbered name with the least count
    from 1 that is free, a count of at most [n + 1]. *)
Theorem get_unique_file_name_free (files : list string) (file_name : string)
    (fuel : nat) :
  (forall c, 1 <= c -> exists_ (np file_name c) = true ->
             In (np file_name c) files) ->
  (List.length files + 1 < fuel)%nat ->
  exists p,
    get_unique_file_name exists_ basename dirname splitext fuel file_name
    = Some p
    /\ exists_ p = false
    /\ (exists_ file_name = false -> p = file_name)
    /\ (exists_ file_name = true ->
        exists c, 1 <= c <= Z.of_nat (List.length files) + 1
                  /\ p = np file_name c
                  /\ forall c', 1 <= c' < c ->
                                exists_ (np file_name c') = true).
Proof.
  intros Hfiles Hfuel. unfold get_unique_file_name.
  destruct (exists_ file_name) eqn:Hex; cbn [negb].
  - destruct (free_candidate files file_name Hfiles)
      as (k & Hk & Hfree & Hbefore).
    exists (np file_name (1 + Z.of_nat k)).
    split; [| split; [exact Hfree | split; [discriminate |]]].
    + destruct fuel as [| fuel]; [lia |]. cbn [unique_loop]. rewrite Hex.
      apply (unique_loop_first file_name k fuel 1); [lia | | exact Hfree].
      exact Hbefore.
    + intros _. exists (1 + Z.of_nat k). split; [lia |].
      split; [reflexivity |]. intros c' Hc'.
      replace c' with (1 + Z.of_nat (Z.to_nat (c' - 1))) by lia.
      apply Hbefore. lia.
  - exists file_name. split; [reflexivity |]. split; [exact Hex |].
    split; [reflexivity | discriminate].
Qed.

End UniqueFileNameFacts.

Lemma get_unique_file_name_free_witness :
  let taken := ["x.json"; "./x.json"; "x_1.json"; "./x_1.json"]%string in
  let exists_ := fun p => existsb (String.eqb p) taken in
  let basename := fun p : string => p in
  let dirname := fun _ : string => EmptyString in
  let splitext := fun _ : string => ("x", ".json")%string in
  let files := ["x_1.json"]%string in
  (forall c, 1 <= c ->
     exists_ (numbered_path basename dirname splitext "x.json" c) = true ->
     In (numbered_path basename dirname splitext "x.json" c) files)
  /\ (List.length files + 1 < 3)%nat
  /\ get_unique_file_name exists_ basename dirname splitext 3 "x.json"
     = Some "x_2.json"%string
  /\ exists p,
       get_unique_file_name exists_ basename dirname splitext 3 "x.json"
       = Some p
       /\ exists_ p = false.
Proof.
  intros taken exists_ basename dirname splitext files.
  assert (H1 : forall c, 1 <= c ->
            exists_ (numbered_path basename dirname splitext "x.json" c)
            = true ->
            In (numbered_path basename dirname splitext "x.json" c) files).
  { intros c Hc Hp. apply existsb_exists in Hp.
    destruct Hp as [x [Hx Hpx]]. apply String.eqb_eq in Hpx.
    assert (E1 : numbered_path basename dirname splitext "x.json" 1
                 = "x_1.json"%string) by reflexivity.
    destruct Hx as [<- | [<- | [<- | [<- | []]]]].
    - exfalso. apply (f_equal (fun p => String.get 1 p)) in Hpx.
      cbn in Hpx. discriminate.
    - exfalso. apply (f_equal (fun p => String.get 0 p)) in Hpx.
      cbn in Hpx. discriminate.
    - left. symmetry. exact Hpx.
    - exfalso. apply (f_equal (fun p => String.get 0 p)) in Hpx.
      cbn in Hpx. discriminate. }
  assert (H2 : (List.length files + 1 < 3)%nat) by (cbn; lia).
  split; [exact H1 |]. split; [exact H2 |]. split; [reflexivity |].
  destruct (get_unique_file_name_free exists_ basename dirname splitext files
              "x.json"%string 3 H1 H2) as (p & Hp & Hfree & _).
  exists p. split; [exact Hp | exact Hfree].
Defined.

(** ** The row of the output file *)

Section RowText.

Local Open Scope string_scope.

Lemma lacks_app (c : ascii) (a b : string) :
  lacks c a = true -> lacks c b = true -> lacks c (a ++ b) = true.
Proof.
  intros Ha Hb. induction a as [| x a IH]; cbn [append lacks] in *;
    [exact Hb |].
  apply andb_true_iff in Ha. destruct Ha as [Hx Ha].
  rewrite Hx, (IH Ha). reflexivity.
Qed.

Lemma lacks_semi_uint (d : Decimal.uint) :
  lacks ";" (NilEmpty.string_of_uint d) = true.
Proof. induction d; cbn; auto. Qed.

Lemma lacks_semi_str (n : Z) : lacks ";" (str n) = true.
Proof.
  unfold str, NilZero.string_of_int, NilZero.string_of_uint.
  destruct (Z.to_int n) as [d | d]; destruct d; cbn;
    auto using lacks_semi_uint.
Qed.

Lemma lacks_semi_zfill (w : nat) (s : string) :
  lacks ";" s = true -> lacks ";" (zfill w s) = true.
Proof.
  intros H. apply lacks_app; [| exact H].
  induction (w - String.length s)%nat; cbn; auto.
Qed.

Lemma lacks_semi_fmt_hms (h m s : Z) : lacks ";" (fmt_hms h m s) = true.
Proof.
  unfold fmt_hms, fmt_02d.
  repeat (apply lacks_app;
          [first [apply lacks_semi_str
                 | apply lacks_semi_zfill, lacks_semi_str
                 | reflexivity] |]).
  apply lacks_semi_zfill, lacks_semi_str.
Qed.

Lemma lacks_semi_strftime (d : datetime) : lacks ";" (strftime_iso d) = true.
Proof.
  unfold strftime_iso, fmt_04d, fmt_02d.
  destruct (ord2ymd (date_of d)) as [[y m] dd].
  repeat (apply lacks_app;
          [first [apply lacks_semi_zfill, lacks_semi_str | reflexivity] |]).
  apply lacks_semi_zfill, lacks_semi_str.
Qed.

Lemma lacks_semi_labels (stages : list CanonicalStage) :
  lacks ";" (join "," (map stage_label stages)) = true.
Proof.
  unfold join. induction stages as [| a l IH]; [reflexivity |].
  cbn [map String.concat]. destruct (map stage_label l) as [| b r] eqn:E.
  - destruct a; reflexivity.
  - apply lacks_app; [destruct a; reflexivity |].
    apply lacks_app; [reflexivity | exact IH].
Qed.

Lemma split_on_loop_last (sep : ascii) (a : string) :
  forall acc, lacks sep a = true -> split_on_loop sep a acc = [acc ++ a].
Proof.
  induction a as [| c a IH]; intros acc H; cbn [split_on_loop lacks] in *.
  - rewrite string_app_nil_r. reflexivity.
  - apply andb_true_iff in H. destruct H as [Hc Ha].
    apply negb_true_iff in Hc. rewrite Hc, (IH _ Ha), string_app_assoc.
    reflexivity.
Qed.

Lemma split_on_loop_field (sep : ascii) (a rest : string) :
  forall acc, lacks sep a = true ->
  split_on_loop sep (a ++ String sep rest) acc
  = (acc ++ a) :: split_on_loop sep rest EmptyString.
Proof.
  induction a as [| c a IH]; intros acc H;
    cbn [split_on_loop lacks append] in *.
  - rewrite Ascii.eqb_refl, string_app_nil_r. reflexivity.
  - apply andb_true_iff in H. destruct H as [Hc Ha].
    apply negb_true_iff in Hc. rewrite Hc, (IH _ Ha), string_app_assoc.
    reflexivity.
Qed.

Lemma split_on_join (sep : ascii) (fs : list string) :
  forall f acc,
  Forall (fun x => lacks sep x = true) (f :: fs) ->
  split_on_loop sep (join (String sep EmptyString) (f :: fs)) acc
  = (acc ++ f) :: fs.
Proof.
  unfold join. induction fs as [| g fs IH]; intros f acc Hall;
    inversion Hall as [| ? ? Hf Hrest]; subst.
  - cbn [String.concat]. apply split_on_loop_last. exact Hf.
  - change (String.concat (String sep EmptyString) (f :: g :: fs))
      with (f ++ String sep (String.concat (String sep EmptyString) (g :: fs))).
    rewrite split_on_loop_field by exact Hf.
    rewrite (IH g EmptyString Hrest). reflexivity.
Qed.

End RowText.

(** X17: the row written for a summary splits at its semicolons into
    exactly the sixteen values, in the order of the sixteen column names of
    the header: no value printed by the program contains a semicolon. *)
Theorem data_row_fields (sleep_data : list SleepEntry) (shift : Z)
    (o : OutputData) :
  process_health_data sleep_data shift = inr o ->
  split_on ";" (data_row o) = row_fields o
  /\ List.length (row_fields o) = 16%nat
  /\ List.length (split_on ";" header) = 16%nat.
Proof.
  unfold process_health_data. intros H.
  destruct (night_of sleep_data shift) as [e | n] eqn:Hn; [discriminate |].
  cbn [bind ret] in H. injection H as <-.
  split; [| split; reflexivity].
  apply night_of_inr in Hn.
  destruct Hn as (first & rest & td & _ & _ & _ & _ & Htot & _ & Hons & _
                  & _ & _ & _ & Hhyp).
  unfold data_row, split_on, row_fields.
  rewrite (split_on_join ";"); [reflexivity |].
  cbn [output_of Type_ StartTime StopTime SleepDuration SleepOnsetDuration
       LightSleepDuration DeepSleepDuration REMDuration
       WakeAfterSleepOnsetDuration NumberOfAwakenings PositionChanges
       MeanHeartRate MeanRespirationCPM NumberOfStimulations SleepEfficiency
       Hypnogram].
  rewrite Htot, Hons, Hhyp, <- map_map.
  repeat (constructor;
          [first [reflexivity
                 | apply lacks_semi_strftime
                 | apply lacks_semi_fmt_hms
                 | apply lacks_semi_str
                 | idtac] |]);
    [| constructor].
  apply lacks_app; [reflexivity |].
  apply lacks_app; [apply lacks_semi_labels | reflexivity].
Qed.

Lemma data_row_fields_witness :
  let at_s := fun n => mkdt (seconds n) 0 in
  let sleep_data := [mkEntry "watch" 1 (at_s 0) "Core" (at_s 60)] in
  exists o,
    process_health_data sleep_data 0 = inr o
    /\ split_on ";" (data_row o) = row_fields o.
Proof.
  intros at_s sleep_data.
  destruct (process_health_data sleep_data 0) as [e | o] eqn:E.
  - vm_compute in E. discriminate.
  - exists o. split; [reflexivity |].
    exact (proj1 (data_row_fields sleep_data 0 o E)).
Defined.

(** ** Consecutive groups *)

Lemma Sorted_snoc2 {A} (R : A -> A -> Prop) (l : list A) (x a : A) :
  Sorted R (l ++ [x]) -> R x a -> Sorted R ((l ++ [x]) ++ [a]).
Proof.
  intros Hs Hxa. induction l as [| y l IH]; cbn [app] in *.
  - constructor; [constructor; constructor |]. constructor. exact Hxa.
  - inversion Hs as [| ? ? Hl Hy]; subst.
    constructor; [apply IH, Hl |].
    destruct l as [| z l']; cbn [app] in *; inversion Hy; subst;
      constructor; assumption.
Qed.

Lemma changing_state_step (from_date to_date : datetime) (st : GroupState)
    (e : SleepEntry) :
  changing_state st -> changing_state (group_step from_date to_date st e).
Proof.
  intros Hst. unfold group_step. fold (entry_night e).
  destruct (in_night_and_range from_date to_date e); [| exact Hst].
  destruct Hst as [Hs Hc].
  destruct (same_night (current_night_start st) (entry_night e)) eqn:Hsame.
  - apply same_night_true in Hsame.
    destruct (current_night_entries st) as [| x r] eqn:Ecur.
    + specialize (Hc eq_refl). unfold changing_state, flush.
      cbn [grouped_sleep_data current_night_start current_night_entries app].
      rewrite Hc. cbn [app map fst].
      split; [constructor; constructor | discriminate].
    + unfold changing_state, flush in *.
      cbn [grouped_sleep_data current_night_start current_night_entries app]
        in *.
      rewrite Ecur in *. cbn [app] in *. rewrite !map_app in *.
      cbn [map fst] in *. split; [exact Hs | discriminate].
  - assert (Hall : Sorted (fun a b : option Z => a <> b)
                     (map fst (flush st) ++ [Some (entry_night e)])).
    { destruct (current_night_entries st) as [| x r] eqn:Ecur.
      - specialize (Hc eq_refl). unfold flush. rewrite Ecur, Hc.
        cbn [map app]. constructor; constructor.
      - assert (Hne : current_night_entries st <> [])
          by (rewrite Ecur; discriminate).
        rewrite (flush_keys st Hne) in Hs. rewrite (flush_keys st Hne).
        apply Sorted_snoc2; [exact Hs |].
        intros E. rewrite E in Hsame. cbn [same_night] in Hsame.
        rewrite Z.eqb_refl in Hsame. discriminate. }
    unfold changing_state.
    assert (Hf : flush (mkGroupState (flush st) (Some (entry_night e)) [e])
                 = flush st ++ [(Some (entry_night e), [e])]) by reflexivity.
    cbn [grouped_sleep_data current_night_start current_night_entries app].
    rewrite Hf, map_app. cbn [map fst]. split; [exact Hall | discriminate].
Qed.

(** X18: whatever the input, two consecutive groups never carry the same
    night date: a group is closed only when the night date changes. *)
Theorem consecutive_groups_differ (entries : list SleepEntry)
    (from_date to_date : datetime) :
  Sorted (fun a b : option Z => a <> b)
    (map fst (group_nights entries from_date to_date)).
Proof.
  unfold group_nights, group_sorted.
  assert (H : forall l st, changing_state st ->
                changing_state
                  (fold_left (group_step from_date to_date) l st)).
  { induction l as [| e l IH]; intros st Hst; cbn [fold_left];
      [exact Hst | apply IH, changing_state_step, Hst]. }
  apply (H (sorted_by_start entries) group_init).
  split; [constructor | reflexivity].
Qed.

(** ** The sleep onset and the hypnogram *)

Lemma lacks_comma_labels (stages : list CanonicalStage) :
  Forall (fun x => lacks "," x = true) (map stage_label stages).
Proof.
  apply Forall_forall. intros x Hx. apply in_map_iff in Hx.
  destruct Hx as [st [<- _]]. destruct st; reflexivity.
Qed.

(** X19: the hypnogram of a summary is a bracketed list with one stage
    label per slot, in slot order: cut at its commas it gives back the
    stages of the timeline, [ceil((end - start) / 30s)] of them. *)
Theorem hypnogram_labels (sleep_data : list SleepEntry) (shift : Z)
    (n : Night) :
  night_of sleep_data shift = inr n ->
  Hypnogram (output_of n) = ("[" ++ hypnogram n ++ "]")%string
  /\ split_on "," (hypnogram n)
     = map stage_label (map Stage (segments n))
  /\ Z.of_nat (List.length (segments n))
     = ceil_div (dt_sub (end_time n) (start_time n)) (seconds 30)
  /\ 0 < Z.of_nat (List.length (segments n)).
Proof.
  intros Hn. split; [reflexivity |].
  apply night_of_inr in Hn.
  destruct Hn as (first & rest & td & _ & _ & _ & Hsegs & _ & Hfind & _ & _
                  & _ & _ & _ & Hhyp).
  assert (Hpos : 0 < Z.of_nat (List.length (segments n))).
  { destruct (segments n); [discriminate | cbn [List.length]; lia]. }
  assert (Hlen : List.length (segments n)
                 = slots_left (start_time n) (end_time n))
    by (rewrite Hsegs, overlay_length; apply create_30s_segments_length).
  split; [| split; [| exact Hpos]].
  - rewrite Hhyp, <- map_map. unfold split_on.
    destruct (map stage_label (map Stage (segments n))) as [| f fs] eqn:E.
    + destruct (segments n); [cbn in Hpos; lia | discriminate].
    + rewrite (split_on_join "," fs f EmptyString); [reflexivity |].
      rewrite <- E. apply lacks_comma_labels.
  - rewrite Hlen. apply slots_left_ceil.
    destruct (Z.le_gt_cases (utc (start_time n)) (utc (end_time n)))
      as [H | H]; [exact H |].
    rewrite Hlen, slots_left_done in Hpos by lia. cbn in Hpos. lia.
Qed.

Lemma hypnogram_labels_witness :
  let at_s := fun n => mkdt (seconds n) 0 in
  let sleep_data := [mkEntry "watch" 1 (at_s 0) "Core" (at_s 45)] in
  exists n,
    night_of sleep_data 0 = inr n
    /\ split_on "," (hypnogram n) = ["Light"; "Light"]%string.
Proof.
  intros at_s sleep_data.
  destruct (night_of sleep_data 0) as [e | n] eqn:E.
  - vm_compute in E. discriminate.
  - exists n. split; [reflexivity |].
    rewrite (proj1 (proj2 (hypnogram_labels sleep_data 0 n E))).
    vm_compute in E. injection E as <-. reflexivity.
Defined.

(** X20: the sleep-onset slot is the first slot that is not WAKE, or the
    first slot of the night when every slot is WAKE; the onset duration
    printed is 30 seconds for each slot before it, all of them WAKE. *)
Theorem sleep_onset_first_sleep_slot (sleep_data : list SleepEntry)
    (shift : Z) (n : Night) :
  night_of sleep_data shift = inr n ->
  exists before after,
    segments n = before ++ sleep_onset_segment n :: after
    /\ Forall (fun x => Stage x = WAKE) before
    /\ (Stage (sleep_onset_segment n) = WAKE ->
        before = [] /\ Forall (fun x => Stage x = WAKE) after)
    /\ parse_duration_string (sleep_onset_duration n)
       = inr (seconds 30 * Z.of_nat (List.length before)).
Proof.
  intros Hn.
  destruct (night_of_onset sleep_data shift n Hn) as (Hsegs & Hfind & _).
  pose proof (timeline_Start (start_time n) (end_time n)
                (prepared sleep_data shift)) as Hst.
  rewrite <- Hsegs in Hst. clear Hsegs.
  apply night_of_inr in Hn.
  destruct Hn as (first & rest & td & _ & _ & _ & _ & _ & _ & Hdur & _).
  assert (Hparse : forall before after,
            segments n = before ++ sleep_onset_segment n :: after ->
            parse_duration_string (sleep_onset_duration n)
            = inr (seconds 30 * Z.of_nat (List.length before))).
  { intros before after El. rewrite El in Hst.
    apply (f_equal (fun l => nth_error l (List.length before))) in Hst.
    rewrite map_app, nth_error_app2 in Hst by (rewrite length_map; lia).
    rewrite length_map, Nat.sub_diag in Hst. cbn [map nth_error] in Hst.
    rewrite nth_error_map in Hst.
    destruct (nth_error (seq 0 (slots_left (start_time n) (end_time n)))
                (List.length before)) as [k |] eqn:Ek; [| discriminate].
    assert (Hlen : (List.length before
                    < slots_left (start_time n) (end_time n))%nat).
    { rewrite <- (length_seq (slots_left (start_time n) (end_time n)) 0).
      apply nth_error_Some. congruence. }
    assert (k = List.length before).
    { pose proof (nth_error_nth _ _ 0%nat Ek) as H1.
      rewrite seq_nth in H1 by exact Hlen. lia. }
    subst k. cbn [option_map] in Hst.
    assert (Hk : Start (sleep_onset_segment n)
                 = dt_add (start_time n)
                     (seconds 30 * Z.of_nat (List.length before)))
      by congruence.
    rewrite Hdur, Hk, onset_duration_exact. f_equal.
    unfold dt_sub. rewrite utc_dt_add. ring. }
  unfold find_sleep_onset in Hfind.
  destruct (find (fun s => negb (is_wake (Stage s))) (segments n))
    as [x |] eqn:Hf.
  - destruct (segments n) as [| s0 segs'] eqn:Es; [discriminate |].
    cbn [first_segment bind ret] in Hfind. unfold ret in Hfind.
    assert (x = sleep_onset_segment n) by congruence. subst x.
    pose proof (find_some _ _ Hf) as [_ Hx].
    destruct (find_split _ _ _ Hf) as (l1 & l2 & El & Hall).
    exists l1, l2. split; [exact El |]. split; [| split].
    + eapply Forall_impl; [| exact Hall]. intros y Hy.
      apply negb_false_iff in Hy. apply is_wake_true. exact Hy.
    + intros Hw. apply is_wake_true in Hw. rewrite Hw in Hx. discriminate.
    + apply (Hparse l1 l2). exact El.
  - destruct (segments n) as [| s0 segs'] eqn:Es; [discriminate |].
    cbn [first_segment bind ret] in Hfind. unfold ret in Hfind.
    assert (s0 = sleep_onset_segment n) by congruence. subst s0.
    assert (Hall : Forall (fun x => Stage x = WAKE)
                     (sleep_onset_segment n :: segs')).
    { apply Forall_forall. intros y Hy.
      pose proof (find_none _ _ Hf y Hy) as Hny.
      apply negb_false_iff in Hny. apply is_wake_true. exact Hny. }
    exists [], segs'. split; [reflexivity |]. split; [constructor |].
    split.
    + intros _. split; [reflexivity |].
      inversion Hall; assumption.
    + apply (Hparse [] segs'). reflexivity.
Qed.

Lemma sleep_onset_first_sleep_slot_witness :
  let at_s := fun n => mkdt (seconds n) 0 in
  let sleep_data :=
    [ mkEntry "watch" 1 (at_s 0) "InBed" (at_s 60);
      mkEntry "watch" 1 (at_s 60) "Core" (at_s 120) ] in
  exists n before after,
    night_of sleep_data 0 = inr n
    /\ segments n = before ++ sleep_onset_segment n :: after
    /\ parse_duration_string (sleep_onset_duration n)
       = inr (seconds 30 * Z.of_nat (List.length before)).
Proof.
  intros at_s sleep_data.
  destruct (night_of sleep_data 0) as [e | n] eqn:E.
  - vm_compute in E. discriminate.
  - destruct (sleep_onset_first_sleep_slot sleep_data 0 n E)
      as (before & after & H1 & _ & _ & H2).
    exists n, before, after. split; [reflexivity |].
    split; [exact H1 | exact H2].
Defined.

(** X21: the overlay never gives a slot a stage without a cause: a slot of
    the timeline that is not WAKE after the overlay is covered (both ends
    included) by an entry whose label maps to that stage. *)
Theorem overlay_stage_has_cause (start end_ : datetime)
    (sleep_data : list SleepEntry) (seg : SleepSegment) :
  In seg (update_segments_with_sleep_data (create_30s_segments start end_)
            sleep_data) ->
  Stage seg <> WAKE ->
  exists e, In e sleep_data
            /\ utc (StartDate e) <= utc (Start seg) <= utc (EndDate e)
            /\ map_sleep_stage (Value e) = Stage seg.
Proof.
  rewrite overlay_closed_form. intros Hin Hs.
  apply in_map_iff in Hin. destruct Hin as [seg0 [<- Hin0]].
  pose proof (create_30s_segments_all_wake start end_) as Hw.
  rewrite Forall_forall in Hw. specialize (Hw seg0 Hin0).
  unfold overlaid in *. cbn [Start Stage] in *. rewrite Hw in *.
  cbn [is_wake Stage_eqb] in *. unfold first_writer in *.
  destruct (find _ sleep_data) as [e |] eqn:Hf; [| contradiction].
  apply find_some in Hf. destruct Hf as [He Hc].
  apply andb_true_iff in Hc. destruct Hc as [Hc _].
  unfold covers, dt_leb in Hc. apply andb_true_iff in Hc.
  destruct Hc as [H1 H2]. apply Z.leb_le in H1, H2.
  exists e. split; [exact He |]. split; [lia | reflexivity].
Qed.

Lemma overlay_stage_has_cause_witness :
  let start := mkdt 0 0 in
  let end_ := mkdt (seconds 45) 0 in
  let sleep_data := [mkEntry "watch" 1 start "Core" end_] in
  let seg := mkSegment start Light in
  In seg (update_segments_with_sleep_data (create_30s_segments start end_)
            sleep_data)
  /\ Stage seg <> WAKE
  /\ exists e, In e sleep_data /\ map_sleep_stage (Value e) = Stage seg.
Proof.
  intros start end_ sleep_data seg.
  assert (H1 : In seg (update_segments_with_sleep_data
                         (create_30s_segments start end_) sleep_data))
    by (vm_compute; left; reflexivity).
  assert (H2 : Stage seg <> WAKE) by (cbn; discriminate).
  split; [exact H1 |]. split; [exact H2 |].
  destruct (overlay_stage_has_cause start end_ sleep_data seg H1 H2)
    as (e & He & _ & Hst).
  exists e. split; [exact He | exact Hst].
Defined.
